(** * Outage dashboard pipeline: validation of the model reply and HTML extraction

    A shallow embedding of [analyse_insights.py] (the repair pass that
    [analyze_insights] runs on the parsed model reply, and the persistence
    of the report), of [webscrapper.py] (the extractors of the outage
    page and of the map page) and of the end of [compare_tmob.py], with
    the properties of the specification stated over them.

    Python values are modelled as they are at run time: [int] as [Z],
    [float] as an IEEE 754 binary64 value ([spec_float] with precision 53
    and maximal exponent 1024), [str] as [string] (one character per code
    point, code points below 256), [dict] as an association list in
    insertion order, [list] as [list].  Exceptions are explicit. *)

From Stdlib Require Import ZArith List Bool String Ascii Lia.
From Stdlib Require Import Floats.SpecFloat.
Import ListNotations.
Local Set Warnings "-register-all".
Open Scope string_scope.
Open Scope Z_scope.

(* ===================================================================== *)
(** * Python values and built-ins *)
(* ===================================================================== *)

Module Py.

(** The exception classes that the modelled code can raise.
    [JSONDecodeError] is a subclass of [ValueError]; the others are not
    subclasses of one another. *)
Inductive exn :=
  TypeError | ValueError | OverflowError | AttributeError | KeyError | ZeroDivisionError
| JSONDecodeError | RecursionError | FileNotFoundError.

Inductive result (A : Type) :=
| Ok (a : A)
| Raise (e : exn).
Arguments Ok {A} a.
Arguments Raise {A} e.

Definition bind {A B} (r : result A) (k : A -> result B) : result B :=
  match r with
  | Ok a => k a
  | Raise e => Raise e
  end.

Notation "x <- c ;; k" := (bind c (fun x => k))
  (at level 61, c at next level, right associativity).

(** [try: body  except (ValueError, TypeError): handler]; the clause
    catches the subclass [JSONDecodeError] of [ValueError] as well. *)
Definition try_except {A} (body handler : result A) : result A :=
  match body with
  | Raise ValueError | Raise TypeError | Raise JSONDecodeError => handler
  | r => r
  end.

(** ** binary64 *)

Definition prec : Z := 53.
Definition emax : Z := 1024.

Definition float := spec_float.

(** Nearest binary64 (ties to even) of the quotient of two positive
    integers of any size, with the sign [s]. *)
Definition nearest_quot (s : bool) (n d : positive) : float :=
  SFdiv prec emax (S754_finite s n 0) (S754_finite false d 0).

(** Nearest binary64 of an integer; an infinity when it is out of range. *)
Definition nearest_Z (z : Z) : float := binary_normalize prec emax z 0 false.

Definition f0 : float := S754_zero false.
Definition f1 : float := Eval vm_compute in nearest_Z 1.
Definition f5 : float := Eval vm_compute in nearest_Z 5.
Definition f10 : float := Eval vm_compute in nearest_Z 10.

(** Rounding of the rational [n / d] ([d] positive) to the nearest
    integer, ties to the even one. *)
Definition rhe_div (n d : Z) : Z :=
  let q := n / d in
  let r := n mod d in
  match 2 * r ?= d with
  | Lt => q
  | Gt => q + 1
  | Eq => if Z.even q then q else q + 1
  end.

Definition signed (s : bool) (z : Z) : Z := if s then - z else z.

(** [round(x)] on a float: an [int]; [ValueError] on a NaN and
    [OverflowError] on an infinity. *)
Definition round_float (x : float) : result Z :=
  match x with
  | S754_zero _ => Ok 0
  | S754_nan => Raise ValueError
  | S754_infinity _ => Raise OverflowError
  | S754_finite s m e =>
      Ok (signed s match e with
                   | Zneg p => rhe_div (Zpos m) (Z.pow_pos 2 p)
                   | _ => Zpos m * 2 ^ e
                   end)
  end.

(** [int(x)] on a float: truncation towards zero. *)
Definition int_float (x : float) : result Z :=
  match x with
  | S754_zero _ => Ok 0
  | S754_nan => Raise ValueError
  | S754_infinity _ => Raise OverflowError
  | S754_finite s m e =>
      Ok (signed s match e with
                   | Zneg p => Zpos m / Z.pow_pos 2 p
                   | _ => Zpos m * 2 ^ e
                   end)
  end.

(** [round(x, n)] for [n >= 0]: the exact value of [x] is rounded to the
    nearest multiple of [10^-n] (ties to even), and the float nearest to
    that decimal is returned; zeros, infinities and NaN are returned as
    they are. *)
Definition round_ndigits (x : float) (n : nat) : float :=
  match x with
  | S754_finite s m e =>
      let p := 10 ^ Z.of_nat n in
      let d := match e with
               | Zneg q => rhe_div (Zpos m * p) (Z.pow_pos 2 q)
               | _ => Zpos m * 2 ^ e * p
               end in
      match d with
      | Zpos d' => nearest_quot s d' (Z.to_pos p)
      | _ => S754_zero s
      end
  | _ => x
  end.

(** [min(a, b)] and [max(a, b)] return [a] unless [b < a], respectively
    [b > a]; a comparison with a NaN is false. *)
Definition min_float (a b : float) : float := if SFltb b a then b else a.
Definition max_float (a b : float) : float := if SFltb a b then b else a.
Definition min_int (a b : Z) : Z := if b <? a then b else a.
Definition max_int (a b : Z) : Z := if a <? b then b else a.

(** ** JSON values, as [json.loads] builds them *)

Inductive json :=
| JNull
| JBool (b : bool)
| JInt (z : Z)
| JFloat (f : float)
| JStr (s : string)
| JArr (l : list json)
| JObj (d : list (string * json)).

Definition dict := list (string * json).

Fixpoint dict_get (k : string) (d : dict) : option json :=
  match d with
  | [] => None
  | (k', v) :: r => if String.eqb k k' then Some v else dict_get k r
  end.

(** Assignment to a key keeps the position of an existing key and appends
    a new one. *)
Fixpoint dict_set (k : string) (v : json) (d : dict) : dict :=
  match d with
  | [] => [(k, v)]
  | (k', v') :: r =>
      if String.eqb k k' then (k, v) :: r else (k', v') :: dict_set k v r
  end.

Definition is_none (v : json) : bool :=
  match v with JNull => true | _ => false end.

Definition is_str (k : string) (v : json) : bool :=
  match v with JStr s => String.eqb k s | _ => false end.

Fixpoint contains (k s : string) : bool :=
  prefix k s || match s with
                | EmptyString => false
                | String _ r => contains k r
                end.

(** [k in v] for a string [k]: a key of a dict, an element of a list, a
    substring of a string; other values are not iterable. *)
Definition py_in (k : string) (v : json) : result bool :=
  match v with
  | JObj d => Ok match dict_get k d with Some _ => true | None => false end
  | JArr l => Ok (existsb (is_str k) l)
  | JStr s => Ok (contains k s)
  | _ => Raise TypeError
  end.

(** [v[k]] for a string [k]. *)
Definition getitem (v : json) (k : string) : result json :=
  match v with
  | JObj d => match dict_get k d with
              | Some x => Ok x
              | None => Raise KeyError
              end
  | _ => Raise TypeError
  end.

(** [v[k] = x] for a string [k]. *)
Definition setitem (v : json) (k : string) (x : json) : result json :=
  match v with
  | JObj d => Ok (JObj (dict_set k x d))
  | _ => Raise TypeError
  end.

(** [v.get(k, default)] *)
Definition get_default (v : json) (k : string) (default : json) : result json :=
  match v with
  | JObj d => Ok match dict_get k d with
                 | Some x => x
                 | None => default
                 end
  | _ => Raise AttributeError
  end.

Definition py_len (v : json) : result Z :=
  match v with
  | JArr l => Ok (Z.of_nat (List.length l))
  | JStr s => Ok (Z.of_nat (String.length s))
  | JObj d => Ok (Z.of_nat (List.length d))
  | _ => Raise TypeError
  end.

(** [v[:n]]; a dict cannot be sliced ([TypeError], a [KeyError] from
    Python 3.12 on). *)
Definition slice_to (v : json) (n : nat) : result json :=
  match v with
  | JArr l => Ok (JArr (firstn n l))
  | JStr s => Ok (JStr (substring 0 n s))
  | _ => Raise TypeError
  end.

Fixpoint chars (s : string) : list json :=
  match s with
  | EmptyString => []
  | String c r => JStr (String c EmptyString) :: chars r
  end.

(** The values a [for] loop over [v] visits. *)
Definition iterate (v : json) : result (list json) :=
  match v with
  | JArr l => Ok l
  | JObj d => Ok (map (fun kv => JStr (fst kv)) d)
  | JStr s => Ok (chars s)
  | _ => Raise TypeError
  end.

Fixpoint mapM {A B} (f : A -> result B) (l : list A) : result (list B) :=
  match l with
  | [] => Ok []
  | a :: r => b <- f a ;; bs <- mapM f r ;; Ok (b :: bs)
  end.

(** The operand of an integer addition or comparison. *)
Definition as_int (v : json) : result Z :=
  match v with
  | JInt z => Ok z
  | JBool b => Ok (if b then 1 else 0)
  | _ => Raise TypeError
  end.

(** [int / int]: the float nearest to the quotient. *)
Definition truediv (a b : Z) : result float :=
  match a, b with
  | _, Z0 => Raise ZeroDivisionError
  | Z0, _ => Ok f0
  | Zpos n, Zpos d => Ok (nearest_quot false n d)
  | Zneg n, Zpos d => Ok (nearest_quot true n d)
  | Zpos n, Zneg d => Ok (nearest_quot true n d)
  | Zneg n, Zneg d => Ok (nearest_quot false n d)
  end.

(** [float(z)] for an [int]. *)
Definition float_of_int (z : Z) : result float :=
  match nearest_Z z with
  | S754_infinity _ => Raise OverflowError
  | f => Ok f
  end.

Section Conversions.

(** [float(s)] and [int(s)] for a string: the parsed number, or [None]
    where Python raises [ValueError]. *)
Variable str_to_float : string -> option float.
Variable str_to_int : string -> option Z.

Definition py_float (v : json) : result float :=
  match v with
  | JBool b => Ok (if b then f1 else f0)
  | JInt z => float_of_int z
  | JFloat f => Ok f
  | JStr s => match str_to_float s with
              | Some f => Ok f
              | None => Raise ValueError
              end
  | _ => Raise TypeError
  end.

Definition py_int (v : json) : result Z :=
  match v with
  | JBool b => Ok (if b then 1 else 0)
  | JInt z => Ok z
  | JFloat f => int_float f
  | JStr s => match str_to_int s with
              | Some z => Ok z
              | None => Raise ValueError
              end
  | _ => Raise TypeError
  end.

End Conversions.

End Py.

(* ===================================================================== *)
(** * The repair pass of [analyze_insights] (analyse_insights.py) *)
(* ===================================================================== *)

Module Validator.
Import Py.

(** The statement shape of the pass,
    [if k in dj and ...: dj[k] = ...], on a value mutated in place: when
    [k in dj] holds, [f] computes from [dj[k]] the value that the guarded
    statements leave there. *)
Definition with_item (dj : json) (k : string) (f : json -> result json)
  : result json :=
  b <- py_in k dj ;;
  if b : bool then
    v <- getitem dj k ;;
    v' <- f v ;;
    setitem dj k v'
  else Ok dj.

Section Pass.

Variable str_to_float : string -> option float.
Variable str_to_int : string -> option Z.

Local Abbreviation to_float := (py_float str_to_float).
Local Abbreviation to_int := (py_int str_to_int).

(** [max(0.0, min(hi, round(float(v), n)))], with [0.0] on a
    [ValueError] or [TypeError]; [None] is left alone. *)
Definition clamp_number (hi : float) (n : nat) (v : json) : result json :=
  if is_none v then Ok v
  else try_except
         (x <- to_float v ;;
          Ok (JFloat (max_float f0 (min_float hi (round_ndigits x n)))))
         (Ok (JFloat f0)).

(** [max(0, min(100, int(round(float(v)))))], with [0] on a
    [ValueError] or [TypeError]; [None] is left alone. *)
Definition clamp_percent (v : json) : result json :=
  if is_none v then Ok v
  else try_except
         (x <- to_float v ;;
          r <- round_float x ;;
          Ok (JInt (max_int 0 (min_int 100 r))))
         (Ok (JInt 0)).

(** Lines 211-215. *)
Definition validate_pain_index (dj : json) : result json :=
  with_item dj "pain_index" (clamp_number f10 1).

(** Lines 217-221. *)
Definition validate_star_rating (dj : json) : result json :=
  with_item dj "header" (fun header =>
    with_item header "star_rating" (clamp_number f5 2)).

(** Lines 226-231: the loop over the three keys. *)
Definition clamp_sentiment (sent : json) : result json :=
  sent <- with_item sent "negative" clamp_percent ;;
  sent <- with_item sent "neutral" clamp_percent ;;
  with_item sent "positive" clamp_percent.

(** [int(round(sent.get(k, 0) * scale))] *)
Definition scaled (sent : json) (k : string) (scale : float) : result Z :=
  v <- get_default sent k (JInt 0) ;;
  n <- as_int v ;;
  x <- float_of_int n ;;
  round_float (SFmul prec emax x scale).

(** Lines 232-239.  After the loop every value read here is an [int] or
    [None], and [None] cannot be added. *)
Definition renormalize (sent : json) : result json :=
  a <- get_default sent "negative" (JInt 0) ;;
  b <- get_default sent "neutral" (JInt 0) ;;
  c <- get_default sent "positive" (JInt 0) ;;
  a <- as_int a ;;
  b <- as_int b ;;
  c <- as_int c ;;
  let total := a + b + c in
  if negb (total =? 100) && (0 <? total) then
    scale <- truediv 100 total ;;
    negative <- scaled sent "negative" scale ;;
    sent <- setitem sent "negative" (JInt negative) ;;
    neutral <- scaled sent "neutral" scale ;;
    sent <- setitem sent "neutral" (JInt neutral) ;;
    negative <- getitem sent "negative" ;;
    neutral <- getitem sent "neutral" ;;
    negative <- as_int negative ;;
    neutral <- as_int neutral ;;
    setitem sent "positive" (JInt (100 - negative - neutral))
  else Ok sent.

(** Lines 224-239. *)
Definition validate_sentiment (dj : json) : result json :=
  with_item dj "sentiment" (fun sent =>
    sent <- clamp_sentiment sent ;;
    renormalize sent).

(** Lines 242-248.  Only the elements of a list can be mutated; the keys
    of a dict and the characters of a string are visited too. *)
Definition validate_problem_distribution (dj : json) : result json :=
  with_item dj "problem_distribution" (fun pd =>
    probs <- iterate pd ;;
    probs <- mapM (fun prob => with_item prob "percent" clamp_percent) probs ;;
    Ok match pd with
       | JArr _ => JArr probs
       | _ => pd
       end).

(** [if len(v) > n: v = v[:n]] *)
Definition truncate (n : nat) (v : json) : result json :=
  len <- py_len v ;;
  if Z.of_nat n <? len then slice_to v n else Ok v.

(** Lines 251-265. *)
Definition validate_lengths (dj : json) : result json :=
  dj <- with_item dj "key_metrics" (truncate 5) ;;
  dj <- with_item dj "active_outages" (truncate 10) ;;
  dj <- with_item dj "geographic_hotspots" (truncate 5) ;;
  dj <- with_item dj "recent_activity" (truncate 8) ;;
  dj <- with_item dj "critical_insights" (truncate 4) ;;
  dj <- with_item dj "recommendations" (truncate 3) ;;
  with_item dj "sentiment" (fun sent =>
    with_item sent "samples" (truncate 4)).

(** [if v not in allowed: v = default] *)
Definition enum (allowed : list string) (default : string) (v : json)
  : result json :=
  Ok (if existsb (fun a => is_str a v) allowed then v else JStr default).

(** Lines 268-274. *)
Definition validate_enums (dj : json) : result json :=
  with_item dj "header" (fun header =>
    header <- with_item header "status"
                (enum ["good"; "moderate"; "major issues"] "moderate") ;;
    with_item header "status_color"
      (enum ["green"; "yellow"; "red"] "yellow")).

(** [max(0, int(v))], with [0] on a [ValueError] or [TypeError]; [None]
    is left alone. *)
Definition clamp_count (v : json) : result json :=
  if is_none v then Ok v
  else try_except
         (n <- to_int v ;; Ok (JInt (max_int 0 n)))
         (Ok (JInt 0)).

(** Lines 277-281. *)
Definition validate_total_reports (dj : json) : result json :=
  with_item dj "header" (fun header =>
    with_item header "total_reports_24h" clamp_count).

(** Lines 210-281: the repairs applied to the value [json.loads]
    returned, in the order of the source. *)
Definition repair (dj : json) : result json :=
  dj <- validate_pain_index dj ;;
  dj <- validate_star_rating dj ;;
  dj <- validate_sentiment dj ;;
  dj <- validate_problem_distribution dj ;;
  dj <- validate_lengths dj ;;
  dj <- validate_enums dj ;;
  validate_total_reports dj.

End Pass.

End Validator.

(* ===================================================================== *)
(** * Strings *)
(* ===================================================================== *)

Module Str.


(** [str.isspace] on the code points below 256. *)
Definition is_space (c : ascii) : bool :=
  let n := nat_of_ascii c in
  ((9 <=? n) && (n <=? 13) || (28 <=? n) && (n <=? 32)
   || (n =? 133) || (n =? 160))%nat.

Definition is_digit (c : ascii) : bool :=
  let n := nat_of_ascii c in ((48 <=? n) && (n <=? 57))%nat.

Fixpoint rev_onto (s acc : string) : string :=
  match s with
  | EmptyString => acc
  | String c r => rev_onto r (String c acc)
  end.

Definition rev (s : string) : string := rev_onto s "".

Fixpoint lstrip (s : string) : string :=
  match s with
  | String c r => if is_space c then lstrip r else s
  | EmptyString => s
  end.

(** [s.strip()] *)
Definition strip (s : string) : string := rev (lstrip (rev (lstrip s))).

(** The rest of [s] after the prefix [p], when [s] starts with [p]. *)
Fixpoint after (p s : string) : option string :=
  match p, s with
  | EmptyString, _ => Some s
  | String a p', String b s' => if Ascii.eqb a b then after p' s' else None
  | String _ _, EmptyString => None
  end.

(** [after] when there is such a prefix, [s] otherwise. *)
Definition skip (p s : string) : string :=
  match after p s with
  | Some r => r
  | None => s
  end.

(** The longest prefix of characters satisfying [f], and the rest. *)
Fixpoint span (f : ascii -> bool) (s : string) : string * string :=
  match s with
  | String c r =>
      if f c then let '(a, b) := span f r in (String c a, b) else ("", s)
  | EmptyString => ("", "")
  end.

(** Exactly [n] digits, and the rest. *)
Fixpoint digits_exactly (n : nat) (s : string) : option (string * string) :=
  match n, s with
  | O, _ => Some ("", s)
  | S k, String c r =>
      if is_digit c
      then match digits_exactly k r with
           | Some (a, b) => Some (String c a, b)
           | None => None
           end
      else None
  | S _, EmptyString => None
  end.

(** [int(s)] on a string of decimal digits. *)
Fixpoint int_of_digits (acc : Z) (s : string) : Z :=
  match s with
  | EmptyString => acc
  | String c r => int_of_digits (10 * acc + Z.of_nat (nat_of_ascii c - 48)) r
  end.

(** [str.lower] on the code points below 256. *)
Definition lower_char (c : ascii) : ascii :=
  let n := nat_of_ascii c in
  if ((65 <=? n) && (n <=? 90)
      || (192 <=? n) && (n <=? 222) && negb (n =? 215))%nat
  then ascii_of_nat (n + 32) else c.

Fixpoint lower (s : string) : string :=
  match s with
  | EmptyString => ""
  | String c r => String (lower_char c) (lower r)
  end.

(** [s.replace("Z", "+00:00")] *)
Fixpoint replace_Z (s : string) : string :=
  match s with
  | EmptyString => ""
  | String c r =>
      if Ascii.eqb c "Z" then "+00:00" ++ replace_Z r
      else String c (replace_Z r)
  end.

End Str.

(* ===================================================================== *)
(** * Persistence of the report (analyse_insights.py, lines 201-296) *)
(* ===================================================================== *)

Module Report.
Import Py Validator.




(** What a run leaves behind: the file written under [reports/], or the
    exception that ended the run before anything was written. *)
Inductive outcome :=
| Written (file_name : string) (content : string)
| Failed (e : exn).

Section Analyze.

Variable str_to_float : string -> option float.
Variable str_to_int : string -> option Z.

(** [json.loads]: the value, or the exception it raises, which is a
    [JSONDecodeError] on a text that is no JSON, a [RecursionError] on
    brackets nested too deep, and a [ValueError] on an integer literal of
    more digits than the interpreter converts.
    [json.dumps(_, indent=2, ensure_ascii=False)]. *)
Variable loads : string -> result json.
Variable dumps : json -> string.


End Analyze.

End Report.

(* ===================================================================== *)
(** * The extractors of the outage page (webscrapper.py) *)
(* ===================================================================== *)

Module Scraper.
Import Py.

(** ** The parsed document

    The tree BeautifulSoup builds: strings and elements with a name,
    attributes and children.  A string is an object of the class
    [NavigableString] or of one of its subclasses, which the parser
    chooses: [Comment], [CData], [Declaration], [Doctype] and
    [ProcessingInstruction] for the markup of these kinds, and for a text
    the class of the innermost element around it that is a container of
    special strings ([Script] in a [script], [Stylesheet] in a [style],
    [TemplateString] in a [template], [RubyTextString] in an [rt],
    [RubyParenthesisString] in an [rp]), else [NavigableString]. *)
Inductive string_class :=
| NavigableString | CData | Comment | Declaration | Doctype
| ProcessingInstruction | Script | Stylesheet | TemplateString
| RubyTextString | RubyParenthesisString.

Inductive node :=
| Text (cls : string_class) (s : string)
| Elem (name : string) (attrs : list (string * string)) (kids : list node).

Definition soup := list node.

(** A [Tag] object: an element together with the name and attributes of
    its ancestors, the parent first. *)
Record tag := Tag {
  parents : list (string * list (string * string));
  tag_name : string;
  tag_attrs : list (string * string);
  contents : list node
}.

Fixpoint lookup (k : string) (l : list (string * string)) : option string :=
  match l with
  | [] => None
  | (k', v) :: r => if String.eqb k k' then Some v else lookup k r
  end.

(** The element [n] and the elements below it, in document order. *)
Fixpoint tags_of (up : list (string * list (string * string))) (n : node)
  : list tag :=
  match n with
  | Text _ _ => []
  | Elem name attrs kids =>
      Tag up name attrs kids :: flat_map (tags_of ((name, attrs) :: up)) kids
  end.

Definition all_tags (doc : soup) : list tag := flat_map (tags_of []) doc.

Definition descendants (t : tag) : list tag :=
  flat_map (tags_of ((tag_name t, tag_attrs t) :: parents t)) (contents t).

Definition class_code (c : string_class) : nat :=
  match c with
  | NavigableString => 0 | CData => 1 | Comment => 2 | Declaration => 3
  | Doctype => 4 | ProcessingInstruction => 5 | Script => 6
  | Stylesheet => 7 | TemplateString => 8 | RubyTextString => 9
  | RubyParenthesisString => 10
  end%nat.

Definition same_class (a b : string_class) : bool :=
  Nat.eqb (class_code a) (class_code b).

(** [t.interesting_string_types] (Beautiful Soup 4.11 and later): the
    classes of the strings that count as the text of [t].  An element
    that is a container of special strings
    has the class of its own strings; every other element has
    [NavigableString] and [CData], so that the strings of the scripts,
    style sheets and templates below it, and the comments, are no text of
    it.  A string counts when its class is one of these, not a subclass
    of one. *)
Definition interesting_string_types (name : string) : list string_class :=
  if String.eqb name "rt" then [RubyTextString]
  else if String.eqb name "rp" then [RubyParenthesisString]
  else if String.eqb name "style" then [Stylesheet]
  else if String.eqb name "script" then [Script]
  else if String.eqb name "template" then [TemplateString]
  else [NavigableString; CData].

(** The strings at and below [n] whose class is one of [types], in
    document order. *)
Fixpoint strings (types : list string_class) (n : node) : list string :=
  match n with
  | Text cls s => if existsb (same_class cls) types then [s] else []
  | Elem _ _ kids => flat_map (strings types) kids
  end.

(** [t.get_text(strip=True)]: the strings below [t] of the classes that
    interest [t], stripped, those that are not empty, joined. *)
Definition get_text (t : tag) : string :=
  String.concat ""
    (filter (fun s => negb (String.eqb s ""))
       (map Str.strip
          (flat_map (strings (interesting_string_types (tag_name t)))
             (contents t)))).

(** [t.string]: the only child when it is a string, of whatever class,
    and the [string] of the only child when it is an element. *)
Fixpoint node_string (n : node) : option string :=
  match n with
  | Text _ s => Some s
  | Elem _ _ [k] => node_string k
  | Elem _ _ _ => None
  end.

Definition tag_string (t : tag) : option string :=
  match contents t with
  | [k] => node_string k
  | _ => None
  end.

(** ** Selectors

    The CSS selectors of the source are sequences of compound selectors
    (a tag name, an id, classes) joined by the descendant or the child
    combinator.  A selector is kept from right to left: the compound the
    element has to match, then what its ancestors have to match. *)
Record compound := Compound {
  c_name : option string;
  c_id : option string;
  c_classes : list string
}.

Inductive combinator := Descendant | Child.

Definition selector : Type := compound * list (combinator * compound).

(** The words of a [class] attribute. *)
Fixpoint words_from (cur : string) (s : string) : list string :=
  match s with
  | EmptyString => if String.eqb cur "" then [] else [Str.rev cur]
  | String c r =>
      if Str.is_space c
      then (if String.eqb cur "" then [] else [Str.rev cur]) ++ words_from "" r
      else words_from (String c cur) r
  end.

Definition classes_of (attrs : list (string * string)) : list string :=
  match lookup "class" attrs with
  | Some v => words_from "" v
  | None => []
  end.

Definition matches_compound (c : compound) (e : string * list (string * string))
  : bool :=
  match c_name c with
  | Some n => String.eqb n (fst e)
  | None => true
  end
  && match c_id c with
     | Some i => match lookup "id" (snd e) with
                 | Some j => String.eqb i j
                 | None => false
                 end
     | None => true
     end
  && forallb (fun k => existsb (String.eqb k) (classes_of (snd e))) (c_classes c).

Fixpoint matches_above (rest : list (combinator * compound))
  (up : list (string * list (string * string))) : bool :=
  match rest with
  | [] => true
  | (Child, c) :: rest' =>
      match up with
      | p :: up' => matches_compound c p && matches_above rest' up'
      | [] => false
      end
  | (Descendant, c) :: rest' =>
      (fix scan (up : list (string * list (string * string))) : bool :=
         match up with
         | [] => false
         | p :: up' =>
             matches_compound c p && matches_above rest' up' || scan up'
         end) up
  end.

Definition matches (sel : selector) (t : tag) : bool :=
  matches_compound (fst sel) (tag_name t, tag_attrs t)
  && matches_above (snd sel) (parents t).

(** [soup.select(sel)] and [t.select(sel)]: the matching elements of the
    document, respectively below [t], in document order. *)
Definition select (sel : selector) (doc : soup) : list tag :=
  filter (matches sel) (all_tags doc).

Definition select_in (sel : selector) (t : tag) : list tag :=
  filter (matches sel) (descendants t).

Definition select_one (sel : selector) (doc : soup) : option tag :=
  hd_error (select sel doc).

Definition select_one_in (sel : selector) (t : tag) : option tag :=
  hd_error (select_in sel t).

Definition by_name (n : string) : selector := (Compound (Some n) None [], []).
Definition by_class (c : string) : selector := (Compound None None [c], []).
Definition by_id (i : string) : selector := (Compound None (Some i) [], []).

(** [t.find_all(name)] and [t.find(name)] *)
Definition find_all (n : string) (t : tag) : list tag := select_in (by_name n) t.
Definition find (n : string) (t : tag) : option tag := hd_error (find_all n t).

(** ** Helpers of the source *)

Definition text (el : option tag) : string :=
  match el with
  | Some t => get_text t
  | None => ""
  end.

Definition attr (el : option tag) (name : string) : option string :=
  match el with
  | Some t => lookup name (tag_attrs t)
  | None => None
  end.

(** [s or None] and an optional string as a JSON value. *)
Definition or_none (s : string) : json :=
  if String.eqb s "" then JNull else JStr s.

Definition opt_str (o : option string) : json :=
  match o with
  | Some s => JStr s
  | None => JNull
  end.

Section Extractors.

(** [datetime.fromisoformat(s).isoformat()] and
    [datetime.strptime(s, "%A, %B %d, %Y %I:%M %p").isoformat()], with
    [None] where they raise. *)
Variable fromisoformat : string -> option string.
Variable strptime_title : string -> option string.

(** [sys.get_int_max_str_digits()]: 4300 unless the interpreter is
    configured otherwise, 0 for no limit.  The versions of Python without
    the limit behave as with 0. *)
Variable max_str_digits : nat.

(** [int(s)] on a string of decimal digits: a [ValueError] when the
    string has more digits than the limit; a string of at most 640 digits
    is never refused. *)
Definition int_of_digit_string (s : string) : result Z :=
  let digits := String.length s in
  if ((640 <? digits) && (0 <? max_str_digits) && (max_str_digits <? digits))%nat
  then Raise ValueError
  else Ok (Str.int_of_digits 0 s).

Definition parse_datetime (raw : option string) : option string :=
  match raw with
  | None => None
  | Some "" => None
  | Some raw =>
      match fromisoformat (Str.replace_Z raw) with
      | Some iso => Some iso
      | None =>
          match strptime_title raw with
          | Some iso => Some iso
          | None => Some raw
          end
      end
  end.

Definition parse_star_rating (doc : soup) : json :=
  match select_one (by_class "star-rating-text") doc with
  | None => JObj []
  | Some container =>
      let current := select_one_in (by_class "star-rating-current") container in
      let count := select_one_in (by_class "star-rating-count") container in
      JObj [("current", or_none (text current));
            ("count", or_none (text count))]
  end.

(** [re.search(r"(\d+)%", s)]: the digits of the leftmost match. *)
Fixpoint search_percent (s : string) : option string :=
  match s with
  | EmptyString => None
  | String c r =>
      if Str.is_digit c
      then match Str.span Str.is_digit s with
           | (ds, String "%" _) => Some ds
           | _ => search_percent r
           end
      else search_percent r
  end.

(** The length of a match of [\(\d+%\)] at the start of [s]. *)
Definition paren_percent_at (s : string) : option nat :=
  match s with
  | String "(" r =>
      match Str.span Str.is_digit r with
      | (String d ds, String "%" (String ")" _)) =>
          Some (String.length (String d ds) + 3)%nat
      | _ => None
      end
  | _ => None
  end.

(** [re.sub(r"\(\d+%\)", "", s)]; [skip] counts the characters of the
    current match still to be dropped. *)
Fixpoint drop_paren_percent (skip : nat) (s : string) : string :=
  match s with
  | EmptyString => ""
  | String c r =>
      match skip with
      | S k => drop_paren_percent k r
      | O =>
          match paren_percent_at s with
          | Some n => drop_paren_percent (n - 1) r
          | None => String c (drop_paren_percent 0 r)
          end
      end
  end.

(** The body of the loop of [parse_most_reported]; the conversion of
    the digits is outside any [try]. *)
Definition problem_of (li : tag) : result json :=
  let label := text (select_one_in (by_name "p") li) in
  let percent_text :=
    let t := text (select_one_in
                     (Compound (Some "span") None [],
                      [(Descendant, Compound (Some "p") None [])]) li) in
    if negb (String.eqb t "") then t
    else match attr (select_one_in (by_name "img") li) "alt" with
         | Some a => a
         | None => ""
         end in
  percent <- match search_percent percent_text with
             | Some ds => n <- int_of_digit_string ds ;; Ok (JInt n)
             | None => Ok JNull
             end ;;
  let label := Str.strip (drop_paren_percent 0 label) in
  Ok (JObj [("label", JStr label); ("percent", percent)]).

Definition problem_items : selector :=
  (Compound (Some "li") None [],
   [(Child, Compound (Some "ol") None ["doughtnut-list"])]).

Fixpoint most_reported_loop (lis : list tag) (problems : list json)
  : result (list json) :=
  match lis with
  | [] => Ok problems
  | li :: rest =>
      problem <- problem_of li ;;
      most_reported_loop rest (problems ++ [problem])
  end.

Definition parse_most_reported (doc : soup) : result json :=
  problems <- most_reported_loop (select problem_items doc) [] ;;
  Ok (JArr problems).

Definition report_rows : selector :=
  (Compound (Some "tr") None [],
   [(Descendant, Compound None (Some "latestreports") [])]).

(** The dict appended for a row of three cells. *)
Definition report_of (c0 c1 c2 : tag) : json :=
  let time_el := find "time" c2 in
  JObj [("city", JStr (text (Some c0)));
        ("reason", JStr (text (Some c1)));
        ("time_human", JStr (text (Some c2)));
        ("time_iso", opt_str (parse_datetime (attr time_el "datetime")))].

Fixpoint latest_reports_loop (trs : list tag) (reports : list json)
  : list json :=
  match trs with
  | [] => reports
  | tr :: rest =>
      match find_all "td" tr with
      | [c0; c1; c2] => latest_reports_loop rest (reports ++ [report_of c0 c1 c2])
      | _ => latest_reports_loop rest reports
      end
  end.

Definition parse_latest_reports (doc : soup) : json :=
  JArr (latest_reports_loop (select report_rows doc) []).

(** A match of [var\s+chartTs\s*=\s*(\d+)] at the start of [s]: its
    digits. *)
Definition chart_ts_at (s : string) : option string :=
  match Str.after "var" s with
  | Some r =>
      match Str.span Str.is_space r with
      | (String _ _, r) =>
          match Str.after "chartTs" r with
          | Some r =>
              match Str.after "=" (snd (Str.span Str.is_space r)) with
              | Some r =>
                  match Str.span Str.is_digit (snd (Str.span Str.is_space r)) with
                  | (String d ds, _) => Some (String d ds)
                  | _ => None
                  end
              | None => None
              end
          | None => None
          end
      | _ => None
      end
  | None => None
  end.

Fixpoint search_chart_ts (s : string) : option string :=
  match chart_ts_at s with
  | Some ds => Some ds
  | None =>
      match s with
      | String _ r => search_chart_ts r
      | EmptyString => None
      end
  end.

(** A match of [\d{2}/\d{2}/\d{4}\s+\d{2}:\d{2}] at the start of [s]:
    the matched text. *)
Definition alt_time_at (s : string) : option string :=
  match Str.digits_exactly 2 s with
  | Some (a, String "/" r) =>
      match Str.digits_exactly 2 r with
      | Some (b, String "/" r) =>
          match Str.digits_exactly 4 r with
          | Some (c, r) =>
              match Str.span Str.is_space r with
              | (String w ws, r) =>
                  match Str.digits_exactly 2 r with
                  | Some (d, String ":" r) =>
                      match Str.digits_exactly 2 r with
                      | Some (e, _) =>
                          Some (a ++ "/" ++ b ++ "/" ++ c ++ String w ws
                                  ++ d ++ ":" ++ e)
                      | None => None
                      end
                  | _ => None
                  end
              | _ => None
              end
          | None => None
          end
      | _ => None
      end
  | _ => None
  end.

Fixpoint search_alt_time (s : string) : option string :=
  match alt_time_at s with
  | Some m => Some m
  | None =>
      match s with
      | String _ r => search_alt_time r
      | EmptyString => None
      end
  end.

(** The loop over the scripts: it stops at the first script whose string
    holds [var chartTs]. *)
Fixpoint chart_ts_loop (scripts : list tag) (chart : dict) : dict :=
  match scripts with
  | [] => chart
  | script :: rest =>
      match tag_string script with
      | Some s =>
          if negb (String.eqb s "") && contains "var chartTs" s
          then match search_chart_ts s with
               | Some ds => dict_set "chart_ts" (JStr ds) chart
               | None => chart
               end
          else chart_ts_loop rest chart
      | None => chart_ts_loop rest chart
      end
  end.

Definition parse_chart (doc : soup) : json :=
  let chart := chart_ts_loop (select (by_name "script") doc) [] in
  match select_one (Compound None (Some "chart-img") [],
                    [(Descendant, Compound None (Some "chart-container") [])])
          doc with
  | Some img =>
      let chart := dict_set "image_src" (opt_str (attr (Some img) "src")) chart in
      let alt := match attr (Some img) "alt" with
                 | Some a => a
                 | None => ""
                 end in
      match search_alt_time alt with
      | Some m => JObj (dict_set "alt_time" (JStr m) chart)
      | None => JObj chart
      end
  | None => JObj chart
  end.

(** The body of the loop of [parse_issue_feed]. *)
Definition issue_of (li : tag) : json :=
  let user := match select_in (Compound (Some "span") None ["pseudolink"], []) li with
              | first :: _ => JStr (text (Some first))
              | [] => JNull
              end in
  let body := match select_one_in (by_name "p") li with
              | Some p_tag => JStr (text (select_one_in (by_name "span") p_tag))
              | None => JNull
              end in
  let time_iso := match select_one_in (by_name "time") li with
                  | Some time_el =>
                      opt_str (parse_datetime (attr (Some time_el) "datetime"))
                  | None => JNull
                  end in
  let location := match select_one_in (Compound (Some "a") None ["city-link"], []) li with
                  | Some loc_el => text (Some loc_el)
                  | None => ""
                  end in
  let entry := [("user", user); ("text", body); ("time_iso", time_iso)] in
  JObj (if String.eqb location "" then entry
        else dict_set "location" (JStr location) entry).

Fixpoint issue_feed_loop (lis : list tag) (issues : list json) : list json :=
  match lis with
  | [] => issues
  | li :: rest => issue_feed_loop rest (issues ++ [issue_of li])
  end.

Definition parse_issue_feed (doc : soup) : json :=
  JArr (issue_feed_loop
          (select (Compound (Some "li") None [],
                   [(Child, Compound (Some "ul") None ["reports"])]) doc) []).

(** The body of the loop of [parse_company_posts]. *)
Definition post_of (anchor : tag) : json :=
  let tweet :=
    [("url", opt_str (attr (Some anchor) "href"));
     ("name", or_none (text (select_one_in (by_class "twitter-timeline-name") anchor)));
     ("reply_context",
      or_none (text (select_one_in (by_class "twitter-timeline-reply") anchor)));
     ("text", or_none (text (select_one_in (by_class "twitter-timeline-text") anchor)))] in
  match select_one_in (Compound (Some "time") None [],
                       [(Descendant, Compound None None ["twitter-timeline-time"])])
          anchor with
  | Some time_tag =>
      match lookup "datetime" (tag_attrs time_tag) with
      | Some d => JObj (dict_set "timestamp" (JStr d) tweet)
      | None => JObj (dict_set "timestamp" (JStr (text (Some time_tag))) tweet)
      end
  | None => JObj tweet
  end.

Fixpoint company_posts_loop (anchors : list tag) (posts : list json)
  : list json :=
  match anchors with
  | [] => posts
  | anchor :: rest => company_posts_loop rest (posts ++ [post_of anchor])
  end.

Definition parse_company_posts (doc : soup) : json :=
  match select_one (by_id "twitter-timeline-section") doc with
  | None => JArr []
  | Some posts_section =>
      JArr (company_posts_loop (select_in (by_name "a") posts_section) [])
  end.

(** The values of the dict display are computed in its order; of the
    six calls only [parse_most_reported] can raise. *)
Definition parse_outage_page (doc : soup) : result json :=
  let star_rating := parse_star_rating doc in
  let chart := parse_chart doc in
  most_reported_problems <- parse_most_reported doc ;;
  Ok (JObj [("star_rating", star_rating);
            ("chart", chart);
            ("most_reported_problems", most_reported_problems);
            ("latest_reports", parse_latest_reports doc);
            ("issues_reports", parse_issue_feed doc);
            ("company_posts", parse_company_posts doc)]).

End Extractors.

End Scraper.

(* ===================================================================== *)
(** * Definitions used in the statements *)
(* ===================================================================== *)

Module Spec.
Import Py Validator.

(** The integers [lo], [lo + 1], ..., [lo + n - 1]. *)
Fixpoint range (n : nat) (lo : Z) : list Z :=
  match n with
  | O => []
  | S k => lo :: range k (lo + 1)
  end.

(** [round(a * 100 / s)] computed exactly: the integer nearest to the
    rational [100 a / s], ties to even. *)
Definition exact_round (a s : Z) : Z := rhe_div (100 * a) s.

(** The pairs (value, sum) at which the product [a * (100 / s)], a tie in
    exact arithmetic, is rounded by binary64 to the float just above the
    tie. *)
Definition above_tie : list (Z * Z) :=
  [(15, 24); (30, 48); (11, 88); (55, 88); (60, 96); (85, 136); (95, 152);
   (22, 176)].

Definition is_above_tie (a s : Z) : bool :=
  existsb (fun p => (fst p =? a) && (snd p =? s)) above_tie.

(** The value the pass gives a member [a] of a triple of sum [s]. *)
Definition scaled_value (a s : Z) : Z :=
  exact_round a s + (if is_above_tie a s then 1 else 0).

(** [int(round(a * scale))] with [scale = 100 / s], as the pass computes
    it on integers. *)
Definition scaled_float (a s : Z) : result Z :=
  scale <- truediv 100 s ;;
  x <- float_of_int a ;;
  round_float (SFmul prec emax x scale).

(** The check of [scaled_float] against [scaled_value] at one pair, and
    over the pairs with [0 <= a <= 100] and [1 <= s <= 300]. *)
Definition cell_ok (s a : Z) : bool :=
  if a <=? s
  then match scaled_float a s with
       | Ok r => r =? scaled_value a s
       | Raise _ => false
       end
  else true.

Definition row_ok (s : Z) : bool := forallb (cell_ok s) (range 101 0).

(** The statements of the pass in order, as (key, repair of the value at
    the key). *)
Section Rules.

Variable str_to_float : string -> option float.
Variable str_to_int : string -> option Z.

Definition header_rules : list (string * (json -> result json)) :=
  [("star_rating", clamp_number str_to_float f5 2);
   ("status", enum ["good"; "moderate"; "major issues"] "moderate");
   ("status_color", enum ["green"; "yellow"; "red"] "yellow");
   ("total_reports_24h", clamp_count str_to_int)].

Definition sentiment_rules : list (string * (json -> result json)) :=
  [("negative", clamp_percent str_to_float);
   ("neutral", clamp_percent str_to_float);
   ("positive", clamp_percent str_to_float)].

Definition top_rules : list (string * (json -> result json)) :=
  [("pain_index", clamp_number str_to_float f10 1);
   ("header", fun header =>
      with_item header "star_rating" (clamp_number str_to_float f5 2));
   ("sentiment", fun sent =>
      sent <- clamp_sentiment str_to_float sent ;; renormalize sent);
   ("problem_distribution", fun pd =>
      probs <- iterate pd ;;
      probs <- mapM (fun prob =>
                 with_item prob "percent" (clamp_percent str_to_float)) probs ;;
      Ok match pd with
         | JArr _ => JArr probs
         | _ => pd
         end);
   ("key_metrics", truncate 5);
   ("active_outages", truncate 10);
   ("geographic_hotspots", truncate 5);
   ("recent_activity", truncate 8);
   ("critical_insights", truncate 4);
   ("recommendations", truncate 3);
   ("sentiment", fun sent => with_item sent "samples" (truncate 4));
   ("header", fun header =>
      header <- with_item header "status"
                  (enum ["good"; "moderate"; "major issues"] "moderate") ;;
      with_item header "status_color"
        (enum ["green"; "yellow"; "red"] "yellow"));
   ("header", fun header =>
      with_item header "total_reports_24h" (clamp_count str_to_int))].

End Rules.

Fixpoint apply_rules (rules : list (string * (json -> result json)))
  (v : json) : result json :=
  match rules with
  | [] => Ok v
  | (k, f) :: rest => v' <- with_item v k f ;; apply_rules rest v'
  end.

(** The repairs of the rules at the key [k], composed in order. *)
Fixpoint chain (k : string) (rules : list (string * (json -> result json)))
  (v : json) : result json :=
  match rules with
  | [] => Ok v
  | (k', f) :: rest =>
      if String.eqb k k' then v' <- f v ;; chain k rest v' else chain k rest v
  end.

(** The bounded array fields of the top level. *)
Definition bounds : list (string * nat) :=
  [("key_metrics", 5%nat); ("active_outages", 10%nat);
   ("geographic_hotspots", 5%nat); ("recent_activity", 8%nat);
   ("critical_insights", 4%nat); ("recommendations", 3%nat)].

(** The keys the guards of the pass test at the top level. *)
Definition guard_keys : list string :=
  ["pain_index"; "header"; "sentiment"; "problem_distribution";
   "key_metrics"; "active_outages"; "geographic_hotspots";
   "recent_activity"; "critical_insights"; "recommendations"].

(** A parser and a serializer to run the examples with: [json.loads] on
    literals of non-negative integers (with the limit of 4300 digits of
    an interpreter that is not configured otherwise) and on the empty
    containers, [json.dumps] on the same values. *)
Definition all_digits (s : string) : bool :=
  match s with
  | EmptyString => false
  | _ => String.eqb (fst (Str.span Str.is_digit s)) s
  end.


Definition dumps_atoms (v : json) : string :=
  match v with
  | JObj [] => "{}"
  | JArr [] => "[]"
  | _ => ""
  end.

(** The shapes on which the pass completes.  [float(v)], respectively
    [int(round(float(v)))] and [int(v)], does not raise [OverflowError]
    (it does on an infinite float and on an integer beyond the range of
    binary64; the other exceptions are caught). *)
Definition floats (sf : string -> option float) (v : json) : bool :=
  match py_float sf v with
  | Raise OverflowError => false
  | _ => true
  end.

Definition rounds (sf : string -> option float) (v : json) : bool :=
  match (x <- py_float sf v ;; round_float x) with
  | Raise OverflowError => false
  | _ => true
  end.

Definition ints (si : string -> option Z) (v : json) : bool :=
  match py_int si v with
  | Raise OverflowError => false
  | _ => true
  end.

Definition is_arr (v : json) : bool :=
  match v with JArr _ => true | _ => false end.

Definition header_shape sf si (v : json) : bool :=
  match v with
  | JObj h =>
      match dict_get "star_rating" h with
      | Some x => floats sf x
      | None => true
      end
      && match dict_get "total_reports_24h" h with
         | Some x => ints si x
         | None => true
         end
  | _ => false
  end.

Definition triple_shape sf (s : dict) (k : string) : bool :=
  match dict_get k s with
  | Some x => negb (is_none x) && rounds sf x
  | None => true
  end.

Definition sentiment_shape sf (v : json) : bool :=
  match v with
  | JObj s =>
      triple_shape sf s "negative" && triple_shape sf s "neutral"
      && triple_shape sf s "positive"
      && match dict_get "samples" s with
         | Some x => is_arr x
         | None => true
         end
  | _ => false
  end.

Definition problems_shape sf (v : json) : bool :=
  match v with
  | JArr l =>
      forallb (fun e =>
        match e with
        | JObj d => match dict_get "percent" d with
                    | Some x => rounds sf x
                    | None => true
                    end
        | _ => false
        end) l
  | _ => false
  end.

(** The shape asked of the value at a top-level key. *)
Definition shape sf si (k : string) (v : json) : bool :=
  if String.eqb k "pain_index" then floats sf v
  else if String.eqb k "header" then header_shape sf si v
  else if String.eqb k "sentiment" then sentiment_shape sf v
  else if String.eqb k "problem_distribution" then problems_shape sf v
  else if existsb (fun b => String.eqb k (fst b)) bounds then is_arr v
  else true.

Definition well_shaped sf si (c : dict) : bool :=
  forallb (fun k => match dict_get k c with
                    | Some v => shape sf si k v
                    | None => true
                    end) guard_keys.

(** Conversions of strings that accept no string. *)
Definition no_float : string -> option float := fun _ => None.
Definition no_int : string -> option Z := fun _ => None.

End Spec.

(* ===================================================================== *)
(** * Documents and replies of the examples *)
(* ===================================================================== *)

Module Examples.
Import Py Scraper.



(** A literal of [n] digits, and one of 4301 digits. *)
Fixpoint digits_of_length (n : nat) : string :=
  match n with
  | O => ""
  | S k => String "1" (digits_of_length k)
  end.

Definition long_number : string := digits_of_length 4301.

Definition cell (s : string) : node := Elem "td" [] [Text NavigableString s].

Definition valid_row (city reason : string) : node :=
  Elem "tr" []
    [cell city; cell reason;
     Elem "td" [] [Elem "time" [] [Text NavigableString "2 minutes ago"]]].

Definition malformed_row : node := Elem "tr" [] [cell "Dallas"; cell "Internet"].

(** A latest-reports table of five rows of three cells and one row of two
    cells. *)
Definition six_rows : soup :=
  [Elem "html" []
     [Elem "body" []
        [Elem "table" [("id", "latestreports")]
           [valid_row "Dallas" "Internet";
            valid_row "Austin" "Phone";
            malformed_row;
            valid_row "Houston" "Internet";
            valid_row "Plano" "Wi-fi";
            valid_row "Irving" "Blackout"]]]].

(** A latest-reports table of five rows, four of three cells and one of
    two cells. *)
Definition five_rows : soup :=
  [Elem "html" []
     [Elem "body" []
        [Elem "table" [("id", "latestreports")]
           [valid_row "Dallas" "Internet";
            valid_row "Austin" "Phone";
            malformed_row;
            valid_row "Houston" "Internet";
            valid_row "Plano" "Wi-fi"]]]].

(** A latest-reports table whose only row has one cell, which holds a
    table of one row of two cells: the outer row has three [td] elements
    below it, the inner row two. *)
Definition nested_rows : soup :=
  [Elem "table" [("id", "latestreports")]
     [Elem "tr" []
        [Elem "td" []
           [Text NavigableString "Dallas";
            Elem "table" []
              [Elem "tr" [] [cell "Internet"; cell "now"]]]]]].

(** A latest-reports table with a script and a comment in the first cell
    of its row. *)
Definition scripted_row : soup :=
  [Elem "table" [("id", "latestreports")]
     [Elem "tr" []
        [Elem "td" []
           [Text NavigableString "Internet";
            Elem "script" [] [Text Script "x()"];
            Text Comment " city "];
         cell "Phone"; cell "now"]]].

(** A page with a latest-reports table and neither a problem list nor a
    star rating. *)
Definition bare_page : soup :=
  [Elem "html" []
     [Elem "body" []
        [Elem "table" [("id", "latestreports")]
           [valid_row "Dallas" "Internet"]]]].

(** No element of the document matches the compound selector. *)
Definition no_element (c : compound) (doc : soup) : bool :=
  forallb (fun t => negb (matches_compound c (tag_name t, tag_attrs t)))
    (all_tags doc).

Definition problem_list : compound := Compound (Some "ol") None ["doughtnut-list"].
Definition rating_container : compound := Compound None None ["star-rating-text"].

End Examples.

(* ===================================================================== *)
(** * The table of locations and the scraped record (webscrapper.py) *)
(* ===================================================================== *)

Module Locations.
Import Py Scraper.

(** [s.replace(",", "")] *)
Fixpoint remove_commas (s : string) : string :=
  match s with
  | EmptyString => ""
  | String c r =>
      if Ascii.eqb c "," then remove_commas r else String c (remove_commas r)
  end.

Definition status_table : selector :=
  (Compound (Some "table") (Some "status-table") [], []).

(** The default of the parameter [base_url]. *)
Definition base_url : string := "https://istheservicedown.com".

Section Status.

(** [urllib.parse.urljoin]: the joined address, or the exception it
    raises (a [ValueError] on a reference such as [//[], whose host is no
    valid address). *)
Variable urljoin : string -> string -> result string.

(** [int(s)] on a string, with [None] where it raises [ValueError]. *)
Variable str_to_int : string -> option Z.

(** [urljoin(base_url, href) if href else None] (line 275): the result is
    not stored in the row, but the call is made, outside the [try]. *)
Definition absolute (href : option string) : result (option string) :=
  match href with
  | Some h =>
      if String.eqb h "" then Ok None
      else (u <- urljoin base_url h ;; Ok (Some u))
  | None => Ok None
  end.

(** The dict appended for a row of two cells. *)
Definition location_row (location_cell reports_cell : tag) : result json :=
  let link := find "a" location_cell in
  let location := match link with
                  | Some _ => text link
                  | None => text (Some location_cell)
                  end in
  let href := attr link "href" in
  absolute_href <- absolute href ;;
  let reports_text := text (Some reports_cell) in
  let reports := match str_to_int (remove_commas reports_text) with
                 | Some n => JInt n
                 | None => or_none reports_text
                 end in
  Ok (JObj [("location", or_none location); ("reports", reports)]).

Fixpoint status_loop (trs : list tag) (rows : list json)
  : result (list json) :=
  match trs with
  | [] => Ok rows
  | tr :: rest =>
      match find_all "td" tr with
      | [location_cell; reports_cell] =>
          row <- location_row location_cell reports_cell ;;
          status_loop rest (rows ++ [row])
      | _ => status_loop rest rows
      end
  end.

(** Lines 248-291, on the parsed document. *)
Definition last_15_days_status (doc : soup) : result json :=
  match select_one status_table doc with
  | None => Ok (JArr [])
  | Some table =>
      let body := match find "tbody" table with
                  | Some tbody => tbody
                  | None => table
                  end in
      rows <- status_loop (find_all "tr" body) [] ;;
      Ok (JArr rows)
  end.

Variable fromisoformat : string -> option string.
Variable strptime_title : string -> option string.
Variable max_str_digits : nat.

(** Lines 341-342 of [scrape_outage_page], on the two parsed documents. *)
Definition scrape_outage_page (doc map_doc : soup) : result json :=
  data <- parse_outage_page fromisoformat strptime_title max_str_digits doc ;;
  status <- last_15_days_status map_doc ;;
  setitem data "last_15_days_status" status.

(** What [scrape_and_save] leaves behind when no exception ends it: the
    file written under [scraped-data/], a directory it creates when
    missing, the number of issues it prints and the record it returns.
    An exception of [scrape_outage_page] ends it before anything is
    written. *)
Record saved := Saved {
  saved_file : string;
  saved_text : string;
  saved_issues : Z;
  saved_data : json
}.

(** [json.dumps(_, indent=2, ensure_ascii=True)] *)
Variable dumps : json -> string.

(** Lines 357-373. *)
Definition scrape_and_save (service_provider : string) (doc map_doc : soup)
  : result saved :=
  data <- scrape_outage_page doc map_doc ;;
  let filename := Str.lower service_provider ++ ".json" in
  let json_str := dumps data in
  issues <- get_default data "issues_reports" (JArr []) ;;
  issues_count <- py_len issues ;;
  Ok (Saved filename json_str issues_count data).

End Status.

End Locations.

(* ===================================================================== *)
(** * The summary of the chart (analyse_insights.py, lines 167-172) *)
(* ===================================================================== *)

Module Chart.
Import Py.

(** The result of a subscript by an integer: [IndexError] is not among
    the exceptions the [except] clause names. *)
Inductive indexed :=
| Item (v : json)
| Fails (e : exn)
| IndexError.

(** [v[0]] *)
Definition first_item (v : json) : indexed :=
  match v with
  | JArr (x :: _) => Item x
  | JArr [] => IndexError
  | JStr (String c _) => Item (JStr (String c ""))
  | JStr EmptyString => IndexError
  | JObj _ => Fails KeyError
  | _ => Fails TypeError
  end.

Definition no_chart : json :=
  JStr "No chart data available for the last 24 hours.".

(** What the [try] statement leaves in [analysis_text], or the
    [IndexError] that escapes it. *)
Inductive summary :=
| Analysis (analysis_text : json)
| Uncaught.

Section Analysis.

(** The response of [analyze_chart_image], for a call that returns. *)
Variable analyze_chart_image : json -> json.

Definition analysis_text (data : json) : summary :=
  match (chart <- getitem data "chart" ;; getitem chart "image_src") with
  | Raise _ => Analysis no_chart
  | Ok image_url =>
      let analysis := analyze_chart_image image_url in
      match getitem analysis "choices" with
      | Raise _ => Analysis no_chart
      | Ok choices =>
          match first_item choices with
          | IndexError => Uncaught
          | Fails _ => Analysis no_chart
          | Item choice =>
              match (message <- getitem choice "message" ;;
                     getitem message "content") with
              | Raise _ => Analysis no_chart
              | Ok content => Analysis content
              end
          end
      end
  end.

End Analysis.

End Chart.

(* ===================================================================== *)
(** * The reply of the comparison (compare_tmob.py, lines 122-145) *)
(* ===================================================================== *)

Module Compare.
Import Py.



(** What the run leaves behind: the comparison written to
    [reports/comparison_tmobile.json]; the text written to
    [reports/comparison_debug.txt] before the [Exception] of line 139 is
    raised; or the exception that ended the run before anything was
    written. *)
Inductive outcome :=
| Saved (content : string)
| Debug (content : string)
| Failed (e : exn).

Section Comparison.

(** [json.loads], as in [Report], and [json.dumps(_, indent=2)]. *)
Variable loads : string -> result json.
Variable dumps : json -> string.


End Comparison.

End Compare.

(* ===================================================================== *)
(** * Definitions used in the further statements *)
(* ===================================================================== *)

Module Facts.
Import Py Validator Scraper Spec Examples Locations.

(** [lo <= x <= hi] on floats. *)
Definition between (lo hi x : float) : bool := SFleb lo x && SFleb x hi.

(** The value at a key of the triple, an absent key counting as 0. *)
Definition member (k : string) (s : dict) : json :=
  match dict_get k s with
  | Some v => v
  | None => JInt 0
  end.

(** The exceptions that leave the pass. *)
Definition escapes (e : exn) : Prop :=
  e = TypeError \/ e = AttributeError \/ e = OverflowError.

(** [scaled_value a s] is a non-negative integer at most one half above
    [100 a / s]: the check at one pair, and over the pairs with
    [0 <= a <= 100] and [1 <= s <= 300]. *)
Definition near_quotient (s a : Z) : bool :=
  if a <=? s
  then (0 <=? scaled_value a s) && (2 * s * scaled_value a s <=? 200 * a + s)
  else true.

Definition near_quotient_row (s : Z) : bool :=
  forallb (near_quotient s) (range 101 0).

(** The keys of the header and of the sentiment that the pass writes. *)
Definition header_keys : list string :=
  ["star_rating"; "status"; "status_color"; "total_reports_24h"].

Definition sentiment_keys : list string :=
  ["negative"; "neutral"; "positive"; "samples"].


Fixpoint digits_only (s : string) : bool :=
  match s with
  | EmptyString => true
  | String a r => Str.is_digit a && digits_only r
  end.


(** The text in which [parse_most_reported] looks for the percentage of
    an item. *)
Definition percent_text (li : tag) : string :=
  let t := text (select_one_in
                   (Compound (Some "span") None [],
                    [(Descendant, Compound (Some "p") None [])]) li) in
  if negb (String.eqb t "") then t
  else match attr (select_one_in (by_name "img") li) "alt" with
       | Some a => a
       | None => ""
       end.

(** The first exception among those that [f] finds in the elements of a
    list, in their order. *)
Fixpoint first_some {A B} (f : A -> option B) (l : list A) : option B :=
  match l with
  | [] => None
  | a :: r => match f a with
              | Some b => Some b
              | None => first_some f r
              end
  end.

(** The entry of an item of the list of problems, and the exception of
    an item whose percentage has more digits than [int] converts. *)
Definition problem_entry (li : tag) : json :=
  JObj [("label",
         JStr (Str.strip (drop_paren_percent 0
                            (text (select_one_in (by_name "p") li)))));
        ("percent",
         match search_percent (percent_text li) with
         | Some ds => JInt (Str.int_of_digits 0 ds)
         | None => JNull
         end)].

Definition refused (max_str_digits : nat) (ds : string) : bool :=
  ((640 <? String.length ds) && (0 <? max_str_digits)
   && (max_str_digits <? String.length ds))%nat.

Definition problem_failure (max_str_digits : nat) (li : tag) : option exn :=
  match search_percent (percent_text li) with
  | Some ds => if refused max_str_digits ds then Some ValueError else None
  | None => None
  end.

(** The rows of the table of locations that have two cells: the rows of
    its first [tbody], or of the table when it has none. *)
Definition two_cells (tr : tag) : bool :=
  (List.length (find_all "td" tr) =? 2)%nat.

Definition status_rows (table : tag) : list tag :=
  filter two_cells
    (find_all "tr" match find "tbody" table with
                   | Some tbody => tbody
                   | None => table
                   end).

(** The entry of a row of two cells: the location is the text of the
    first link of the first cell, or of the cell when it has no link; the
    count is read in the text of the second cell.  (On a row with another
    number of cells, which the statements do not use, it is null.) *)
Definition row_entry (str_to_int : string -> option Z) (tr : tag) : json :=
  match find_all "td" tr with
  | [location_cell; reports_cell] =>
      JObj [("location",
             or_none match find "a" location_cell with
                     | Some link => get_text link
                     | None => get_text location_cell
                     end);
            ("reports",
             match str_to_int (remove_commas (get_text reports_cell)) with
             | Some n => JInt n
             | None => or_none (get_text reports_cell)
             end)]
  | _ => JNull
  end.

(** The exception of a row: the one [urljoin] raises on the [href] of the
    first link of its first cell, when there is one and it is not
    empty. *)
Definition row_failure (urljoin : string -> string -> result string)
  (tr : tag) : option exn :=
  match find_all "td" tr with
  | location_cell :: _ =>
      match attr (find "a" location_cell) "href" with
      | Some h =>
          if String.eqb h "" then None
          else match urljoin base_url h with
               | Raise e => Some e
               | Ok _ => None
               end
      | None => None
      end
  | [] => None
  end.

(** The body of the loop of [last_15_days_status] on a row of two cells
    (null on another row, which the loop skips). *)
Definition row_of (urljoin : string -> string -> result string)
  (str_to_int : string -> option Z) (tr : tag) : result json :=
  match find_all "td" tr with
  | [location_cell; reports_cell] =>
      location_row urljoin str_to_int location_cell reports_cell
  | _ => Ok JNull
  end.

(** The selectors of the user, the city and the time of an item of the
    issue feed, and of the time of a post. *)
Definition pseudolink : selector :=
  (Compound (Some "span") None ["pseudolink"], []).

Definition city_link : selector :=
  (Compound (Some "a") None ["city-link"], []).

Definition timeline_time : selector :=
  (Compound (Some "time") None [],
   [(Descendant, Compound None None ["twitter-timeline-time"])]).

(** The compound selectors of the regions of the two pages. *)
Definition script_element : compound := Compound (Some "script") None [].
Definition chart_image : compound := Compound None (Some "chart-img") [].
Definition reports_table : compound := Compound None (Some "latestreports") [].
Definition issue_list : compound := Compound (Some "ul") None ["reports"].
Definition posts_section : compound :=
  Compound None (Some "twitter-timeline-section") [].
Definition locations_table : compound :=
  Compound (Some "table") (Some "status-table") [].

(** The regions of the outage page: a page without any of them has
    nothing to extract. *)
Definition page_regions : list compound :=
  [rating_container; script_element; chart_image; problem_list;
   reports_table; issue_list; posts_section].

(** The selectors of the image of the chart and of the items of the issue
    feed. *)
Definition chart_image_selector : selector :=
  (Compound None (Some "chart-img") [],
   [(Descendant, Compound None (Some "chart-container") [])]).

Definition issue_items : selector :=
  (Compound (Some "li") None [],
   [(Child, Compound (Some "ul") None ["reports"])]).

(** A value other than the empty string. *)
Definition not_empty (v : json) : bool :=
  match v with
  | JStr "" => false
  | _ => true
  end.

(** The same float, bit for bit. *)
Definition same_float (a b : float) : bool :=
  match a, b with
  | S754_zero s, S754_zero t => Bool.eqb s t
  | S754_infinity s, S754_infinity t => Bool.eqb s t
  | S754_nan, S754_nan => true
  | S754_finite s m e, S754_finite t n f =>
      Bool.eqb s t && Pos.eqb m n && (e =? f)
  | _, _ => false
  end.

(** The float nearest to [d / 10^n] is rounded to itself by
    [round(_, n)], respectively is not below [hi]. *)
Definition round_stable (n : nat) (d : Z) : bool :=
  match d with
  | Zpos p =>
      let r := nearest_quot false p (Z.to_pos (10 ^ Z.of_nat n)) in
      same_float (round_ndigits r n) r
  | _ => true
  end.

Definition not_below (hi : float) (n : nat) (d : Z) : bool :=
  match d with
  | Zpos p =>
      negb (SFltb (nearest_quot false p (Z.to_pos (10 ^ Z.of_nat n))) hi)
  | _ => true
  end.

(** [int(round(float(n)))] is [n]. *)
Definition percent_fixed (n : Z) : bool :=
  match (x <- float_of_int n ;; round_float x) with
  | Ok r => r =? n
  | Raise _ => false
  end.

(** The payload has no negative [sentiment.positive]. *)
Definition positive_not_negative (p : json) : bool :=
  match p with
  | JObj d =>
      match dict_get "sentiment" d with
      | Some (JObj s) =>
          match dict_get "positive" s with
          | Some (JInt n) => 0 <=? n
          | _ => true
          end
      | _ => true
      end
  | _ => true
  end.

End Facts.

(* ===================================================================== *)
(** * The regions of the two pages *)
(* ===================================================================== *)

Module Regions.
Import Py Scraper Locations Facts.

(** The fields of the scraped record. *)
Inductive field :=
| StarRating | ChartData | MostReported | LatestReports | IssuesReports
| CompanyPosts | LocationStatus.

(** The region of a field: the selectors with which its extractor enters
    the document. *)
Definition region (f : field) : list selector :=
  match f with
  | StarRating => [by_class "star-rating-text"]
  | ChartData => [by_name "script"; chart_image_selector]
  | MostReported => [problem_items]
  | LatestReports => [report_rows]
  | IssuesReports => [issue_items]
  | CompanyPosts => [by_id "twitter-timeline-section"]
  | LocationStatus => [status_table]
  end.

Section Fields.

Variable urljoin : string -> string -> result string.
Variable str_to_int : string -> option Z.
Variable fromisoformat : string -> option string.
Variable strptime_title : string -> option string.
Variable max_str_digits : nat.

(** The extractor of a field. *)
Definition extract (f : field) (doc : soup) : result json :=
  match f with
  | StarRating => Ok (parse_star_rating doc)
  | ChartData => Ok (parse_chart doc)
  | MostReported => parse_most_reported max_str_digits doc
  | LatestReports => Ok (parse_latest_reports fromisoformat strptime_title doc)
  | IssuesReports => Ok (parse_issue_feed fromisoformat strptime_title doc)
  | CompanyPosts => Ok (parse_company_posts doc)
  | LocationStatus => last_15_days_status urljoin str_to_int doc
  end.

End Fields.

(** The empty object of [parse_star_rating] and [parse_chart], the empty
    sequence of the others. *)
Definition empty_value (f : field) : json :=
  match f with
  | StarRating | ChartData => JObj []
  | _ => JArr []
  end.

Definition is_empty {A} (l : list A) : bool :=
  match l with
  | [] => true
  | _ => false
  end.

(** A script at which the loop of [parse_chart] stops. *)
Definition holds_chart_ts (script : tag) : bool :=
  match tag_string script with
  | Some s => negb (String.eqb s "") && contains "var chartTs" s
  | None => false
  end.

(** The region of a field is absent from a document: its selectors
    select nothing; for the chart, no script holds the time stamp and no
    image is selected. *)
Definition absent (f : field) (doc : soup) : bool :=
  match f with
  | ChartData =>
      forallb (fun script => negb (holds_chart_ts script))
        (select (by_name "script") doc)
      && is_empty (select chart_image_selector doc)
  | _ => forallb (fun sel => is_empty (select sel doc)) (region f)
  end.

(** A document with a hole: the nodes before and after the hole, at the
    top level or among the children of an element of a document with a
    hole. *)
Inductive context :=
| Here (before after : list node)
| Below (before : list node) (name : string) (attrs : list (string * string))
    (inner : context) (after : list node).

(** The document with the nodes [mid] in the hole. *)
Fixpoint plug (c : context) (mid : list node) : soup :=
  match c with
  | Here before after => (before ++ mid ++ after)%list
  | Below before name attrs inner after =>
      (before ++ Elem name attrs (plug inner mid) :: after)%list
  end.

(** The elements around the hole, the innermost first, above [up]. *)
Fixpoint around (up : list (string * list (string * string))) (c : context)
  : list (string * list (string * string)) :=
  match c with
  | Here _ _ => up
  | Below _ name attrs inner _ => around ((name, attrs) :: up) inner
  end.

(** An element around the hole matches the selector. *)
Fixpoint encloses (sel : selector)
  (up : list (string * list (string * string))) (c : context) : bool :=
  match c with
  | Here _ _ => false
  | Below _ name attrs inner _ =>
      matches sel (Tag up name attrs [])
      || encloses sel ((name, attrs) :: up) inner
  end.

(** The nodes [mid], put in the hole, are apart from what the selector
    selects: no element of [mid] is selected and the hole is not inside a
    selected element. *)
Definition apart (sel : selector) (c : context) (mid : list node) : bool :=
  negb (encloses sel [] c)
  && forallb (fun t => negb (matches sel t))
       (flat_map (tags_of (around [] c)) mid).

End Regions.

(* ===================================================================== *)
(** * Documents of the further examples *)
(* ===================================================================== *)

Module Pages.
Import Py Scraper Examples Locations Regions.

(** A stand-in for [urljoin] to run the examples with: on the reference
    [//[] the [ValueError] of [urljoin]; on another reference the base
    followed by the reference, which is what [urljoin] returns for an
    absolute path (the rows do not keep the address). *)
Definition sample_urljoin (base url : string) : result string :=
  if String.eqb url "//[" then Raise ValueError else Ok (base ++ url).

(** The page [bare_page] with a hole in its body, before the table, and a
    star rating to put there. *)
Definition rating_hole : context :=
  Below [] "html" []
    (Below [] "body" []
       (Here []
          [Elem "table" [("id", "latestreports")]
             [valid_row "Dallas" "Internet"]])
       [])
    [].

Definition rating_sample : node :=
  Elem "div" [("class", "star-rating-text")]
    [Elem "span" [("class", "star-rating-current")]
       [Text NavigableString "4.2"]].

(** A stand-in for [int] on strings to run the examples with: it accepts
    the strings of decimal digits and refuses the others. *)
Definition sample_int (s : string) : option Z :=
  if Spec.all_digits s then Some (Str.int_of_digits 0 s) else None.

(** A map page: a table of locations with a row of headers, a row with a
    link and a count with a comma, and a row without a link whose count is
    no number. *)
Definition locations_page : soup :=
  [Elem "table" [("id", "status-table")]
     [Elem "tbody" []
        [Elem "tr" []
           [Elem "th" [] [Text NavigableString "Location"];
            Elem "th" [] [Text NavigableString "Reports"]];
         Elem "tr" []
           [Elem "td" []
              [Elem "a" [("href", "/problems/att/dallas")]
                 [Text NavigableString "Dallas"]];
            Elem "td" [] [Text NavigableString "1,234"]];
         Elem "tr" []
           [Elem "td" [] [Text NavigableString " Elsewhere "];
            Elem "td" [] [Text NavigableString "n/a"]]]]].

(** A map page with a link whose address [urljoin] refuses. *)
Definition broken_link_page : soup :=
  [Elem "table" [("id", "status-table")]
     [Elem "tr" []
        [Elem "td" [] [Elem "a" [("href", "//[")] [Text NavigableString "Dallas"]];
         Elem "td" [] [Text NavigableString "12"]]]].

(** A list of problems: an item with its percentage in a span, and an
    item with its percentage in the [alt] of its image. *)
Definition problems_page : soup :=
  [Elem "ol" [("class", "doughtnut-list")]
     [Elem "li" []
        [Elem "p" []
           [Text NavigableString "Internet ";
            Elem "span" [] [Text NavigableString "(45%)"]]];
      Elem "li" []
        [Elem "img" [("alt", "Phone 30%")] [];
         Elem "p" [] [Text NavigableString "Phone"]]]].

(** A list of problems with a percentage of 4301 digits. *)
Definition long_percent_page : soup :=
  [Elem "ol" [("class", "doughtnut-list")]
     [Elem "li" []
        [Elem "p" []
           [Text NavigableString "Internet ";
            Elem "span" [] [Text NavigableString (long_number ++ "%")]]]]].

(** An issue feed: an item with a city link, and an item whose city link
    has no text. *)
Definition issues_page : soup :=
  [Elem "ul" [("class", "reports")]
     [Elem "li" []
        [Elem "span" [("class", "pseudolink")] [Text NavigableString "Ann"];
         Elem "p" [] [Elem "span" [] [Text NavigableString "No signal."]];
         Elem "a" [("class", "city-link")] [Text NavigableString "Dallas"]];
      Elem "li" []
        [Elem "p" [] [Elem "span" [] [Text NavigableString "Down again."]];
         Elem "a" [("class", "city-link")] [Text NavigableString "  "]]]].

(** The posts of the company: an anchor with a time that has a
    [datetime], an anchor with a time that has none, and an anchor outside
    the section. *)
Definition posts_page : soup :=
  [Elem "div" [("id", "twitter-timeline-section")]
     [Elem "a" [("href", "/status/1")]
        [Elem "span" [("class", "twitter-timeline-text")]
           [Text NavigableString "Back up."];
         Elem "span" [("class", "twitter-timeline-time")]
           [Elem "time" [("datetime", "2025-11-05T21:52:00Z")]
              [Text NavigableString "2h"]]];
      Elem "a" []
        [Elem "span" [("class", "twitter-timeline-time")]
           [Elem "time" [] [Text NavigableString " 3h "]]]];
   Elem "a" [("href", "/about")] [Text NavigableString "About"]].

End Pages.

(* ===================================================================== *)
(** * Dictionaries *)
(* ===================================================================== *)

Import Py Validator Spec Examples.

Lemma dict_get_set k k' v d :
  dict_get k' (dict_set k v d) = if String.eqb k' k then Some v else dict_get k' d.
Proof.
  induction d as [|[k0 v0] d IH]; simpl.
  - destruct (String.eqb k' k); reflexivity.
  - destruct (String.eqb k k0) eqn:E; simpl.
    + apply String.eqb_eq in E; subst k0.
      destruct (String.eqb k' k); reflexivity.
    + destruct (String.eqb k' k0) eqn:E0.
      * apply String.eqb_eq in E0; subst k0.
        rewrite String.eqb_sym, E. reflexivity.
      * exact IH.
Qed.

Lemma dict_set_same k v d : dict_get k d = Some v -> dict_set k v d = d.
Proof.
  induction d as [|[k0 v0] d IH]; simpl; [discriminate|].
  destruct (String.eqb k k0) eqn:E.
  - apply String.eqb_eq in E; subst k0. intros [= ->]. reflexivity.
  - intros H. rewrite (IH H). reflexivity.
Qed.

Lemma dict_set_keys k v v0 d :
  dict_get k d = Some v0 -> map fst (dict_set k v d) = map fst d.
Proof.
  induction d as [|[k0 v1] d IH]; simpl; [discriminate|].
  destruct (String.eqb k k0) eqn:E.
  - apply String.eqb_eq in E; subst k0. reflexivity.
  - intros H. simpl. rewrite (IH H). reflexivity.
Qed.

Lemma bind_assoc {A B C} (r : result A) (f : A -> result B) (g : B -> result C) :
  bind (bind r f) g = bind r (fun a => bind (f a) g).
Proof. destruct r; reflexivity. Qed.

Lemma bind_ret {A} (r : result A) : bind r Ok = r.
Proof. destruct r; reflexivity. Qed.

Lemma bind_ok {A B} (r : result A) (f : A -> result B) b :
  bind r f = Ok b -> exists a, r = Ok a /\ f a = Ok b.
Proof. destruct r; simpl; [eauto | discriminate]. Qed.

Lemma with_item_obj d k f :
  with_item (JObj d) k f =
  match dict_get k d with
  | Some v => v' <- f v ;; Ok (JObj (dict_set k v' d))
  | None => Ok (JObj d)
  end.
Proof. unfold with_item; simpl. destruct (dict_get k d); reflexivity. Qed.

(* ===================================================================== *)
(** * Renormalization of the sentiment triple *)
(* ===================================================================== *)

Lemma forallb_range (f : Z -> bool) n :
  forall lo, forallb f (range n lo) = true ->
  forall x, lo <= x < lo + Z.of_nat n -> f x = true.
Proof.
  induction n as [|n IH]; intros lo H x Hx; simpl in *.
  - lia.
  - apply andb_prop in H. destruct H as [H0 H1].
    destruct (Z.eq_dec lo x) as [->|Hne]; [assumption|].
    apply (IH (lo + 1) H1). lia.
Qed.

Lemma grid_checked : forallb row_ok (range 300 1) = true.
Proof. vm_compute. reflexivity. Qed.

Lemma scaled_float_grid a s :
  0 <= a <= 100 -> 1 <= s <= 300 -> a <= s ->
  scaled_float a s = Ok (scaled_value a s).
Proof.
  intros Ha Hs Has.
  assert (R : row_ok s = true)
    by (apply (forallb_range row_ok 300 1 grid_checked); lia).
  assert (C : cell_ok s a = true)
    by (apply (forallb_range (cell_ok s) 101 0 R); lia).
  unfold cell_ok in C.
  apply Z.leb_le in Has. rewrite Has in C.
  destruct (scaled_float a s); [|discriminate].
  apply Z.eqb_eq in C. congruence.
Qed.

Lemma scaled_obj sent k a p :
  dict_get k sent = Some (JInt a) ->
  scaled (JObj sent) k (nearest_quot false 100 p) = scaled_float a (Zpos p).
Proof.
  intros H. unfold scaled, scaled_float.
  cbn [get_default truediv bind]. rewrite H. reflexivity.
Qed.

(** The renormalization on a dict that holds three clamped integers. *)
Lemma renormalize_clamped sent a b c :
  dict_get "negative" sent = Some (JInt a) ->
  dict_get "neutral" sent = Some (JInt b) ->
  dict_get "positive" sent = Some (JInt c) ->
  0 <= a <= 100 -> 0 <= b <= 100 -> 0 <= c <= 100 ->
  renormalize (JObj sent) =
  Ok (JObj (if (a + b + c =? 0) || (a + b + c =? 100) then sent
            else dict_set "positive"
                   (JInt (100 - scaled_value a (a + b + c)
                          - scaled_value b (a + b + c)))
                   (dict_set "neutral" (JInt (scaled_value b (a + b + c)))
                      (dict_set "negative" (JInt (scaled_value a (a + b + c)))
                         sent)))).
Proof.
  intros Hn Hu Hp Ha Hb Hc.
  unfold renormalize. cbn [get_default bind]. rewrite Hn, Hu, Hp.
  cbn [as_int bind].
  destruct (a + b + c =? 100) eqn:E100.
  { cbn [negb andb]. rewrite orb_true_r. reflexivity. }
  destruct (0 <? a + b + c) eqn:Epos.
  2:{ apply Z.ltb_ge in Epos.
      replace (a + b + c =? 0) with true by (symmetry; apply Z.eqb_eq; lia).
      reflexivity. }
  apply Z.ltb_lt in Epos.
  replace (a + b + c =? 0) with false by (symmetry; apply Z.eqb_neq; lia).
  cbn [negb andb orb].
  destruct (a + b + c) as [|p|p] eqn:Es; try lia.
  cbn [truediv bind].
  rewrite (scaled_obj sent "negative" a p Hn).
  rewrite (scaled_float_grid a (Zpos p)) by lia.
  cbn [bind setitem].
  rewrite (scaled_obj _ "neutral" b p)
    by (rewrite dict_get_set; exact Hu).
  rewrite (scaled_float_grid b (Zpos p)) by lia.
  cbn [bind setitem getitem].
  rewrite !dict_get_set. cbn [String.eqb Ascii.eqb Bool.eqb]. cbn [as_int bind].
  reflexivity.
Qed.

(** C1 (as amended).  On a sentiment dict whose three values are clamped
    integers of sum [s], the renormalization leaves the dict as it is when
    [s] is 0 or 100; otherwise it stores
    [negative' = round(negative * scale)] and
    [neutral' = round(neutral * scale)], where [scale = 100 / s] and the
    product are binary64 values, and [positive' = 100 - negative' - neutral'],
    so that the three sum to 100.  [negative'] is the exact half-to-even
    rounding of [100 * negative / s], except at the eight (value, sum)
    pairs of [above_tie], where the float product exceeds the exact tie and
    the result is one more.  The triple (50, 50, 20) becomes
    (42, 42, 16). *)
Theorem renormalize_triple :
  (forall sent a b c,
     dict_get "negative" sent = Some (JInt a) ->
     dict_get "neutral" sent = Some (JInt b) ->
     dict_get "positive" sent = Some (JInt c) ->
     0 <= a <= 100 -> 0 <= b <= 100 -> 0 <= c <= 100 ->
     let s := a + b + c in
     let negative' := exact_round a s + (if is_above_tie a s then 1 else 0) in
     let neutral' := exact_round b s + (if is_above_tie b s then 1 else 0) in
     let positive' := 100 - negative' - neutral' in
     renormalize (JObj sent) =
       Ok (JObj (if (s =? 0) || (s =? 100) then sent
                 else dict_set "positive" (JInt positive')
                        (dict_set "neutral" (JInt neutral')
                           (dict_set "negative" (JInt negative') sent))))
     /\ (s <> 0 ->
         scaled_float a s = Ok negative' /\ scaled_float b s = Ok neutral')
     /\ negative' + neutral' + positive' = 100)
  /\ renormalize
       (JObj [("negative", JInt 50); ("neutral", JInt 50); ("positive", JInt 20)])
     = Ok (JObj [("negative", JInt 42); ("neutral", JInt 42);
                 ("positive", JInt 16)]).
Proof.
  split.
  - intros sent a b c Hn Hu Hp Ha Hb Hc s negative' neutral' positive'.
    split; [|split].
    + exact (renormalize_clamped sent a b c Hn Hu Hp Ha Hb Hc).
    + intros Hs. split; apply scaled_float_grid; subst s; lia.
    + subst positive'. lia.
  - vm_compute. reflexivity.
Qed.

Lemma renormalize_triple_witness :
  renormalize
    (JObj [("negative", JInt 30); ("neutral", JInt 20); ("positive", JInt 10);
           ("samples", JArr [])])
  = Ok (JObj [("negative", JInt 50); ("neutral", JInt 33); ("positive", JInt 17);
              ("samples", JArr [])]).
Proof.
  exact (proj1 (proj1 renormalize_triple
                  [("negative", JInt 30); ("neutral", JInt 20);
                   ("positive", JInt 10); ("samples", JArr [])]
                  30 20 10 eq_refl eq_refl eq_refl
                  ltac:(lia) ltac:(lia) ltac:(lia))).
Defined.

(** The formula [round(negative * 100 / s)] of the claim fails at the
    triple (15, 9, 0): the pass stores 63, while the quotient 1500 / 24 is
    the tie 62.5, which rounds to 62, in exact arithmetic and in
    binary64. *)
Lemma renormalize_not_exact :
  renormalize
    (JObj [("negative", JInt 15); ("neutral", JInt 9); ("positive", JInt 0)])
  = Ok (JObj [("negative", JInt 63); ("neutral", JInt 38);
              ("positive", JInt (-1))])
  /\ exact_round 15 (15 + 9 + 0) = 62
  /\ (q <- truediv (15 * 100) (15 + 9 + 0) ;; round_float q) = Ok 62.
Proof. vm_compute. repeat split; reflexivity. Qed.

(* ===================================================================== *)
(** * The pass as a sequence of rules *)
(* ===================================================================== *)

(** Equality of two sequences of statements, statement by statement. *)
Ltac step_binds :=
  repeat first
    [ reflexivity
    | rewrite bind_assoc
    | rewrite bind_ret
    | match goal with
      | |- bind ?r _ = bind ?r _ => destruct r; cbn [bind]; [|reflexivity]
      end ].

Section PassFacts.

Variable str_to_float : string -> option float.
Variable str_to_int : string -> option Z.

Local Abbreviation repair' := (repair str_to_float str_to_int).
Local Abbreviation top := (top_rules str_to_float str_to_int).
Local Abbreviation hdr := (header_rules str_to_float str_to_int).
Local Abbreviation snt := (sentiment_rules str_to_float).

Lemma repair_rules dj : repair' dj = apply_rules top dj.
Proof.
  unfold repair, validate_pain_index, validate_star_rating,
    validate_sentiment, validate_problem_distribution, validate_lengths,
    validate_enums, validate_total_reports, top_rules, apply_rules.
  step_binds.
Qed.

Lemma header_chain v : chain "header" top v = apply_rules hdr v.
Proof.
  unfold top_rules, header_rules, chain, apply_rules.
  cbn [String.eqb Ascii.eqb Bool.eqb].
  step_binds.
Qed.

Lemma clamp_sentiment_rules v :
  clamp_sentiment str_to_float v = apply_rules snt v.
Proof.
  unfold clamp_sentiment, sentiment_rules, apply_rules.
  step_binds.
Qed.

Lemma sentiment_chain v :
  chain "sentiment" top v =
  (s <- apply_rules snt v ;;
   s <- renormalize s ;;
   with_item s "samples" (truncate 4)).
Proof.
  unfold top_rules, chain. cbn [String.eqb Ascii.eqb Bool.eqb].
  rewrite <- clamp_sentiment_rules. step_binds.
Qed.

End PassFacts.

(** What a run of rules does to a dict: the keys stay, and the value at a
    key goes through the repairs of the rules at that key. *)
Lemma apply_rules_obj rules :
  forall d p,
    apply_rules rules (JObj d) = Ok p ->
    exists d',
      p = JObj d' /\ map fst d' = map fst d /\
      forall k,
        match dict_get k d with
        | Some v => exists v', chain k rules v = Ok v' /\ dict_get k d' = Some v'
        | None => dict_get k d' = None
        end.
Proof.
  induction rules as [|[k0 f] rest IH]; intros d p H.
  - injection H as <-. exists d. repeat split.
    intros k. destruct (dict_get k d); [eexists; split; reflexivity | reflexivity].
  - cbn [apply_rules] in H. rewrite with_item_obj in H.
    destruct (dict_get k0 d) as [v0|] eqn:E0.
    + destruct (f v0) as [v0'|e] eqn:Ef; [|discriminate].
      cbn [bind] in H.
      destruct (IH _ _ H) as (d' & -> & Hk & Hv).
      exists d'. split; [reflexivity|]. split.
      { rewrite Hk. apply (dict_set_keys _ _ v0). exact E0. }
      intros k. specialize (Hv k). rewrite dict_get_set in Hv.
      cbn [chain]. destruct (String.eqb k k0) eqn:Ek.
      * apply String.eqb_eq in Ek; subst k0. rewrite E0.
        destruct Hv as (v' & Hc & Hg). exists v'. rewrite Ef. auto.
      * exact Hv.
    + cbn [bind] in H.
      destruct (IH _ _ H) as (d' & -> & Hk & Hv).
      exists d'. repeat split; [exact Hk|].
      intros k. specialize (Hv k). cbn [chain].
      destruct (String.eqb k k0) eqn:Ek.
      * apply String.eqb_eq in Ek; subst k0. rewrite E0 in *. exact Hv.
      * exact Hv.
Qed.

Lemma truncate_arr n l : truncate n (JArr l) = Ok (JArr (firstn n l)).
Proof.
  unfold truncate. cbn [py_len bind slice_to].
  destruct (Z.of_nat n <? Z.of_nat (List.length l)) eqn:E; [reflexivity|].
  apply Z.ltb_ge in E. rewrite firstn_all2 by lia. reflexivity.
Qed.

(** The renormalization writes at most the three keys of the triple. *)
Lemma renormalize_obj d p :
  renormalize (JObj d) = Ok p ->
  p = JObj d \/
  exists x y z,
    p = JObj (dict_set "positive" (JInt z)
                (dict_set "neutral" (JInt y)
                   (dict_set "negative" (JInt x) d))).
Proof.
  unfold renormalize. cbn [get_default bind].
  intros H.
  apply bind_ok in H. destruct H as (a & _ & H).
  apply bind_ok in H. destruct H as (b & _ & H).
  apply bind_ok in H. destruct H as (c & _ & H).
  destruct (negb (a + b + c =? 100) && (0 <? a + b + c)).
  - apply bind_ok in H. destruct H as (scale & _ & H).
    apply bind_ok in H. destruct H as (x & _ & H).
    cbn [setitem bind] in H.
    apply bind_ok in H. destruct H as (y & _ & H).
    cbn [setitem bind getitem] in H.
    rewrite !dict_get_set in H. cbn [String.eqb Ascii.eqb Bool.eqb] in H.
    cbn [bind as_int] in H.
    injection H as <-. right. eauto.
  - injection H as <-. left. reflexivity.
Qed.

(* ===================================================================== *)
(** * Ranges and idempotence *)
(* ===================================================================== *)

(** C2 (code bug).  On the candidate
    [{"sentiment": {"negative": 15, "neutral": 9, "positive": 0}}] the pass
    completes and leaves [sentiment.positive = -1], below the range
    [0, 100]: with [scale = 100 / 24] the float product [15 * scale] is just
    above 62.5 and rounds to 63, [9 * scale] is 37.5 and rounds to 38, and
    the third value is [100 - 63 - 38]. *)
Theorem sentiment_positive_out_of_range :
  forall str_to_float str_to_int,
    repair str_to_float str_to_int
      (JObj [("sentiment",
              JObj [("negative", JInt 15); ("neutral", JInt 9);
                    ("positive", JInt 0)])])
    = Ok (JObj [("sentiment",
                 JObj [("negative", JInt 63); ("neutral", JInt 38);
                       ("positive", JInt (-1))])])
    /\ -1 < 0.
Proof. intros sf si. split; [vm_compute; reflexivity | lia]. Qed.

(** An infinite float in a percentage is not replaced by the default: the
    [OverflowError] of [round] is not caught and ends the pass. *)
Lemma infinite_percent_raises str_to_float str_to_int :
  repair str_to_float str_to_int
    (JObj [("sentiment", JObj [("negative", JFloat (S754_infinity false))])])
  = Raise OverflowError.
Proof. vm_compute. reflexivity. Qed.

(** C3 (code bug).  The pass is not idempotent: on the candidate of C2 the
    first pass yields the triple (63, 38, -1), and the pass run on that
    payload clamps -1 to 0 and renormalizes the sum 101 to (62, 38, 0). *)
Theorem repair_not_idempotent :
  forall str_to_float str_to_int,
    let candidate :=
      JObj [("sentiment",
             JObj [("negative", JInt 15); ("neutral", JInt 9);
                   ("positive", JInt 0)])] in
    let first :=
      JObj [("sentiment",
             JObj [("negative", JInt 63); ("neutral", JInt 38);
                   ("positive", JInt (-1))])] in
    let second :=
      JObj [("sentiment",
             JObj [("negative", JInt 62); ("neutral", JInt 38);
                   ("positive", JInt 0)])] in
    repair str_to_float str_to_int candidate = Ok first
    /\ repair str_to_float str_to_int first = Ok second
    /\ first <> second.
Proof.
  intros sf si candidate first second.
  split; [vm_compute; reflexivity|].
  split; [vm_compute; reflexivity|].
  discriminate.
Qed.

(* ===================================================================== *)
(** * Absent keys and null values *)
(* ===================================================================== *)

Lemma mapM_Forall2 {A B} (f : A -> result B) l :
  forall l', mapM f l = Ok l' -> Forall2 (fun x y => f x = Ok y) l l'.
Proof.
  induction l as [|a l IH]; intros l' H; cbn [mapM] in H.
  - injection H as <-. constructor.
  - apply bind_ok in H. destruct H as (b & Hb & H).
    apply bind_ok in H. destruct H as (bs & Hbs & H).
    injection H as <-. constructor; [exact Hb | apply IH; exact Hbs].
Qed.

Lemma percent_entry str_to_float d e' :
  with_item (JObj d) "percent" (clamp_percent str_to_float) = Ok e' ->
  exists d',
    e' = JObj d' /\ map fst d' = map fst d /\
    (dict_get "percent" d = Some JNull -> dict_get "percent" d' = Some JNull).
Proof.
  intros H. rewrite with_item_obj in H.
  destruct (dict_get "percent" d) as [v|] eqn:E.
  - apply bind_ok in H. destruct H as (v' & Hv & H). injection H as <-.
    eexists. split; [reflexivity|]. split.
    + apply (dict_set_keys _ _ v). exact E.
    + intros [= ->]. cbn in Hv. injection Hv as <-.
      rewrite dict_get_set. reflexivity.
  - injection H as <-. exists d. repeat split. discriminate.
Qed.

Lemma sentiment_absent str_to_float str_to_int s v' :
  chain "sentiment" (top_rules str_to_float str_to_int) (JObj s) = Ok v' ->
  exists s',
    v' = JObj s' /\
    forall k,
      k <> "negative" -> k <> "neutral" -> k <> "positive" ->
      dict_get k s = None -> dict_get k s' = None.
Proof.
  intros H. rewrite sentiment_chain in H.
  apply bind_ok in H. destruct H as (s1 & H1 & H).
  apply bind_ok in H. destruct H as (s2 & H2 & H).
  apply apply_rules_obj in H1. destruct H1 as (d1 & -> & _ & Hv).
  assert (G2 : exists d2,
             s2 = JObj d2 /\
             forall k, k <> "negative" -> k <> "neutral" -> k <> "positive" ->
                       dict_get k d2 = dict_get k d1).
  { apply renormalize_obj in H2. destruct H2 as [->|(x & y & z & ->)].
    - eauto.
    - eexists. split; [reflexivity|]. intros k Kn Ku Kp.
      rewrite !dict_get_set.
      apply String.eqb_neq in Kn, Ku, Kp. rewrite Kn, Ku, Kp. reflexivity. }
  destruct G2 as (d2 & -> & Hd2).
  rewrite with_item_obj in H.
  assert (G3 : exists s', v' = JObj s' /\
                 forall k, dict_get k d2 = None -> dict_get k s' = None).
  { destruct (dict_get "samples" d2) as [w|] eqn:Ew.
    - apply bind_ok in H. destruct H as (w' & _ & H). injection H as <-.
      eexists. split; [reflexivity|]. intros k Hk.
      rewrite dict_get_set. destruct (String.eqb k "samples") eqn:Ek.
      + apply String.eqb_eq in Ek. subst k. congruence.
      + exact Hk.
    - injection H as <-. eauto. }
  destruct G3 as (s' & -> & Hs').
  exists s'. split; [reflexivity|]. intros k Kn Ku Kp Hk.
  apply Hs'. rewrite (Hd2 k Kn Ku Kp).
  specialize (Hv k). rewrite Hk in Hv. exact Hv.
Qed.

(** C4 (as amended).  Whenever the pass yields a payload for a candidate
    object: the keys of the top level and of an object header are those of
    the candidate, in their order; in an object sentiment, a key other
    than negative, neutral and positive that is absent stays absent; the
    entries of an array problem_distribution that are objects keep their
    keys; a null [pain_index], [header.star_rating],
    [header.total_reports_24h] or [percent] of such an entry stays null;
    a null [header.status] becomes "moderate" and a null
    [header.status_color] becomes "yellow". *)
Theorem absent_and_null :
  forall str_to_float str_to_int c p,
    repair str_to_float str_to_int (JObj c) = Ok p ->
    exists c',
      p = JObj c'
      /\ map fst c' = map fst c
      /\ (dict_get "pain_index" c = Some JNull ->
          dict_get "pain_index" c' = Some JNull)
      /\ (forall h,
            dict_get "header" c = Some (JObj h) ->
            exists h',
              dict_get "header" c' = Some (JObj h')
              /\ map fst h' = map fst h
              /\ (dict_get "star_rating" h = Some JNull ->
                  dict_get "star_rating" h' = Some JNull)
              /\ (dict_get "total_reports_24h" h = Some JNull ->
                  dict_get "total_reports_24h" h' = Some JNull)
              /\ (dict_get "status" h = Some JNull ->
                  dict_get "status" h' = Some (JStr "moderate"))
              /\ (dict_get "status_color" h = Some JNull ->
                  dict_get "status_color" h' = Some (JStr "yellow")))
      /\ (forall s,
            dict_get "sentiment" c = Some (JObj s) ->
            exists s',
              dict_get "sentiment" c' = Some (JObj s')
              /\ forall k,
                   k <> "negative" -> k <> "neutral" -> k <> "positive" ->
                   dict_get k s = None -> dict_get k s' = None)
      /\ (forall l,
            dict_get "problem_distribution" c = Some (JArr l) ->
            exists l',
              dict_get "problem_distribution" c' = Some (JArr l')
              /\ Forall2
                   (fun e e' =>
                      forall d,
                        e = JObj d ->
                        exists d',
                          e' = JObj d' /\ map fst d' = map fst d /\
                          (dict_get "percent" d = Some JNull ->
                           dict_get "percent" d' = Some JNull))
                   l l').
Proof.
  intros sf si c p H. rewrite repair_rules in H.
  apply apply_rules_obj in H. destruct H as (c' & -> & Hk & Hv).
  exists c'. split; [reflexivity|]. split; [exact Hk|].
  split; [|split; [|split]].
  - intros Hn. specialize (Hv "pain_index"). rewrite Hn in Hv.
    destruct Hv as (v' & Hc & Hg). rewrite Hg. f_equal.
    cbn in Hc. congruence.
  - intros h Hh. specialize (Hv "header"). rewrite Hh in Hv.
    destruct Hv as (v' & Hc & Hg). rewrite header_chain in Hc.
    apply apply_rules_obj in Hc. destruct Hc as (h' & -> & Hk' & Hw).
    exists h'. split; [exact Hg|]. split; [exact Hk'|].
    repeat split; intros Hn;
      match type of Hn with
      | dict_get ?k _ = _ => specialize (Hw k)
      end;
      rewrite Hn in Hw; destruct Hw as (w & Hc & Hg'); rewrite Hg'; f_equal;
      cbn in Hc; congruence.
  - intros s Hs. specialize (Hv "sentiment"). rewrite Hs in Hv.
    destruct Hv as (v' & Hc & Hg).
    destruct (sentiment_absent sf si s v' Hc) as (s' & -> & Hs').
    exists s'. split; assumption.
  - intros l Hl. specialize (Hv "problem_distribution"). rewrite Hl in Hv.
    destruct Hv as (v' & Hc & Hg).
    unfold top_rules, chain in Hc.
    cbn [String.eqb Ascii.eqb Bool.eqb iterate bind] in Hc.
    apply bind_ok in Hc. destruct Hc as (v1 & H1 & Hc).
    apply bind_ok in H1. destruct H1 as (l' & Hm & H1).
    injection H1 as <-. injection Hc as <-.
    exists l'. split; [exact Hg|].
    apply mapM_Forall2 in Hm. clear Hg Hl.
    induction Hm as [|e e' l l' He Hm IH]; constructor.
    + intros d ->. apply (percent_entry sf). exact He.
    + exact IH.
Qed.

Lemma absent_and_null_witness :
  exists c',
    JObj [("pain_index", JNull);
          ("header", JObj [("status", JStr "moderate"); ("star_rating", JNull)])]
    = JObj c'
    /\ map fst c' = ["pain_index"; "header"]
    /\ dict_get "pain_index" c' = Some JNull.
Proof.
  destruct (absent_and_null no_float no_int
              [("pain_index", JNull);
               ("header", JObj [("status", JNull); ("star_rating", JNull)])]
              _ eq_refl) as (c' & Hp & Hk & Hn & _).
  exists c'. split; [exact Hp|]. split; [exact Hk|].
  apply Hn. reflexivity.
Defined.

(** A null [header.status] does not stay null, and the absent
    [sentiment.neutral] and [sentiment.positive] are written by the
    renormalization. *)
Lemma null_status_and_absent_sentiment_not_kept :
  repair no_float no_int
    (JObj [("header", JObj [("status", JNull)]);
           ("sentiment", JObj [("negative", JInt 50)])])
  = Ok (JObj [("header", JObj [("status", JStr "moderate")]);
              ("sentiment",
               JObj [("negative", JInt 100); ("neutral", JInt 0);
                     ("positive", JInt 0)])]).
Proof. vm_compute. reflexivity. Qed.

(* ===================================================================== *)
(** * A reply that is not an object *)
(* ===================================================================== *)


Lemma guard_keys_rules sf si k :
  In k guard_keys <-> In k (map fst (top_rules sf si)).
Proof. unfold guard_keys, top_rules. cbn [map fst In]. tauto. Qed.




(* ===================================================================== *)
(** * The latest-reports table *)
(* ===================================================================== *)

Import Scraper.

Section Reports.

Variable fromisoformat : string -> option string.
Variable strptime_title : string -> option string.

Local Abbreviation report := (report_of fromisoformat strptime_title).
Local Abbreviation loop := (latest_reports_loop fromisoformat strptime_title).

Lemma latest_reports_loop_app trs :
  forall reports,
    loop trs reports =
    (reports ++ flat_map (fun tr =>
                  match find_all "td" tr with
                  | [c0; c1; c2] => [report c0 c1 c2]
                  | _ => []
                  end) trs)%list.
Proof.
  induction trs as [|tr trs IH]; intros reports; cbn [latest_reports_loop flat_map].
  - rewrite app_nil_r. reflexivity.
  - destruct (find_all "td" tr) as [|c0 [|c1 [|c2 [|c3 cs]]]];
      rewrite IH; cbn [app]; try reflexivity.
    rewrite <- app_assoc. reflexivity.
Qed.

Lemma three_cells_count trs :
  List.length
    (flat_map (fun tr =>
       match find_all "td" tr with
       | [c0; c1; c2] => [report c0 c1 c2]
       | _ => []
       end) trs)
  = List.length
      (filter (fun tr => (List.length (find_all "td" tr) =? 3)%nat) trs).
Proof.
  induction trs as [|tr trs IH]; [reflexivity|]. cbn [flat_map filter].
  destruct (find_all "td" tr) as [|c0 [|c1 [|c2 [|c3 cs]]]];
    cbn [List.length Nat.eqb app]; rewrite ?IH; reflexivity.
Qed.

End Reports.

(** C8 (as amended).  [parse_latest_reports] yields, in the order of the
    [tr] elements that [#latestreports tr] selects (at any depth below
    the element with that id), one entry for each of them that has
    exactly three [td] elements below it, at any depth: the city is the
    text of the first of these, the reason the text of the second, the
    human time the text of the third, and the ISO time the [datetime]
    attribute of the first [time] element below the third passed through
    [parse_datetime]; the rows with another number of [td] elements add
    nothing.  The number of entries is the number of rows with three [td]
    elements: a table of five rows of three cells and one row of two
    cells yields five entries, and a table of five rows, one of them of
    two cells, yields four.  A row of one cell that holds a table of one
    row of two cells is an entry, the inner row is none.  The text of a
    cell leaves out the strings of the scripts below it and the
    comments. *)
Theorem latest_reports_rows :
  forall fromisoformat strptime_title doc,
    parse_latest_reports fromisoformat strptime_title doc =
    JArr (flat_map (fun tr =>
            match find_all "td" tr with
            | [c0; c1; c2] =>
                [JObj [("city", JStr (text (Some c0)));
                       ("reason", JStr (text (Some c1)));
                       ("time_human", JStr (text (Some c2)));
                       ("time_iso",
                        opt_str (parse_datetime fromisoformat strptime_title
                                   (attr (find "time" c2) "datetime")))]]
            | _ => []
            end) (select report_rows doc))
    /\ (exists reports,
          parse_latest_reports fromisoformat strptime_title doc = JArr reports
          /\ List.length reports
             = List.length
                 (filter (fun tr => (List.length (find_all "td" tr) =? 3)%nat)
                    (select report_rows doc)))
    /\ (exists reports,
          parse_latest_reports fromisoformat strptime_title six_rows
          = JArr reports
          /\ List.length reports = 5%nat)
    /\ (exists reports,
          parse_latest_reports fromisoformat strptime_title five_rows
          = JArr reports
          /\ List.length reports = 4%nat)
    /\ parse_latest_reports fromisoformat strptime_title nested_rows
       = JArr [JObj [("city", JStr "DallasInternetnow");
                     ("reason", JStr "Internet");
                     ("time_human", JStr "now");
                     ("time_iso", JNull)]]
    /\ parse_latest_reports fromisoformat strptime_title scripted_row
       = JArr [JObj [("city", JStr "Internet");
                     ("reason", JStr "Phone");
                     ("time_human", JStr "now");
                     ("time_iso", JNull)]].
Proof.
  intros fi st doc.
  assert (E : forall d,
             parse_latest_reports fi st d =
             JArr (flat_map (fun tr =>
                     match find_all "td" tr with
                     | [c0; c1; c2] => [report_of fi st c0 c1 c2]
                     | _ => []
                     end) (select report_rows d))).
  { intros d. unfold parse_latest_reports.
    rewrite latest_reports_loop_app. reflexivity. }
  split; [exact (E doc)|]. split; [|split; [|split; [|split]]].
  - eexists. split; [exact (E doc)|]. apply three_cells_count.
  - eexists. split; [exact (E six_rows)|].
    rewrite three_cells_count. vm_compute. reflexivity.
  - eexists. split; [exact (E five_rows)|].
    rewrite three_cells_count. vm_compute. reflexivity.
  - reflexivity.
  - reflexivity.
Qed.

(** Five rows of three cells and one row of two cells do not yield four
    entries. *)
Lemma six_rows_five_entries :
  exists reports,
    parse_latest_reports (fun _ => None) (fun _ => None) six_rows = JArr reports
    /\ List.length reports = 5%nat
    /\ List.length reports <> 4%nat.
Proof.
  eexists. split; [vm_compute; reflexivity|]. split; [reflexivity|discriminate].
Qed.

(* ===================================================================== *)
(** * Absent regions *)
(* ===================================================================== *)

Import Locations Facts Regions Pages.

Lemma node_induction (P : node -> Prop) :
  (forall cls s, P (Text cls s)) ->
  (forall name attrs kids, Forall P kids -> P (Elem name attrs kids)) ->
  forall n, P n.
Proof.
  intros HT HE. fix IH 1. intros [cls s|name attrs kids].
  - apply HT.
  - apply HE. revert kids. fix IHk 1. intros [|k kids].
    + constructor.
    + constructor; [apply IH | apply IHk].
Qed.

(** Every ancestor recorded in a tag of a subtree is an ancestor of the
    root of the subtree or an element of the subtree. *)
Lemma parents_of_tags n :
  forall up t e,
    In t (tags_of up n) -> In e (parents t) ->
    In e up \/
    exists t', In t' (tags_of up n) /\ (tag_name t', tag_attrs t') = e.
Proof.
  induction n as [cls s|name attrs kids IH] using node_induction;
    intros up t e Ht He; cbn [tags_of] in *.
  - contradiction.
  - destruct Ht as [<-|Ht].
    + left. exact He.
    + apply in_flat_map in Ht. destruct Ht as (k & Hk & Ht).
      rewrite Forall_forall in IH.
      destruct (IH k Hk _ _ _ Ht He) as [[<-|Hup]|(t' & Ht' & Heq)].
      * right. eexists. split; [left; reflexivity | reflexivity].
      * left. exact Hup.
      * right. exists t'. split; [|exact Heq].
        right. apply in_flat_map. exists k. split; assumption.
Qed.

Lemma parents_in_doc doc t e :
  In t (all_tags doc) -> In e (parents t) ->
  exists t', In t' (all_tags doc) /\ (tag_name t', tag_attrs t') = e.
Proof.
  unfold all_tags. intros Ht He.
  apply in_flat_map in Ht. destruct Ht as (n & Hn & Ht).
  destruct (parents_of_tags n _ _ _ Ht He) as [[]|(t' & Ht' & Heq)].
  exists t'. split; [|exact Heq].
  apply in_flat_map. exists n. split; assumption.
Qed.

Lemma filter_none {A} (f : A -> bool) l :
  (forall x, In x l -> f x = false) -> filter f l = [].
Proof.
  induction l as [|a l IH]; intros H; [reflexivity|]. cbn [filter].
  rewrite (H a (or_introl eq_refl)). apply IH.
  intros x Hx. apply H. right. exact Hx.
Qed.

Lemma no_element_spec c doc t :
  no_element c doc = true -> In t (all_tags doc) ->
  matches_compound c (tag_name t, tag_attrs t) = false.
Proof.
  unfold no_element. rewrite forallb_forall. intros H Ht.
  apply negb_true_iff. apply (H t Ht).
Qed.

Lemma is_empty_nil {A} (l : list A) : is_empty l = true -> l = [].
Proof. destruct l; [reflexivity | discriminate]. Qed.

(** The loop over the scripts passes the scripts that do not hold the
    time stamp. *)
Lemma chart_ts_loop_none scripts chart :
  forallb (fun script => negb (holds_chart_ts script)) scripts = true ->
  chart_ts_loop scripts chart = chart.
Proof.
  induction scripts as [|script rest IH]; cbn [forallb chart_ts_loop];
    [reflexivity|].
  intros H. apply andb_prop in H. destruct H as [Hs Hr].
  unfold holds_chart_ts in Hs.
  destruct (tag_string script) as [s|]; [|exact (IH Hr)].
  apply negb_true_iff in Hs. rewrite Hs. exact (IH Hr).
Qed.

(** A field whose region is absent has the empty value, and its extractor
    returns. *)
Lemma absent_empty urljoin si fi st digits f doc :
  absent f doc = true ->
  extract urljoin si fi st digits f doc = Ok (empty_value f).
Proof.
  destruct f; cbn [absent region forallb extract empty_value]; intros H;
    try (rewrite andb_true_r in H; apply is_empty_nil in H).
  - unfold parse_star_rating, select_one. rewrite H. reflexivity.
  - apply andb_prop in H. destruct H as [Hs Hi]. apply is_empty_nil in Hi.
    unfold parse_chart, select_one. fold chart_image_selector.
    rewrite Hi, (chart_ts_loop_none _ _ Hs). reflexivity.
  - unfold parse_most_reported. rewrite H. reflexivity.
  - unfold parse_latest_reports. rewrite H. reflexivity.
  - unfold parse_issue_feed. fold issue_items. rewrite H. reflexivity.
  - unfold parse_company_posts, select_one. rewrite H. reflexivity.
  - unfold last_15_days_status, select_one. rewrite H. reflexivity.
Qed.

(** What a selector selects does not change with the nodes in the hole
    when they are apart from it. *)
Lemma tags_plug sel c :
  forall up mid,
    encloses sel up c = false ->
    forallb (fun t => negb (matches sel t))
      (flat_map (tags_of (around up c)) mid) = true ->
    filter (matches sel) (flat_map (tags_of up) (plug c mid))
    = filter (matches sel) (flat_map (tags_of up) (plug c [])).
Proof.
  induction c as [before after|before name attrs inner IH after];
    intros up mid He Hm; cbn [plug encloses around] in *.
  - rewrite !flat_map_app, !filter_app. cbn [flat_map filter app].
    rewrite (filter_none (matches sel) (flat_map (tags_of up) mid));
      [reflexivity|].
    intros t Ht. rewrite forallb_forall in Hm.
    apply negb_true_iff. exact (Hm t Ht).
  - apply orb_false_iff in He. destruct He as [Hn He].
    rewrite !flat_map_app, !filter_app. f_equal.
    cbn [flat_map tags_of app filter].
    change (matches sel (Tag up name attrs (plug inner mid)))
      with (matches sel (Tag up name attrs [])).
    change (matches sel (Tag up name attrs (plug inner [])))
      with (matches sel (Tag up name attrs [])).
    rewrite Hn, !filter_app. f_equal. exact (IH _ mid He Hm).
Qed.

Lemma select_plug sel c mid :
  apart sel c mid = true -> select sel (plug c mid) = select sel (plug c []).
Proof.
  unfold apart, select, all_tags. intros H. apply andb_prop in H.
  destruct H as [He Hm]. apply negb_true_iff in He.
  exact (tags_plug sel c [] mid He Hm).
Qed.

(** The value of a field does not change with the nodes in the hole when
    they are apart from the region of the field. *)
Lemma extract_plug urljoin si fi st digits f c mid :
  forallb (fun sel => apart sel c mid) (region f) = true ->
  extract urljoin si fi st digits f (plug c mid)
  = extract urljoin si fi st digits f (plug c []).
Proof.
  destruct f; cbn [region forallb extract]; intros H;
    try (rewrite andb_true_r in H; pose proof (select_plug _ _ _ H) as E).
  - unfold parse_star_rating, select_one. rewrite E. reflexivity.
  - apply andb_prop in H. destruct H as [Hs Hi].
    rewrite andb_true_r in Hi.
    unfold parse_chart, select_one. fold chart_image_selector.
    rewrite (select_plug _ _ _ Hs), (select_plug _ _ _ Hi). reflexivity.
  - unfold parse_most_reported. rewrite E. reflexivity.
  - unfold parse_latest_reports. rewrite E. reflexivity.
  - unfold parse_issue_feed. fold issue_items. rewrite E. reflexivity.
  - unfold parse_company_posts, select_one. rewrite E. reflexivity.
  - unfold last_15_days_status, select_one. rewrite E. reflexivity.
Qed.

(** C9.  For each of the seven fields of the scraped record (star rating,
    chart, most reported problems, latest reports, issue feed, company
    posts on the outage page; locations on the map page): when the region
    of the field is absent from the document, whatever else the document
    holds, the extractor of the field returns, and returns the empty
    object (star rating, chart) or the empty sequence (the others).  The
    value of a field is the same with and without any nodes put anywhere
    in the document that are apart from the region of the field: the
    presence or absence of another region does not change it.  A page
    without a problem list and a map page without a table of locations
    give a record, which holds for the other fields what their extractors
    return: no absent region ends the run. *)
Theorem absent_regions :
  forall urljoin str_to_int fromisoformat strptime_title max_str_digits,
    (forall f doc,
       absent f doc = true ->
       extract urljoin str_to_int fromisoformat strptime_title max_str_digits
         f doc
       = Ok (empty_value f))
    /\ (forall f c mid,
          forallb (fun sel => apart sel c mid) (region f) = true ->
          extract urljoin str_to_int fromisoformat strptime_title
            max_str_digits f (plug c mid)
          = extract urljoin str_to_int fromisoformat strptime_title
              max_str_digits f (plug c []))
    /\ (forall doc map_doc,
          absent MostReported doc = true ->
          absent LocationStatus map_doc = true ->
          scrape_outage_page urljoin str_to_int fromisoformat strptime_title
            max_str_digits doc map_doc
          = Ok (JObj [("star_rating", parse_star_rating doc);
                      ("chart", parse_chart doc);
                      ("most_reported_problems", JArr []);
                      ("latest_reports",
                       parse_latest_reports fromisoformat strptime_title doc);
                      ("issues_reports",
                       parse_issue_feed fromisoformat strptime_title doc);
                      ("company_posts", parse_company_posts doc);
                      ("last_15_days_status", JArr [])])).
Proof.
  intros urljoin si fi st digits. split; [|split].
  - intros f doc. apply absent_empty.
  - intros f c mid. apply extract_plug.
  - intros doc map_doc Hd Hm.
    pose proof (absent_empty urljoin si fi st digits _ _ Hd) as Ed.
    pose proof (absent_empty urljoin si fi st digits _ _ Hm) as Em.
    cbn [extract empty_value] in Ed, Em.
    unfold scrape_outage_page, parse_outage_page.
    rewrite Ed. cbn [bind]. rewrite Em. reflexivity.
Qed.

Lemma absent_regions_witness :
  parse_most_reported 4300 bare_page = Ok (JArr [])
  /\ Ok (parse_star_rating bare_page) = Ok (JObj [])
  /\ Ok (parse_latest_reports (fun _ => None) (fun _ => None)
           (plug rating_hole [rating_sample]))
     = Ok (parse_latest_reports (fun _ => None) (fun _ => None)
             (plug rating_hole []))
  /\ scrape_outage_page sample_urljoin no_int (fun _ => None) (fun _ => None)
       4300 bare_page bare_page
     = Ok (JObj [("star_rating", parse_star_rating bare_page);
                 ("chart", parse_chart bare_page);
                 ("most_reported_problems", JArr []);
                 ("latest_reports",
                  parse_latest_reports (fun _ => None) (fun _ => None)
                    bare_page);
                 ("issues_reports",
                  parse_issue_feed (fun _ => None) (fun _ => None) bare_page);
                 ("company_posts", parse_company_posts bare_page);
                 ("last_15_days_status", JArr [])]).
Proof.
  pose proof (absent_regions sample_urljoin no_int (fun _ => None)
                (fun _ => None) 4300%nat) as (A & B & R).
  split; [|split; [|split]].
  - apply (A MostReported bare_page). reflexivity.
  - apply (A StarRating bare_page). reflexivity.
  - apply (B LatestReports rating_hole [rating_sample]). reflexivity.
  - apply (R bare_page bare_page); reflexivity.
Defined.

(** The record of the page of the example, and the latest reports of the
    same page with the star rating in its body. *)
Example bare_page_record :
  scrape_outage_page sample_urljoin no_int (fun _ => None) (fun _ => None)
    4300 bare_page bare_page
  = Ok (JObj [("star_rating", JObj []);
              ("chart", JObj []);
              ("most_reported_problems", JArr []);
              ("latest_reports",
               JArr [JObj [("city", JStr "Dallas");
                           ("reason", JStr "Internet");
                           ("time_human", JStr "2 minutes ago");
                           ("time_iso", JNull)]]);
              ("issues_reports", JArr []);
              ("company_posts", JArr []);
              ("last_15_days_status", JArr [])])
  /\ plug rating_hole [] = bare_page
  /\ parse_star_rating (plug rating_hole [rating_sample])
     = JObj [("current", JStr "4.2"); ("count", JNull)].
Proof. repeat split; reflexivity. Qed.

(* ===================================================================== *)
(** * Completion of the pass *)
(* ===================================================================== *)

(** A run of rules on a dict completes when, at every key present, the
    repairs of the rules at the key complete. *)
Lemma apply_rules_total rules :
  forall d,
    (forall k v, dict_get k d = Some v -> exists v', chain k rules v = Ok v') ->
    exists d', apply_rules rules (JObj d) = Ok (JObj d').
Proof.
  induction rules as [|[k0 f] rest IH]; intros d H.
  - exists d. reflexivity.
  - cbn [apply_rules]. rewrite with_item_obj.
    destruct (dict_get k0 d) as [v0|] eqn:E0.
    + destruct (H k0 v0 E0) as (v' & Hc). cbn [chain] in Hc.
      rewrite String.eqb_refl in Hc.
      apply bind_ok in Hc. destruct Hc as (v0' & Hf & Hc).
      rewrite Hf. cbn [bind]. apply IH. intros k v Hk.
      rewrite dict_get_set in Hk. destruct (String.eqb k k0) eqn:Ek.
      * injection Hk as <-. apply String.eqb_eq in Ek. subst k. eauto.
      * destruct (H k v Hk) as (v'' & Hc''). cbn [chain] in Hc''.
        rewrite Ek in Hc''. eauto.
    + cbn [bind]. apply IH. intros k v Hk.
      destruct (H k v Hk) as (v'' & Hc''). cbn [chain] in Hc''.
      destruct (String.eqb k k0) eqn:Ek; [|eauto].
      apply String.eqb_eq in Ek. subst k. congruence.
Qed.

Lemma chain_other rules k v :
  ~ In k (map fst rules) -> chain k rules v = Ok v.
Proof.
  induction rules as [|[k0 f] rest IH]; intros H; [reflexivity|].
  cbn [chain]. destruct (String.eqb k k0) eqn:Ek.
  - apply String.eqb_eq in Ek. subst k0. exfalso. apply H. left. reflexivity.
  - apply IH. intros Hin. apply H. right. exact Hin.
Qed.

Lemma py_float_raises sf v e :
  py_float sf v = Raise e ->
  e = TypeError \/ e = ValueError \/ e = OverflowError.
Proof.
  destruct v as [|b|z|f|s|l|d]; cbn [py_float]; try (intros [= <-]; auto);
    try discriminate.
  - unfold float_of_int. destruct (nearest_Z z); intros [= <-]; auto.
  - destruct (sf s); intros [= <-]; auto.
Qed.

Lemma round_float_raises x e :
  round_float x = Raise e -> e = ValueError \/ e = OverflowError.
Proof. destruct x; cbn [round_float]; intros [= <-]; auto. Qed.

Lemma py_int_raises si v e :
  py_int si v = Raise e ->
  e = TypeError \/ e = ValueError \/ e = OverflowError.
Proof.
  destruct v as [|b|z|f|s|l|d]; cbn [py_int]; try (intros [= <-]; auto);
    try discriminate.
  - destruct f; cbn [int_float]; intros [= <-]; auto.
  - destruct (si s); intros [= <-]; auto.
Qed.

Lemma clamp_number_total sf hi n v :
  floats sf v = true -> exists v', clamp_number sf hi n v = Ok v'.
Proof.
  unfold floats, clamp_number. intros H.
  destruct (is_none v); [eauto|].
  destruct (py_float sf v) as [x|e] eqn:E; cbn [bind try_except]; [eauto|].
  destruct (py_float_raises _ _ _ E) as [->|[->| ->]]; eauto; discriminate.
Qed.

Lemma clamp_count_total si v :
  ints si v = true -> exists v', clamp_count si v = Ok v'.
Proof.
  unfold ints, clamp_count. intros H.
  destruct (is_none v); [eauto|].
  destruct (py_int si v) as [x|e] eqn:E; cbn [bind try_except]; [eauto|].
  destruct (py_int_raises _ _ _ E) as [->|[->| ->]]; eauto; discriminate.
Qed.

(** The clamp of a percentage: null stays null, anything else becomes an
    integer of [0, 100]. *)
Lemma clamp_percent_range sf v v' :
  clamp_percent sf v = Ok v' ->
  (v = JNull /\ v' = JNull) \/ (exists n, v' = JInt n /\ 0 <= n <= 100).
Proof.
  unfold clamp_percent. destruct (is_none v) eqn:En.
  - intros [= <-]. left. destruct v; try discriminate. auto.
  - intros H. right.
    assert (R : forall r, 0 <= max_int 0 (min_int 100 r) <= 100).
    { intros r. unfold max_int, min_int.
      destruct (Z.ltb_spec r 100);
        match goal with
        | |- context [0 <? ?x] => destruct (Z.ltb_spec 0 x)
        end; lia. }
    destruct (py_float sf v) as [x|e]; cbn [bind try_except] in H.
    + destruct (round_float x) as [r|e]; cbn [bind try_except] in H.
      * injection H as <-. eauto.
      * destruct e; try discriminate; injection H as <-; exists 0; (split; [reflexivity|lia]).
    + destruct e; try discriminate; injection H as <-; exists 0; (split; [reflexivity|lia]).
Qed.

Lemma clamp_percent_total sf v :
  rounds sf v = true -> exists v', clamp_percent sf v = Ok v'.
Proof.
  unfold rounds, clamp_percent. intros H.
  destruct (is_none v); [eauto|].
  destruct (py_float sf v) as [x|e] eqn:E; cbn [bind try_except] in *.
  - destruct (round_float x) as [r|e] eqn:Er; cbn [bind try_except]; [eauto|].
    destruct (round_float_raises _ _ Er) as [->| ->]; eauto; discriminate.
  - destruct (py_float_raises _ _ _ E) as [->|[->| ->]]; eauto; discriminate.
Qed.

Lemma scaled_default d k a p :
  match dict_get k d with Some x => x | None => JInt 0 end = JInt a ->
  scaled (JObj d) k (nearest_quot false 100 p) = scaled_float a (Zpos p).
Proof.
  intros H. unfold scaled, scaled_float.
  cbn [get_default truediv bind]. rewrite H. reflexivity.
Qed.

(** The renormalization completes on a dict whose values at the three
    keys, where present, are clamped integers. *)
Lemma renormalize_total d :
  (forall k x,
     In k ["negative"; "neutral"; "positive"] ->
     dict_get k d = Some x -> exists n, x = JInt n /\ 0 <= n <= 100) ->
  exists p, renormalize (JObj d) = Ok p.
Proof.
  intros H.
  assert (V : forall k,
             In k ["negative"; "neutral"; "positive"] ->
             exists n,
               match dict_get k d with Some x => x | None => JInt 0 end = JInt n
               /\ 0 <= n <= 100).
  { intros k Hk. destruct (dict_get k d) as [x|] eqn:E.
    - exact (H k x Hk E).
    - exists 0. split; [reflexivity|lia]. }
  destruct (V "negative") as (a & Ea & Ha); [cbn; tauto|].
  destruct (V "neutral") as (b & Eb & Hb); [cbn; tauto|].
  destruct (V "positive") as (c & Ec & Hc); [cbn; tauto|].
  unfold renormalize. cbn [get_default bind]. rewrite Ea, Eb, Ec.
  cbn [as_int bind].
  destruct (negb (a + b + c =? 100) && (0 <? a + b + c)) eqn:E; [|eauto].
  apply andb_prop in E. destruct E as [_ E]. apply Z.ltb_lt in E.
  destruct (a + b + c) as [|p|p] eqn:Es; try lia.
  cbn [truediv bind].
  rewrite (scaled_default d "negative" a p Ea).
  rewrite (scaled_float_grid a (Zpos p)) by lia.
  cbn [bind setitem].
  rewrite (scaled_default _ "neutral" b p)
    by (rewrite dict_get_set; exact Eb).
  rewrite (scaled_float_grid b (Zpos p)) by lia.
  cbn [bind setitem getitem].
  rewrite !dict_get_set. cbn [String.eqb Ascii.eqb Bool.eqb]. cbn [as_int bind].
  eauto.
Qed.

Lemma header_total sf si v :
  header_shape sf si v = true ->
  exists v', apply_rules (header_rules sf si) v = Ok v'.
Proof.
  destruct v as [| | | | | |h]; try discriminate. cbn [header_shape].
  intros H. apply andb_prop in H. destruct H as [Hs Ht].
  destruct (apply_rules_total (header_rules sf si) h) as (h' & Hh'); [|eauto].
  intros k x Hk.
  destruct (in_dec string_dec k (map fst (header_rules sf si))) as [Hin|Hin].
  - cbn [header_rules map fst In] in Hin.
    destruct Hin as [<-|[<-|[<-|[<-|[]]]]];
      unfold header_rules, chain; cbn [String.eqb Ascii.eqb Bool.eqb].
    + rewrite Hk in Hs. destruct (clamp_number_total sf f5 2 x Hs) as (x' & ->).
      cbn [bind]. eauto.
    + unfold enum. cbn [bind]. eauto.
    + unfold enum. cbn [bind]. eauto.
    + rewrite Hk in Ht. destruct (clamp_count_total si x Ht) as (x' & ->).
      cbn [bind]. eauto.
  - rewrite chain_other by exact Hin. eauto.
Qed.

Lemma sentiment_total sf si v :
  sentiment_shape sf v = true ->
  exists v', chain "sentiment" (top_rules sf si) v = Ok v'.
Proof.
  destruct v as [| | | | | |s]; try discriminate. cbn [sentiment_shape].
  intros H. apply andb_prop in H. destruct H as [H Hsam].
  apply andb_prop in H. destruct H as [H Hpos].
  apply andb_prop in H. destruct H as [Hneg Hneu].
  assert (T : forall k x,
             In k ["negative"; "neutral"; "positive"] ->
             dict_get k s = Some x -> is_none x = false /\ rounds sf x = true).
  { intros k x Hin Hk. cbn [In] in Hin.
    destruct Hin as [<-|[<-|[<-|[]]]];
      match goal with
      | Q : triple_shape sf s ?key = true, Hk : dict_get ?key s = _ |- _ =>
          unfold triple_shape in Q; rewrite Hk in Q;
          apply andb_prop in Q; destruct Q as [Q1 Q2];
          apply negb_true_iff in Q1; auto
      end. }
  assert (C : forall k x,
             In k ["negative"; "neutral"; "positive"] ->
             chain k (sentiment_rules sf) x = (x' <- clamp_percent sf x ;; Ok x')).
  { intros k x Hin. cbn [In] in Hin.
    destruct Hin as [<-|[<-|[<-|[]]]];
      unfold sentiment_rules, chain; cbn [String.eqb Ascii.eqb Bool.eqb];
      destruct (clamp_percent sf x); reflexivity. }
  rewrite sentiment_chain.
  destruct (apply_rules_total (sentiment_rules sf) s) as (s1 & H1).
  { intros k x Hk.
    destruct (in_dec string_dec k ["negative"; "neutral"; "positive"]) as [Hin|Hin].
    - rewrite (C k x Hin).
      destruct (clamp_percent_total sf x (proj2 (T k x Hin Hk))) as (x' & ->).
      cbn [bind]. eauto.
    - rewrite chain_other by exact Hin. eauto. }
  rewrite H1. cbn [bind].
  destruct (apply_rules_obj _ _ _ H1) as (s1' & E1 & _ & Hv).
  injection E1 as <-.
  destruct (renormalize_total s1) as (p2 & H2).
  { intros k x' Hin Hk'. specialize (Hv k).
    destruct (dict_get k s) as [x|] eqn:Hk; [|congruence].
    destruct Hv as (x'' & Hc & Hg). rewrite Hg in Hk'. injection Hk' as ->.
    rewrite (C k x Hin) in Hc. rewrite bind_ret in Hc.
    destruct (clamp_percent_range sf x x' Hc) as [[-> _]|R]; [|exact R].
    destruct (T k JNull Hin Hk) as [N _]. discriminate. }
  rewrite H2. cbn [bind].
  assert (G : exists s2, p2 = JObj s2 /\ dict_get "samples" s2 = dict_get "samples" s).
  { assert (S1 : dict_get "samples" s1 = dict_get "samples" s).
    { specialize (Hv "samples"). destruct (dict_get "samples" s) as [x|].
      - destruct Hv as (x' & Hc & Hg). cbn in Hc. congruence.
      - exact Hv. }
    apply renormalize_obj in H2. destruct H2 as [->|(x & y & z & ->)].
    - eauto.
    - eexists. split; [reflexivity|]. rewrite !dict_get_set. exact S1. }
  destruct G as (s2 & -> & G). rewrite with_item_obj, G.
  destruct (dict_get "samples" s) as [x|]; [|eauto].
  destruct x; try discriminate. rewrite truncate_arr. cbn [bind]. eauto.
Qed.

Lemma problems_total sf si v :
  problems_shape sf v = true ->
  exists v', chain "problem_distribution" (top_rules sf si) v = Ok v'.
Proof.
  destruct v as [| | | | |l|]; try discriminate. cbn [problems_shape].
  intros H. unfold top_rules, chain.
  cbn [String.eqb Ascii.eqb Bool.eqb iterate bind].
  assert (M : exists l',
             mapM (fun prob => with_item prob "percent" (clamp_percent sf)) l
             = Ok l').
  { induction l as [|e l IH]; [eexists; reflexivity|].
    cbn [forallb] in H. apply andb_prop in H. destruct H as [He Hl].
    destruct (IH Hl) as (l' & Hl'). cbn [mapM]. rewrite Hl'.
    destruct e as [| | | | | |d]; try discriminate.
    rewrite with_item_obj. destruct (dict_get "percent" d) as [x|].
    - destruct (clamp_percent_total sf x He) as (x' & ->). cbn [bind]. eauto.
    - cbn [bind]. eauto. }
  destruct M as (l' & ->). cbn [bind]. eauto.
Qed.

(** The pass completes on every well-shaped candidate object: the header
    and the sentiment are objects, the problem distribution is an array of
    objects, the bounded fields are arrays, the members of the sentiment
    triple are not null, and no numeric field overflows its conversion. *)
Theorem repair_completes sf si c :
  well_shaped sf si c = true -> exists p, repair sf si (JObj c) = Ok p.
Proof.
  intros W. rewrite repair_rules.
  destruct (apply_rules_total (top_rules sf si) c) as (c' & Hc'); [|eauto].
  intros k v Hk.
  destruct (in_dec string_dec k guard_keys) as [Hin|Hin].
  - unfold well_shaped in W. rewrite forallb_forall in W.
    specialize (W k Hin). rewrite Hk in W.
    unfold guard_keys in Hin. cbn [In] in Hin.
    destruct Hin as [<-|[<-|[<-|[<-|Hin]]]].
    + unfold shape in W. cbn [String.eqb Ascii.eqb Bool.eqb] in W.
      unfold top_rules, chain. cbn [String.eqb Ascii.eqb Bool.eqb].
      destruct (clamp_number_total sf f10 1 v W) as (v' & ->). cbn [bind]. eauto.
    + unfold shape in W. cbn [String.eqb Ascii.eqb Bool.eqb] in W.
      rewrite header_chain. apply header_total. exact W.
    + unfold shape in W. cbn [String.eqb Ascii.eqb Bool.eqb] in W.
      apply sentiment_total. exact W.
    + unfold shape in W. cbn [String.eqb Ascii.eqb Bool.eqb] in W.
      apply problems_total. exact W.
    + repeat (destruct Hin as [<-|Hin];
              [ unfold shape, bounds in W;
                cbn [String.eqb Ascii.eqb Bool.eqb existsb fst orb] in W;
                destruct v; try discriminate;
                unfold top_rules, chain; cbn [String.eqb Ascii.eqb Bool.eqb];
                rewrite truncate_arr; cbn [bind]; eauto | ]).
      contradiction.
  - rewrite chain_other; [eauto|].
    intros Hin'. apply Hin. apply (guard_keys_rules sf si). exact Hin'.
Qed.

Example repair_completes_example :
  well_shaped no_float no_int
    [("pain_index", JFloat (nearest_quot false 1437 100));
     ("header", JObj [("status", JStr "outage"); ("star_rating", JNull)]);
     ("sentiment", JObj [("negative", JInt 50); ("neutral", JInt 50);
                         ("positive", JInt 20); ("samples", JArr [])]);
     ("recommendations", JArr [JStr "a"])] = true.
Proof. vm_compute. reflexivity. Qed.

(* ===================================================================== *)
(** * Truncation of the bounded arrays *)
(* ===================================================================== *)

Lemma sentiment_samples str_to_float str_to_int s v' l :
  chain "sentiment" (top_rules str_to_float str_to_int) (JObj s) = Ok v' ->
  dict_get "samples" s = Some (JArr l) ->
  exists s', v' = JObj s' /\ dict_get "samples" s' = Some (JArr (firstn 4 l)).
Proof.
  intros H Hs. rewrite sentiment_chain in H.
  apply bind_ok in H. destruct H as (s1 & H1 & H).
  apply bind_ok in H. destruct H as (s2 & H2 & H).
  apply apply_rules_obj in H1. destruct H1 as (d1 & -> & _ & Hv).
  specialize (Hv "samples"). rewrite Hs in Hv.
  destruct Hv as (w & Hc & Hg). injection Hc as <-.
  assert (G2 : exists d2, s2 = JObj d2 /\ dict_get "samples" d2 = Some (JArr l)).
  { apply renormalize_obj in H2. destruct H2 as [->|(x & y & z & ->)].
    - eauto.
    - eexists. split; [reflexivity|]. rewrite !dict_get_set. exact Hg. }
  destruct G2 as (d2 & -> & Hg2).
  rewrite with_item_obj, Hg2, truncate_arr in H. injection H as <-.
  eexists. split; [reflexivity|]. rewrite dict_get_set. reflexivity.
Qed.

(** C6 (as amended).  The pass yields a payload for every well-shaped
    candidate object, and whenever it yields a payload for a candidate
    object, an array under one of the six bounded top-level keys, and an
    array under [sentiment.samples], holds in the payload its first [n]
    elements in their order, [n] being the bound of the key: the array
    itself when it has at most [n] elements, exactly [n] elements
    otherwise.  The truncation of an array never raises; when another
    statement of the pass raises there is no payload. *)
Theorem arrays_truncated :
  forall str_to_float str_to_int c,
    (well_shaped str_to_float str_to_int c = true ->
     exists p, repair str_to_float str_to_int (JObj c) = Ok p)
    /\
    forall p,
    repair str_to_float str_to_int (JObj c) = Ok p ->
    exists c',
      p = JObj c'
      /\ (forall k n l,
            In (k, n) bounds ->
            dict_get k c = Some (JArr l) ->
            dict_get k c' = Some (JArr (firstn n l)))
      /\ (forall s l,
            dict_get "sentiment" c = Some (JObj s) ->
            dict_get "samples" s = Some (JArr l) ->
            exists s',
              dict_get "sentiment" c' = Some (JObj s')
              /\ dict_get "samples" s' = Some (JArr (firstn 4 l)))
      /\ (forall n (l : list json),
            truncate n (JArr l) = Ok (JArr (firstn n l))
            /\ ((List.length l <= n)%nat -> firstn n l = l)
            /\ ((n < List.length l)%nat -> List.length (firstn n l) = n)).
Proof.
  intros sf si c. split; [apply repair_completes|].
  intros p H. rewrite repair_rules in H.
  apply apply_rules_obj in H. destruct H as (c' & -> & _ & Hv).
  exists c'. split; [reflexivity|]. split; [|split].
  - intros k n l Hin Hg. specialize (Hv k). rewrite Hg in Hv.
    destruct Hv as (v' & Hc & Hg'). rewrite Hg'. f_equal.
    unfold bounds in Hin. cbn [In] in Hin.
    repeat (destruct Hin as [Hin|Hin];
            [ injection Hin as <- <-;
              unfold top_rules, chain in Hc;
              cbn [String.eqb Ascii.eqb Bool.eqb] in Hc;
              rewrite truncate_arr in Hc; cbn [bind] in Hc;
              congruence | ]).
    contradiction.
  - intros s l Hs Hl. specialize (Hv "sentiment"). rewrite Hs in Hv.
    destruct Hv as (v' & Hc & Hg').
    destruct (sentiment_samples sf si s v' l Hc Hl) as (s' & -> & Hs').
    exists s'. split; assumption.
  - intros n l. split; [apply truncate_arr|]. split; intros Hn.
    + apply firstn_all2. exact Hn.
    + apply firstn_length_le. lia.
Qed.

Lemma arrays_truncated_witness :
  (exists p,
     repair no_float no_int
       (JObj [("recommendations", JArr [JStr "a"; JStr "b"; JStr "c"; JStr "d"])])
     = Ok p)
  /\
  exists c',
    JObj [("recommendations", JArr [JStr "a"; JStr "b"; JStr "c"]);
          ("sentiment", JObj [("samples", JArr [JInt 1; JInt 2; JInt 3; JInt 4])])]
    = JObj c'
    /\ dict_get "recommendations" c'
       = Some (JArr (firstn 3 [JStr "a"; JStr "b"; JStr "c"; JStr "d"])).
Proof.
  split.
  { apply (proj1 (arrays_truncated no_float no_int
                    [("recommendations",
                      JArr [JStr "a"; JStr "b"; JStr "c"; JStr "d"])])).
    reflexivity. }
  destruct (proj2 (arrays_truncated no_float no_int
              [("recommendations", JArr [JStr "a"; JStr "b"; JStr "c"; JStr "d"]);
               ("sentiment",
                JObj [("samples", JArr [JInt 1; JInt 2; JInt 3; JInt 4; JInt 5])])])
              _ eq_refl) as (c' & Hp & Hk & _).
  exists c'. split; [exact Hp|].
  apply (Hk "recommendations" 3%nat); [cbn; tauto | reflexivity].
Defined.

(** An array longer than its bound is not truncated when another
    statement of the pass raises: with six key metrics and a null
    [recommendations], whose length the guard of line 261 asks for, the
    pass raises [TypeError] and there is no payload with the first five
    key metrics. *)
Lemma null_field_stops_truncation :
  repair no_float no_int
    (JObj [("key_metrics",
            JArr [JInt 1; JInt 2; JInt 3; JInt 4; JInt 5; JInt 6]);
           ("recommendations", JNull)])
  = Raise TypeError
  /\ repair no_float no_int
       (JObj [("key_metrics",
               JArr [JInt 1; JInt 2; JInt 3; JInt 4; JInt 5; JInt 6]);
              ("recommendations", JNull)])
     <> Ok (JObj [("key_metrics", JArr [JInt 1; JInt 2; JInt 3; JInt 4; JInt 5]);
                  ("recommendations", JNull)]).
Proof. split; [vm_compute; reflexivity | discriminate]. Qed.

(* ===================================================================== *)
(** * Enumerations *)
(* ===================================================================== *)

(** C7 (as amended).  The pass yields a payload for every well-shaped
    candidate object, and whenever it yields a payload for a candidate
    whose header is an object, a [status] present in the header is kept
    when it is one of "good", "moderate", "major issues" and is "moderate"
    otherwise, and a [status_color] present is kept when it is one of
    "green", "yellow", "red" and is "yellow" otherwise; the status
    "outage" becomes "moderate".  When a statement of the pass raises
    there is no payload. *)
Theorem enums_replaced :
  forall str_to_float str_to_int c,
    (well_shaped str_to_float str_to_int c = true ->
     exists p, repair str_to_float str_to_int (JObj c) = Ok p)
    /\
    forall p h,
    repair str_to_float str_to_int (JObj c) = Ok p ->
    dict_get "header" c = Some (JObj h) ->
    exists c' h',
      p = JObj c'
      /\ dict_get "header" c' = Some (JObj h')
      /\ (forall v,
            dict_get "status" h = Some v ->
            dict_get "status" h'
            = Some (if existsb (fun a => is_str a v)
                         ["good"; "moderate"; "major issues"]
                    then v else JStr "moderate"))
      /\ (forall v,
            dict_get "status_color" h = Some v ->
            dict_get "status_color" h'
            = Some (if existsb (fun a => is_str a v) ["green"; "yellow"; "red"]
                    then v else JStr "yellow"))
      /\ (dict_get "status" h = Some (JStr "outage") ->
          dict_get "status" h' = Some (JStr "moderate")).
Proof.
  intros sf si c. split; [apply repair_completes|].
  intros p h H Hh. rewrite repair_rules in H.
  apply apply_rules_obj in H. destruct H as (c' & -> & _ & Hv).
  specialize (Hv "header"). rewrite Hh in Hv.
  destruct Hv as (v' & Hc & Hg). rewrite header_chain in Hc.
  apply apply_rules_obj in Hc. destruct Hc as (h' & -> & _ & Hw).
  exists c', h'. split; [reflexivity|]. split; [exact Hg|].
  assert (S : forall v,
             dict_get "status" h = Some v ->
             dict_get "status" h'
             = Some (if existsb (fun a => is_str a v)
                          ["good"; "moderate"; "major issues"]
                     then v else JStr "moderate")).
  { intros v Hs. specialize (Hw "status"). rewrite Hs in Hw.
    destruct Hw as (w & Hc & Hg'). rewrite Hg'. f_equal.
    unfold header_rules, chain, enum in Hc.
    cbn [String.eqb Ascii.eqb Bool.eqb bind] in Hc. congruence. }
  split; [exact S|]. split.
  - intros v Hs. specialize (Hw "status_color"). rewrite Hs in Hw.
    destruct Hw as (w & Hc & Hg'). rewrite Hg'. f_equal.
    unfold header_rules, chain, enum in Hc.
    cbn [String.eqb Ascii.eqb Bool.eqb bind] in Hc. congruence.
  - intros Hs. rewrite (S _ Hs). reflexivity.
Qed.

Lemma enums_replaced_witness :
  (exists p,
     repair no_float no_int
       (JObj [("header", JObj [("status", JStr "outage")])]) = Ok p)
  /\
  exists c' h',
    JObj [("header", JObj [("status", JStr "moderate"); ("status_color", JStr "red")])]
    = JObj c'
    /\ dict_get "header" c' = Some (JObj h')
    /\ dict_get "status" h' = Some (JStr "moderate").
Proof.
  split.
  { apply (proj1 (enums_replaced no_float no_int
                    [("header", JObj [("status", JStr "outage")])])).
    reflexivity. }
  destruct (proj2 (enums_replaced no_float no_int
              [("header", JObj [("status", JStr "outage"); ("status_color", JStr "red")])])
              _ [("status", JStr "outage"); ("status_color", JStr "red")]
              eq_refl eq_refl) as (c' & h' & Hp & Hh & _ & _ & Hs).
  exists c', h'. split; [exact Hp|]. split; [exact Hh|].
  apply Hs. reflexivity.
Defined.

(** A status outside the allowed set is not replaced when an earlier
    statement of the pass raises: with an array as sentiment, line 233
    raises [AttributeError] before the enumerations are reached, and there
    is no payload with the status "moderate". *)
Lemma status_kept_when_pass_raises :
  repair no_float no_int
    (JObj [("header", JObj [("status", JStr "outage")]);
           ("sentiment", JArr [])])
  = Raise AttributeError
  /\ repair no_float no_int
       (JObj [("header", JObj [("status", JStr "outage")]);
              ("sentiment", JArr [])])
     <> Ok (JObj [("header", JObj [("status", JStr "moderate")]);
                  ("sentiment", JArr [])]).
Proof. split; [vm_compute; reflexivity | discriminate]. Qed.

(* ===================================================================== *)
(** * Values the pass leaves in the payload *)
(* ===================================================================== *)

Import Locations Facts.

(** A guarded statement leaves a value that is not a dict as it is, or
    raises. *)
Lemma with_item_other v k f v' :
  (forall d, v <> JObj d) -> with_item v k f = Ok v' -> v' = v.
Proof.
  intros Hv. unfold with_item.
  destruct v as [| | | |s|l|d]; cbn [py_in bind]; try discriminate.
  - destruct (contains k s); cbn [getitem bind]; [discriminate | congruence].
  - destruct (existsb (is_str k) l); cbn [getitem bind]; [discriminate | congruence].
  - exfalso. apply (Hv d). reflexivity.
Qed.

Lemma apply_rules_other rules :
  forall v p,
    (forall d, v <> JObj d) -> apply_rules rules v = Ok p -> p = v.
Proof.
  induction rules as [|[k f] rest IH]; intros v p Hv H; cbn [apply_rules] in H.
  - congruence.
  - apply bind_ok in H. destruct H as (v1 & H1 & H).
    apply with_item_other in H1; [|exact Hv]. subst v1. apply IH; assumption.
Qed.

Lemma apply_rules_from_obj rules v d' :
  apply_rules rules v = Ok (JObj d') -> exists d, v = JObj d.
Proof.
  intros H. destruct v as [| | | | | |d]; [..|eauto];
    (apply apply_rules_other in H; [discriminate | intros ?; discriminate]).
Qed.

Lemma getitem_ok v k x :
  getitem v k = Ok x -> exists d, v = JObj d /\ dict_get k d = Some x.
Proof.
  destruct v as [| | | | | |d]; try discriminate. cbn [getitem].
  destruct (dict_get k d) as [y|] eqn:E; [intros [= ->]; eauto | discriminate].
Qed.

(** The value found at a key after a run of rules went through the
    repairs of the rules at that key. *)
Lemma apply_rules_getitem rules v p k x :
  apply_rules rules v = Ok p -> getitem p k = Ok x ->
  exists d x0, v = JObj d /\ dict_get k d = Some x0 /\ chain k rules x0 = Ok x.
Proof.
  intros H G. apply getitem_ok in G. destruct G as (d' & -> & G).
  destruct (apply_rules_from_obj _ _ _ H) as (d & ->).
  apply apply_rules_obj in H. destruct H as (d'' & E & _ & Hv).
  injection E as <-. specialize (Hv k).
  destruct (dict_get k d) as [x0|] eqn:E0; [|congruence].
  destruct Hv as (v' & Hc & Hg). exists d, x0.
  split; [reflexivity|]. split; [exact E0|]. congruence.
Qed.

Lemma with_item_getitem v k f p x :
  with_item v k f = Ok p -> getitem p k = Ok x ->
  exists d x0, v = JObj d /\ dict_get k d = Some x0 /\ f x0 = Ok x.
Proof.
  intros H G.
  assert (R : apply_rules [(k, f)] v = Ok p).
  { cbn [apply_rules]. rewrite H. reflexivity. }
  destruct (apply_rules_getitem _ _ _ _ _ R G) as (d & x0 & -> & Hd & Hc).
  exists d, x0. repeat split; [exact Hd|].
  cbn [chain] in Hc. rewrite String.eqb_refl in Hc.
  destruct (f x0); [exact Hc | discriminate].
Qed.

Lemma SFltb_leb x y : SFltb x y = true -> SFleb x y = true.
Proof.
  unfold SFltb, SFleb. destruct (SFcompare x y) as [[| |]|]; congruence.
Qed.

Lemma clamped_between hi r :
  SFleb f0 hi = true -> SFleb hi hi = true ->
  between f0 hi (max_float f0 (min_float hi r)) = true.
Proof.
  intros H0 Hh. unfold between, max_float, min_float.
  destruct (SFltb r hi) eqn:E1.
  - destruct (SFltb f0 r) eqn:E2.
    + rewrite (SFltb_leb _ _ E1), (SFltb_leb _ _ E2). reflexivity.
    + rewrite H0. reflexivity.
  - destruct (SFltb f0 hi) eqn:E2.
    + rewrite H0, Hh. reflexivity.
    + rewrite H0. reflexivity.
Qed.

(** The clamp of a score: null stays null, anything else becomes a float
    of [0.0, hi]. *)
Lemma clamp_number_range sf hi n v v' :
  SFleb f0 hi = true -> SFleb hi hi = true ->
  clamp_number sf hi n v = Ok v' ->
  v' = JNull \/ exists f, v' = JFloat f /\ between f0 hi f = true.
Proof.
  intros H0 Hh. unfold clamp_number. destruct (is_none v) eqn:En.
  - intros [= <-]. left. destruct v; try discriminate. reflexivity.
  - intros H. right.
    destruct (py_float sf v) as [x|e]; cbn [bind try_except] in H.
    + injection H as <-. eexists. split; [reflexivity|].
      apply clamped_between; assumption.
    + destruct e; try discriminate; injection H as <-; exists f0;
        (split; [reflexivity|]); unfold between; rewrite H0; reflexivity.
Qed.

(** The clamp of a count: null stays null, anything else becomes a
    non-negative integer. *)
Lemma clamp_count_range si v v' :
  clamp_count si v = Ok v' ->
  v' = JNull \/ exists n, v' = JInt n /\ 0 <= n.
Proof.
  unfold clamp_count. destruct (is_none v) eqn:En.
  - intros [= <-]. left. destruct v; try discriminate. reflexivity.
  - intros H. right.
    destruct (py_int si v) as [x|e]; cbn [bind try_except] in H.
    + injection H as <-. eexists. split; [reflexivity|].
      unfold max_int. destruct (Z.ltb_spec 0 x); lia.
    + destruct e; try discriminate; injection H as <-; exists 0;
        (split; [reflexivity|lia]).
Qed.

Lemma pain_index_chain sf si x :
  chain "pain_index" (top_rules sf si) x = clamp_number sf f10 1 x.
Proof.
  unfold top_rules, chain. cbn [String.eqb Ascii.eqb Bool.eqb].
  apply bind_ret.
Qed.

Lemma header_rules_chain sf si x :
  chain "star_rating" (header_rules sf si) x = clamp_number sf f5 2 x
  /\ chain "total_reports_24h" (header_rules sf si) x = clamp_count si x.
Proof.
  unfold header_rules, chain. cbn [String.eqb Ascii.eqb Bool.eqb].
  split; apply bind_ret.
Qed.

(** X1.  Whenever the pass yields a payload, a [pain_index] found in it
    is null or a float of [0.0, 10.0], and a [star_rating] found in its
    header is null or a float of [0.0, 5.0]; a NaN is replaced by the
    upper bound. *)
Theorem scores_in_range :
  forall str_to_float str_to_int c p,
    repair str_to_float str_to_int c = Ok p ->
    (forall v,
       getitem p "pain_index" = Ok v ->
       v = JNull \/ exists f, v = JFloat f /\ between f0 f10 f = true)
    /\ (forall h v,
          getitem p "header" = Ok h -> getitem h "star_rating" = Ok v ->
          v = JNull \/ exists f, v = JFloat f /\ between f0 f5 f = true)
    /\ clamp_number str_to_float f10 1 (JFloat S754_nan) = Ok (JFloat f10).
Proof.
  intros sf si c p H. rewrite repair_rules in H. split; [|split].
  - intros v G.
    destruct (apply_rules_getitem _ _ _ _ _ H G) as (d & x0 & _ & _ & Hc).
    rewrite pain_index_chain in Hc.
    apply (clamp_number_range sf f10 1 x0); [reflexivity | reflexivity | exact Hc].
  - intros h v G Gs.
    destruct (apply_rules_getitem _ _ _ _ _ H G) as (d & x0 & _ & _ & Hc).
    rewrite header_chain in Hc.
    destruct (apply_rules_getitem _ _ _ _ _ Hc Gs) as (d1 & x1 & _ & _ & Hs).
    rewrite (proj1 (header_rules_chain sf si x1)) in Hs.
    apply (clamp_number_range sf f5 2 x1); [reflexivity | reflexivity | exact Hs].
  - reflexivity.
Qed.

Lemma scores_in_range_witness :
  JFloat f10 = JNull
  \/ exists f, JFloat f10 = JFloat f /\ between f0 f10 f = true.
Proof.
  exact (proj1 (scores_in_range no_float no_int
                  (JObj [("pain_index", JInt 12)])
                  (JObj [("pain_index", JFloat f10)]) eq_refl)
           (JFloat f10) eq_refl).
Defined.

(** X2.  Whenever the pass yields a payload, a [total_reports_24h] found
    in its header is null or a non-negative integer. *)
Theorem total_reports_not_negative :
  forall str_to_float str_to_int c p h v,
    repair str_to_float str_to_int c = Ok p ->
    getitem p "header" = Ok h -> getitem h "total_reports_24h" = Ok v ->
    v = JNull \/ exists n, v = JInt n /\ 0 <= n.
Proof.
  intros sf si c p h v H G Gs. rewrite repair_rules in H.
  destruct (apply_rules_getitem _ _ _ _ _ H G) as (d & x0 & _ & _ & Hc).
  rewrite header_chain in Hc.
  destruct (apply_rules_getitem _ _ _ _ _ Hc Gs) as (d1 & x1 & _ & _ & Hs).
  rewrite (proj2 (header_rules_chain sf si x1)) in Hs.
  apply (clamp_count_range si x1). exact Hs.
Qed.

Lemma total_reports_not_negative_witness :
  JInt 0 = JNull \/ exists n, JInt 0 = JInt n /\ 0 <= n.
Proof.
  exact (total_reports_not_negative no_float no_int
           (JObj [("header", JObj [("total_reports_24h", JInt (-40))])])
           (JObj [("header", JObj [("total_reports_24h", JInt 0)])])
           (JObj [("total_reports_24h", JInt 0)]) (JInt 0)
           eq_refl eq_refl eq_refl).
Defined.

Lemma Forall2_in_r {A B} (R : A -> B -> Prop) l l' y :
  Forall2 R l l' -> In y l' -> exists x, In x l /\ R x y.
Proof.
  induction 1 as [|a b l l' Hab Hl IH]; intros Hy; [contradiction|].
  destruct Hy as [<-|Hy].
  - exists a. split; [left; reflexivity | exact Hab].
  - destruct (IH Hy) as (x & Hx & Hr). exists x. split; [right|]; assumption.
Qed.

(** X3.  Whenever the pass yields a payload whose [problem_distribution]
    is an array, a [percent] found in an entry of the array is null or an
    integer of [0, 100]. *)
Theorem percents_in_range :
  forall str_to_float str_to_int c p l e v,
    repair str_to_float str_to_int c = Ok p ->
    getitem p "problem_distribution" = Ok (JArr l) ->
    In e l -> getitem e "percent" = Ok v ->
    v = JNull \/ exists n, v = JInt n /\ 0 <= n <= 100.
Proof.
  intros sf si c p l e v H G Hin Ge. rewrite repair_rules in H.
  destruct (apply_rules_getitem _ _ _ _ _ H G) as (d & x0 & _ & _ & Hc).
  unfold top_rules, chain in Hc. cbn [String.eqb Ascii.eqb Bool.eqb] in Hc.
  apply bind_ok in Hc. destruct Hc as (x1 & Hc & E). injection E as ->.
  apply bind_ok in Hc. destruct Hc as (probs & Hi & Hc).
  apply bind_ok in Hc. destruct Hc as (probs' & Hm & Hc).
  destruct x0 as [| | | | |l0|]; try discriminate.
  injection Hc as <-. injection Hi as <-.
  apply mapM_Forall2 in Hm.
  destruct (Forall2_in_r _ _ _ _ Hm Hin) as (e0 & _ & He).
  destruct (with_item_getitem _ _ _ _ _ He Ge) as (d0 & y0 & _ & _ & Hy).
  destruct (clamp_percent_range sf y0 v Hy) as [[_ ->]|R]; auto.
Qed.

Lemma percents_in_range_witness :
  JInt 100 = JNull \/ exists n, JInt 100 = JInt n /\ 0 <= n <= 100.
Proof.
  exact (percents_in_range no_float no_int
           (JObj [("problem_distribution", JArr [JObj [("percent", JInt 250)]])])
           (JObj [("problem_distribution", JArr [JObj [("percent", JInt 100)]])])
           [JObj [("percent", JInt 100)]] (JObj [("percent", JInt 100)]) (JInt 100)
           eq_refl eq_refl (or_introl eq_refl) eq_refl).
Defined.

(* ===================================================================== *)
(** * The sentiment triple after the pass *)
(* ===================================================================== *)

Lemma near_quotient_checked : forallb near_quotient_row (range 300 1) = true.
Proof. vm_compute. reflexivity. Qed.

Lemma scaled_value_near a s :
  0 <= a <= 100 -> 1 <= s <= 300 -> a <= s ->
  0 <= scaled_value a s /\ 2 * s * scaled_value a s <= 200 * a + s.
Proof.
  intros Ha Hs Has.
  assert (R : near_quotient_row s = true)
    by (apply (forallb_range near_quotient_row 300 1 near_quotient_checked); lia).
  assert (C : near_quotient s a = true)
    by (apply (forallb_range (near_quotient s) 101 0 R); lia).
  unfold near_quotient in C.
  apply Z.leb_le in Has. rewrite Has in C.
  apply andb_prop in C. destruct C as [C1 C2].
  apply Z.leb_le in C1, C2. split; assumption.
Qed.

(** The renormalization on a dict whose members, present or not, are
    clamped integers. *)
Lemma renormalize_members d a b c :
  member "negative" d = JInt a ->
  member "neutral" d = JInt b ->
  member "positive" d = JInt c ->
  0 <= a <= 100 -> 0 <= b <= 100 -> 0 <= c <= 100 ->
  renormalize (JObj d) =
  Ok (JObj (if (a + b + c =? 0) || (a + b + c =? 100) then d
            else dict_set "positive"
                   (JInt (100 - scaled_value a (a + b + c)
                          - scaled_value b (a + b + c)))
                   (dict_set "neutral" (JInt (scaled_value b (a + b + c)))
                      (dict_set "negative" (JInt (scaled_value a (a + b + c)))
                         d)))).
Proof.
  unfold member. intros Hn Hu Hp Ha Hb Hc.
  unfold renormalize. cbn [get_default bind]. rewrite Hn, Hu, Hp.
  cbn [as_int bind].
  destruct (a + b + c =? 100) eqn:E100.
  { cbn [negb andb]. rewrite orb_true_r. reflexivity. }
  destruct (0 <? a + b + c) eqn:Epos.
  2:{ apply Z.ltb_ge in Epos.
      replace (a + b + c =? 0) with true by (symmetry; apply Z.eqb_eq; lia).
      reflexivity. }
  apply Z.ltb_lt in Epos.
  replace (a + b + c =? 0) with false by (symmetry; apply Z.eqb_neq; lia).
  cbn [negb andb orb].
  destruct (a + b + c) as [|q|q] eqn:Es; try lia.
  cbn [truediv bind].
  rewrite (scaled_default d "negative" a q Hn).
  rewrite (scaled_float_grid a (Zpos q)) by lia.
  cbn [bind setitem].
  rewrite (scaled_default _ "neutral" b q)
    by (rewrite dict_get_set; exact Hu).
  rewrite (scaled_float_grid b (Zpos q)) by lia.
  cbn [bind setitem getitem].
  rewrite !dict_get_set. cbn [String.eqb Ascii.eqb Bool.eqb]. cbn [as_int bind].
  reflexivity.
Qed.

Lemma sentiment_rules_chain sf k x :
  In k ["negative"; "neutral"; "positive"] ->
  chain k (sentiment_rules sf) x = clamp_percent sf x.
Proof.
  intros Hin. cbn [In] in Hin.
  destruct Hin as [<-|[<-|[<-|[]]]];
    unfold sentiment_rules, chain; cbn [String.eqb Ascii.eqb Bool.eqb];
    apply bind_ret.
Qed.

(** After the loop over the three keys a member of the triple is null or
    an integer of [0, 100]. *)
Lemma clamped_member sf d0 d1 k :
  In k ["negative"; "neutral"; "positive"] ->
  apply_rules (sentiment_rules sf) (JObj d0) = Ok (JObj d1) ->
  member k d1 = JNull \/ exists n, member k d1 = JInt n /\ 0 <= n <= 100.
Proof.
  intros Hin H. apply apply_rules_obj in H.
  destruct H as (d & E & _ & Hv). injection E as <-.
  specialize (Hv k). unfold member.
  destruct (dict_get k d0) as [x|].
  - destruct Hv as (x' & Hc & ->). rewrite sentiment_rules_chain in Hc by exact Hin.
    destruct (clamp_percent_range sf x x' Hc) as [[_ ->]|R]; auto.
  - rewrite Hv. right. exists 0. split; [reflexivity|lia].
Qed.

Lemma renormalize_ints d p :
  renormalize (JObj d) = Ok p ->
  exists a b c,
    as_int (member "negative" d) = Ok a
    /\ as_int (member "neutral" d) = Ok b
    /\ as_int (member "positive" d) = Ok c.
Proof.
  unfold renormalize, member. cbn [get_default bind]. intros H.
  apply bind_ok in H. destruct H as (a & Ha & H).
  apply bind_ok in H. destruct H as (b & Hb & H).
  apply bind_ok in H. destruct H as (c & Hc & H).
  eauto 6.
Qed.

(** What the three statements on the sentiment make of a value: an object
    whose members are the clamped integers, renormalized. *)
Lemma sentiment_chain_members sf si x0 v :
  chain "sentiment" (top_rules sf si) x0 = Ok v ->
  exists d0 d1 s a b c,
    x0 = JObj d0
    /\ apply_rules (sentiment_rules sf) (JObj d0) = Ok (JObj d1)
    /\ v = JObj s
    /\ member "negative" d1 = JInt a /\ member "neutral" d1 = JInt b
    /\ member "positive" d1 = JInt c
    /\ 0 <= a <= 100 /\ 0 <= b <= 100 /\ 0 <= c <= 100
    /\ (forall k, k <> "samples" ->
          dict_get k s =
          dict_get k
            (if (a + b + c =? 0) || (a + b + c =? 100) then d1
             else dict_set "positive"
                    (JInt (100 - scaled_value a (a + b + c)
                           - scaled_value b (a + b + c)))
                    (dict_set "neutral" (JInt (scaled_value b (a + b + c)))
                       (dict_set "negative" (JInt (scaled_value a (a + b + c)))
                          d1)))).
Proof.
  intros H. rewrite sentiment_chain in H.
  apply bind_ok in H. destruct H as (s1 & H1 & H).
  apply bind_ok in H. destruct H as (s2 & H2 & H).
  destruct s1 as [| | | | | |d1]; try discriminate.
  destruct (apply_rules_from_obj _ _ _ H1) as (d0 & ->).
  destruct (renormalize_ints _ _ H2) as (a & b & c & Ia & Ib & Ic).
  assert (M : forall k n,
             In k ["negative"; "neutral"; "positive"] ->
             as_int (member k d1) = Ok n ->
             member k d1 = JInt n /\ 0 <= n <= 100).
  { intros k n Hin Hn.
    destruct (clamped_member sf d0 d1 k Hin H1) as [N|(m & E & Hm)].
    - rewrite N in Hn. discriminate.
    - rewrite E in Hn. injection Hn as <-. auto. }
  destruct (M "negative" a) as [Ea Ha]; [cbn; tauto | exact Ia |].
  destruct (M "neutral" b) as [Eb Hb]; [cbn; tauto | exact Ib |].
  destruct (M "positive" c) as [Ec Hc]; [cbn; tauto | exact Ic |].
  rewrite (renormalize_members d1 a b c Ea Eb Ec Ha Hb Hc) in H2.
  injection H2 as <-.
  rewrite with_item_obj in H.
  match type of H with
  | context [dict_get "samples" ?d2] =>
      assert (G : exists s, v = JObj s /\
                 forall k, k <> "samples" -> dict_get k s = dict_get k d2)
  end.
  { match type of H with
    | context [dict_get "samples" ?d2] =>
        destruct (dict_get "samples" d2) as [w|]
    end.
    - apply bind_ok in H. destruct H as (w' & _ & H). injection H as <-.
      eexists. split; [reflexivity|]. intros k Hk.
      rewrite dict_get_set. apply String.eqb_neq in Hk. rewrite Hk. reflexivity.
    - injection H as <-. eauto. }
  destruct G as (s & -> & Hs).
  exists d0, d1, s, a, b, c. repeat split; try assumption; try lia.
Qed.

(** The sentiment after its statements: the bounds of the three members
    and their sum. *)
Lemma sentiment_after sf si x0 v :
  chain "sentiment" (top_rules sf si) x0 = Ok v ->
  exists s negative neutral positive,
    v = JObj s
    /\ member "negative" s = JInt negative
    /\ member "neutral" s = JInt neutral
    /\ member "positive" s = JInt positive
    /\ 0 <= negative <= 100 /\ 0 <= neutral <= 100
    /\ -1 <= positive <= 100
    /\ (negative + neutral + positive = 100
        \/ negative + neutral + positive = 0).
Proof.
  intros Hc.
  destruct (sentiment_chain_members sf si x0 v Hc)
    as (d0 & d1 & s & a & b & c & _ & _ & -> & Ea & Eb & Ec & Ha & Hb & Hcc & Hs).
  exists s. unfold member in *.
  rewrite (Hs "negative"), (Hs "neutral"), (Hs "positive") by discriminate.
  destruct ((a + b + c =? 0) || (a + b + c =? 100)) eqn:E.
  - exists a, b, c. rewrite Ea, Eb, Ec.
    apply orb_prop in E.
    assert (a + b + c = 100 \/ a + b + c = 0)
      by (destruct E as [E|E]; apply Z.eqb_eq in E; auto).
    split; [reflexivity|]. repeat split; lia.
  - apply orb_false_elim in E. destruct E as [E0 E100].
    apply Z.eqb_neq in E0, E100.
    rewrite !dict_get_set. cbn [String.eqb Ascii.eqb Bool.eqb].
    destruct (scaled_value_near a (a + b + c)) as [A0 A1]; try lia.
    destruct (scaled_value_near b (a + b + c)) as [B0 B1]; try lia.
    set (s' := a + b + c) in *.
    set (A := scaled_value a s') in *. set (B := scaled_value b s') in *.
    assert (Hab : A + B <= 101).
    { apply Z.nlt_ge. intros Hlt.
      assert (s' * 102 <= s' * (A + B)) by (apply Z.mul_le_mono_nonneg_l; lia).
      lia. }
    assert (HA : A <= 100).
    { apply Z.nlt_ge. intros Hlt.
      assert (s' * 101 <= s' * A) by (apply Z.mul_le_mono_nonneg_l; lia).
      lia. }
    assert (HB : B <= 100).
    { apply Z.nlt_ge. intros Hlt.
      assert (s' * 101 <= s' * B) by (apply Z.mul_le_mono_nonneg_l; lia).
      lia. }
    exists A, B, (100 - A - B).
    split; [reflexivity|]. repeat split; lia.
Qed.

(** X4.  Whenever the pass yields a payload, a [sentiment] found in it is
    an object whose three members (an absent one counting as 0) are
    integers, [negative] and [neutral] of [0, 100] and [positive] of
    [-1, 100], and their sum is 100 or 0. *)
Theorem sentiment_bounds :
  forall str_to_float str_to_int c p v,
    repair str_to_float str_to_int c = Ok p ->
    getitem p "sentiment" = Ok v ->
    exists s negative neutral positive,
      v = JObj s
      /\ member "negative" s = JInt negative
      /\ member "neutral" s = JInt neutral
      /\ member "positive" s = JInt positive
      /\ 0 <= negative <= 100 /\ 0 <= neutral <= 100
      /\ -1 <= positive <= 100
      /\ (negative + neutral + positive = 100
          \/ negative + neutral + positive = 0).
Proof.
  intros sf si c0 p v H G. rewrite repair_rules in H.
  destruct (apply_rules_getitem _ _ _ _ _ H G) as (d & x0 & _ & _ & Hc).
  exact (sentiment_after sf si x0 v Hc).
Qed.

Lemma sentiment_bounds_witness :
  exists s negative neutral positive,
    JObj [("negative", JInt 63); ("neutral", JInt 38); ("positive", JInt (-1))]
    = JObj s
    /\ member "negative" s = JInt negative
    /\ member "neutral" s = JInt neutral
    /\ member "positive" s = JInt positive
    /\ 0 <= negative <= 100 /\ 0 <= neutral <= 100
    /\ -1 <= positive <= 100
    /\ (negative + neutral + positive = 100
        \/ negative + neutral + positive = 0).
Proof.
  exact (sentiment_bounds no_float no_int
           (JObj [("sentiment",
                   JObj [("negative", JInt 15); ("neutral", JInt 9);
                         ("positive", JInt 0)])])
           (JObj [("sentiment",
                   JObj [("negative", JInt 63); ("neutral", JInt 38);
                         ("positive", JInt (-1))])])
           (JObj [("negative", JInt 63); ("neutral", JInt 38);
                  ("positive", JInt (-1))])
           eq_refl eq_refl).
Defined.

(* ===================================================================== *)
(** * The exceptions that leave the pass *)
(* ===================================================================== *)

(** A guarded statement raises [TypeError] at its guard or at its
    subscript, or what the repair of the value raises. *)
Lemma with_item_raises v k f e :
  with_item v k f = Raise e -> e = TypeError \/ exists x, f x = Raise e.
Proof.
  unfold with_item.
  destruct v as [|b|z|x|s|l|d]; cbn [py_in bind].
  - intros H. injection H as <-. auto.
  - intros H. injection H as <-. auto.
  - intros H. injection H as <-. auto.
  - intros H. injection H as <-. auto.
  - destruct (contains k s); cbn [getitem bind]; intros H;
      [injection H as <-; auto | discriminate].
  - destruct (existsb (is_str k) l); cbn [getitem bind]; intros H;
      [injection H as <-; auto | discriminate].
  - destruct (dict_get k d) as [y|] eqn:E; [|discriminate].
    cbn [getitem bind]. rewrite E. cbn [bind].
    destruct (f y) as [y'|e'] eqn:Ef; cbn [bind setitem]; [discriminate|].
    intros H. injection H as <-. right. eauto.
Qed.

Lemma apply_rules_raises rules :
  forall v e,
    apply_rules rules v = Raise e ->
    e = TypeError \/ exists k f x, In (k, f) rules /\ f x = Raise e.
Proof.
  induction rules as [|[k f] rest IH]; intros v e H; cbn [apply_rules] in H.
  - discriminate.
  - destruct (with_item v k f) as [v1|e1] eqn:E1; cbn [bind] in H.
    + destruct (IH _ _ H) as [->|(k' & f' & x & Hin & Hf)]; [auto|].
      right. exists k', f', x. split; [right; exact Hin | exact Hf].
    + injection H as ->.
      destruct (with_item_raises _ _ _ _ E1) as [->|(x & Hf)]; [auto|].
      right. exists k, f, x. split; [left; reflexivity | exact Hf].
Qed.

Lemma clamp_number_raises sf hi n v e :
  clamp_number sf hi n v = Raise e -> e = OverflowError.
Proof.
  unfold clamp_number. destruct (is_none v); [discriminate|].
  destruct (py_float sf v) as [x|e0] eqn:E; cbn [bind try_except]; [discriminate|].
  destruct (py_float_raises _ _ _ E) as [->|[->| ->]];
    [discriminate | discriminate | congruence].
Qed.

Lemma clamp_percent_raises sf v e :
  clamp_percent sf v = Raise e -> e = OverflowError.
Proof.
  unfold clamp_percent. destruct (is_none v); [discriminate|].
  destruct (py_float sf v) as [x|e0] eqn:E; cbn [bind try_except].
  - destruct (round_float x) as [r|e1] eqn:Er; cbn [bind try_except]; [discriminate|].
    destruct (round_float_raises _ _ Er) as [->| ->]; [discriminate | congruence].
  - destruct (py_float_raises _ _ _ E) as [->|[->| ->]];
      [discriminate | discriminate | congruence].
Qed.

Lemma clamp_count_raises si v e :
  clamp_count si v = Raise e -> e = OverflowError.
Proof.
  unfold clamp_count. destruct (is_none v); [discriminate|].
  destruct (py_int si v) as [x|e0] eqn:E; cbn [bind try_except]; [discriminate|].
  destruct (py_int_raises _ _ _ E) as [->|[->| ->]];
    [discriminate | discriminate | congruence].
Qed.

Lemma truncate_raises n v e : truncate n v = Raise e -> e = TypeError.
Proof.
  unfold truncate.
  destruct v as [| | | |s|l|d]; cbn [py_len bind]; try (intros [= <-]; reflexivity);
    match goal with
    | |- context [?a <? ?b] => destruct (a <? b)
    end; cbn [slice_to]; congruence.
Qed.

Lemma mapM_raises {A B} (f : A -> result B) l e :
  mapM f l = Raise e -> exists x, In x l /\ f x = Raise e.
Proof.
  induction l as [|a l IH]; cbn [mapM]; [discriminate|].
  destruct (f a) as [b|e0] eqn:Ea; cbn [bind].
  - destruct (mapM f l) as [bs|e1]; cbn [bind]; [discriminate|].
    intros [= <-]. destruct (IH eq_refl) as (x & Hx & Hf).
    exists x. split; [right|]; assumption.
  - intros [= <-]. exists a. split; [left; reflexivity | exact Ea].
Qed.

(** After the loop over the three keys the renormalization raises only on
    a null member, which cannot be added. *)
Lemma renormalize_raises sf d0 d1 e :
  apply_rules (sentiment_rules sf) (JObj d0) = Ok (JObj d1) ->
  renormalize (JObj d1) = Raise e -> e = TypeError.
Proof.
  intros H1 H2.
  assert (M : forall k, In k ["negative"; "neutral"; "positive"] ->
                member k d1 = JNull
                \/ exists n, member k d1 = JInt n /\ 0 <= n <= 100)
    by (intros k Hk; exact (clamped_member sf d0 d1 k Hk H1)).
  destruct (M "negative") as [Na|(a & Ea & Ha)]; [cbn; tauto | |].
  { revert H2. unfold renormalize. cbn [get_default bind].
    change (match dict_get "negative" d1 with Some x => x | None => JInt 0 end)
      with (member "negative" d1).
    rewrite Na. cbn [as_int bind]. congruence. }
  destruct (M "neutral") as [Nb|(b & Eb & Hb)]; [cbn; tauto | |].
  { revert H2. unfold renormalize. cbn [get_default bind].
    change (match dict_get "negative" d1 with Some x => x | None => JInt 0 end)
      with (member "negative" d1).
    change (match dict_get "neutral" d1 with Some x => x | None => JInt 0 end)
      with (member "neutral" d1).
    rewrite Ea, Nb. cbn [as_int bind]. congruence. }
  destruct (M "positive") as [Nc|(c & Ec & Hc)]; [cbn; tauto | |].
  { revert H2. unfold renormalize. cbn [get_default bind].
    change (match dict_get "negative" d1 with Some x => x | None => JInt 0 end)
      with (member "negative" d1).
    change (match dict_get "neutral" d1 with Some x => x | None => JInt 0 end)
      with (member "neutral" d1).
    change (match dict_get "positive" d1 with Some x => x | None => JInt 0 end)
      with (member "positive" d1).
    rewrite Ea, Eb, Nc. cbn [as_int bind]. congruence. }
  rewrite (renormalize_members d1 a b c Ea Eb Ec Ha Hb Hc) in H2. discriminate.
Qed.

Lemma sentiment_statements_raise sf x e :
  (sent <- clamp_sentiment sf x ;; renormalize sent) = Raise e -> escapes e.
Proof.
  unfold escapes. rewrite clamp_sentiment_rules.
  destruct (apply_rules (sentiment_rules sf) x) as [s1|e1] eqn:H1; cbn [bind].
  - intros H2. destruct s1 as [| | | | | |d1];
      try (cbn in H2; injection H2 as <-; auto).
    destruct (apply_rules_from_obj _ _ _ H1) as (d0 & ->).
    left. exact (renormalize_raises sf d0 d1 e H1 H2).
  - intros [= <-].
    destruct (apply_rules_raises _ _ _ H1) as [->|(k & f & y & Hin & Hf)]; [auto|].
    unfold sentiment_rules in Hin. cbn [In] in Hin.
    destruct Hin as [E|[E|[E|[]]]]; injection E as <- <-;
      rewrite (clamp_percent_raises _ _ _ Hf); auto.
Qed.

Lemma problems_statements_raise sf pd e :
  (probs <- iterate pd ;;
   probs <- mapM (fun prob => with_item prob "percent" (clamp_percent sf)) probs ;;
   Ok match pd with
      | JArr _ => JArr probs
      | _ => pd
      end) = Raise e ->
  escapes e.
Proof.
  unfold escapes.
  destruct (iterate pd) as [probs|e0] eqn:Ei; cbn [bind].
  - destruct (mapM _ probs) as [probs'|e1] eqn:Em; cbn [bind]; [discriminate|].
    intros [= <-]. apply mapM_raises in Em. destruct Em as (x & _ & Hx).
    destruct (with_item_raises _ _ _ _ Hx) as [->|(y & Hy)]; [auto|].
    rewrite (clamp_percent_raises _ _ _ Hy). auto.
  - intros [= <-]. destruct pd; try discriminate; cbn in Ei; injection Ei as <-; auto.
Qed.

(** The exceptions of the pass are among the three. *)
Lemma repair_escapes sf si c e : repair sf si c = Raise e -> escapes e.
Proof.
  intros H. rewrite repair_rules in H.
  destruct (apply_rules_raises _ _ _ H) as [->|(k & f & x & Hin & Hf)];
    [left; reflexivity|].
  assert (O : forall e', e' = OverflowError -> escapes e')
    by (intros e' ->; right; right; reflexivity).
  assert (T : forall e', e' = TypeError -> escapes e')
    by (intros e' ->; left; reflexivity).
  assert (W : forall k' g y e',
             with_item y k' g = Raise e' ->
             (forall z, g z = Raise e' -> escapes e') -> escapes e').
  { intros k' g y e' Hw Hg.
    destruct (with_item_raises _ _ _ _ Hw) as [->|(z & Hz)];
      [left; reflexivity | exact (Hg z Hz)]. }
  unfold top_rules in Hin. cbn [In] in Hin.
  destruct Hin as [E|[E|[E|[E|[E|[E|[E|[E|[E|[E|[E|[E|[E|[]]]]]]]]]]]]]];
    injection E as <- <-.
  - apply O. exact (clamp_number_raises _ _ _ _ _ Hf).
  - apply (W _ _ _ _ Hf). intros z Hz.
    apply O. exact (clamp_number_raises _ _ _ _ _ Hz).
  - exact (sentiment_statements_raise sf x e Hf).
  - exact (problems_statements_raise sf x e Hf).
  - apply T. exact (truncate_raises _ _ _ Hf).
  - apply T. exact (truncate_raises _ _ _ Hf).
  - apply T. exact (truncate_raises _ _ _ Hf).
  - apply T. exact (truncate_raises _ _ _ Hf).
  - apply T. exact (truncate_raises _ _ _ Hf).
  - apply T. exact (truncate_raises _ _ _ Hf).
  - apply (W _ _ _ _ Hf). intros z Hz.
    apply T. exact (truncate_raises _ _ _ Hz).
  - destruct (with_item x "status" _) as [h|e0] eqn:Eh; cbn [bind] in Hf.
    + apply (W _ _ _ _ Hf). intros z Hz. unfold enum in Hz. discriminate.
    + injection Hf as <-.
      apply (W _ _ _ _ Eh). intros z Hz. unfold enum in Hz. discriminate.
  - apply (W _ _ _ _ Hf). intros z Hz.
    apply O. exact (clamp_count_raises _ _ _ Hz).
Qed.

(** X5.  The pass raises nothing but [TypeError], [AttributeError] and
    [OverflowError]: no [ValueError] and no [ZeroDivisionError] leaves it,
    and no [KeyError] of a subscript by a key.  (The slice of a dict, a
    [TypeError] here, is a [KeyError] from Python 3.12 on.)  Each of the
    three is raised by some candidate: a number in place of the object, an
    array in place of the sentiment, an infinite float in a percentage. *)
Theorem repair_raises_only :
  forall str_to_float str_to_int,
    (forall c e, repair str_to_float str_to_int c = Raise e -> escapes e)
    /\ repair str_to_float str_to_int (JInt 5) = Raise TypeError
    /\ repair str_to_float str_to_int (JObj [("sentiment", JArr [])])
       = Raise AttributeError
    /\ repair str_to_float str_to_int
         (JObj [("problem_distribution",
                 JArr [JObj [("percent", JFloat (S754_infinity false))]])])
       = Raise OverflowError.
Proof.
  intros sf si. split; [|repeat split; vm_compute; reflexivity].
  intros c e. apply repair_escapes.
Qed.

Lemma repair_raises_only_witness : escapes TypeError.
Proof.
  exact (proj1 (repair_raises_only no_float no_int) (JInt 5) TypeError eq_refl).
Defined.

(* ===================================================================== *)
(** * Persistence of the report *)
(* ===================================================================== *)




(* ===================================================================== *)
(** * The fields the pass does not name *)
(* ===================================================================== *)

Lemma apply_rules_untouched rules d d' k :
  apply_rules rules (JObj d) = Ok (JObj d') ->
  ~ In k (map fst rules) -> dict_get k d' = dict_get k d.
Proof.
  intros H Hk. apply apply_rules_obj in H.
  destruct H as (d'' & E & _ & Hv). injection E as <-.
  specialize (Hv k). destruct (dict_get k d) as [x|]; [|exact Hv].
  destruct Hv as (x' & Hc & ->). rewrite chain_other in Hc by exact Hk.
  congruence.
Qed.

Lemma with_item_untouched d k f p :
  with_item (JObj d) k f = Ok p ->
  exists d', p = JObj d' /\ forall k', k' <> k -> dict_get k' d' = dict_get k' d.
Proof.
  intros H. rewrite with_item_obj in H.
  destruct (dict_get k d) as [x|].
  - apply bind_ok in H. destruct H as (x' & _ & H). injection H as <-.
    eexists. split; [reflexivity|]. intros k' Hk. rewrite dict_get_set.
    apply String.eqb_neq in Hk. rewrite Hk. reflexivity.
  - injection H as <-. eauto.
Qed.

(** X6.  Whenever the pass yields a payload for a candidate object, every
    field it does not name reaches the payload unchanged: at the top
    level the keys other than the ten of the guards, in an object header
    the keys other than [star_rating], [status], [status_color] and
    [total_reports_24h], in an object sentiment the keys other than
    [negative], [neutral], [positive] and [samples], and in the entries of
    an array [problem_distribution] the keys other than [percent]; an
    entry that is not an object stays as it is. *)
Theorem other_fields_untouched :
  forall str_to_float str_to_int c p,
    repair str_to_float str_to_int (JObj c) = Ok p ->
    exists c',
      p = JObj c'
      /\ (forall k, ~ In k guard_keys -> dict_get k c' = dict_get k c)
      /\ (forall h,
            dict_get "header" c = Some (JObj h) ->
            exists h',
              dict_get "header" c' = Some (JObj h')
              /\ forall k, ~ In k header_keys -> dict_get k h' = dict_get k h)
      /\ (forall s,
            dict_get "sentiment" c = Some (JObj s) ->
            exists s',
              dict_get "sentiment" c' = Some (JObj s')
              /\ forall k, ~ In k sentiment_keys -> dict_get k s' = dict_get k s)
      /\ (forall l,
            dict_get "problem_distribution" c = Some (JArr l) ->
            exists l',
              dict_get "problem_distribution" c' = Some (JArr l')
              /\ Forall2
                   (fun e e' =>
                      (forall d, e = JObj d ->
                         exists d',
                           e' = JObj d' /\
                           forall k, k <> "percent" ->
                                     dict_get k d' = dict_get k d)
                      /\ ((forall d, e <> JObj d) -> e' = e))
                   l l').
Proof.
  intros sf si c p H. rewrite repair_rules in H.
  pose proof H as H0.
  apply apply_rules_obj in H. destruct H as (c' & -> & _ & Hv).
  exists c'. split; [reflexivity|]. split; [|split; [|split]].
  - intros k Hk. apply (apply_rules_untouched _ _ _ _ H0).
    intros Hin. apply Hk. apply (guard_keys_rules sf si). exact Hin.
  - intros h Hh. specialize (Hv "header"). rewrite Hh in Hv.
    destruct Hv as (v' & Hc & Hg). rewrite header_chain in Hc.
    pose proof Hc as Hc0.
    apply apply_rules_obj in Hc. destruct Hc as (h' & -> & _ & _).
    exists h'. split; [exact Hg|]. intros k Hk.
    apply (apply_rules_untouched _ _ _ _ Hc0). exact Hk.
  - intros s Hs. specialize (Hv "sentiment"). rewrite Hs in Hv.
    destruct Hv as (v' & Hc & Hg).
    destruct (sentiment_chain_members sf si _ _ Hc)
      as (d0 & d1 & s' & a & b & c0 & E0 & H1 & -> & _ & _ & _ & _ & _ & _ & Hs').
    injection E0 as <-.
    exists s'. split; [exact Hg|]. intros k Hk.
    assert (K : k <> "negative" /\ k <> "neutral" /\ k <> "positive"
                /\ k <> "samples").
    { unfold sentiment_keys in Hk. cbn [In] in Hk.
      repeat split; intros ->; apply Hk; tauto. }
    destruct K as (Kn & Ku & Kp & Ks).
    rewrite (Hs' k Ks).
    assert (D : dict_get k d1 = dict_get k s).
    { apply (apply_rules_untouched _ _ _ _ H1).
      unfold sentiment_rules. cbn [map fst In]. intros [E|[E|[E|[]]]]; congruence. }
    destruct ((a + b + c0 =? 0) || (a + b + c0 =? 100)); [exact D|].
    rewrite !dict_get_set.
    apply String.eqb_neq in Kn, Ku, Kp. rewrite Kn, Ku, Kp. exact D.
  - intros l Hl. specialize (Hv "problem_distribution"). rewrite Hl in Hv.
    destruct Hv as (v' & Hc & Hg).
    unfold top_rules, chain in Hc.
    cbn [String.eqb Ascii.eqb Bool.eqb iterate bind] in Hc.
    apply bind_ok in Hc. destruct Hc as (v1 & H1 & Hc).
    apply bind_ok in H1. destruct H1 as (l' & Hm & H1).
    injection H1 as <-. injection Hc as <-.
    exists l'. split; [exact Hg|].
    apply mapM_Forall2 in Hm. clear Hg Hl H0.
    induction Hm as [|e e' l l' He Hm IH]; constructor; [|exact IH].
    split.
    + intros d ->. exact (with_item_untouched _ _ _ _ He).
    + intros Hd. exact (with_item_other _ _ _ _ Hd He).
Qed.

Lemma other_fields_untouched_witness :
  exists c',
    JObj [("pain_index", JFloat f10); ("provider", JStr "att")] = JObj c'
    /\ dict_get "provider" c' = Some (JStr "att").
Proof.
  destruct (other_fields_untouched no_float no_int
              [("pain_index", JInt 12); ("provider", JStr "att")]
              _ eq_refl) as (c' & Hp & Hk & _).
  exists c'. split; [exact Hp|].
  rewrite (Hk "provider"); [reflexivity|].
  unfold guard_keys. cbn [In].
  intros [E|[E|[E|[E|[E|[E|[E|[E|[E|[E|[]]]]]]]]]]]; discriminate E.
Defined.

(* ===================================================================== *)
(** * Code fences *)
(* ===================================================================== *)









(* ===================================================================== *)
(** * The reply of the comparison (compare_tmob.py) *)
(* ===================================================================== *)









(* ===================================================================== *)
(** * Loops that an exception ends *)
(* ===================================================================== *)

Lemma or_none_cases s :
  (s = "" /\ or_none s = JNull) \/ (s <> "" /\ or_none s = JStr s).
Proof.
  unfold or_none. destruct (String.eqb_spec s ""); auto.
Qed.

Lemma select_absent_first c rest doc :
  no_element c doc = true -> select (c, rest) doc = [].
Proof.
  intros H. unfold select. apply filter_none. intros t Ht.
  unfold matches. cbn [fst snd].
  rewrite (no_element_spec _ _ _ H Ht). reflexivity.
Qed.

Lemma scan_none c rest up :
  (forall e, In e up -> matches_compound c e = false) ->
  matches_above ((Descendant, c) :: rest) up = false.
Proof.
  cbn [matches_above]. induction up as [|p up IH]; intros H; [reflexivity|].
  rewrite (H p (or_introl eq_refl)). cbn [andb orb].
  apply IH. intros e He. apply H. right. exact He.
Qed.

(** No element is selected below an ancestor that the document does not
    have. *)
Lemma select_absent c first comb rest doc :
  no_element c doc = true -> select (first, (comb, c) :: rest) doc = [].
Proof.
  intros H. unfold select. apply filter_none. intros t Ht.
  unfold matches. cbn [fst snd].
  assert (P : forall e, In e (parents t) -> matches_compound c e = false).
  { intros e He. destruct (parents_in_doc doc t e Ht He) as (t' & Ht' & <-).
    exact (no_element_spec _ _ _ H Ht'). }
  replace (matches_above ((comb, c) :: rest) (parents t)) with false;
    [apply andb_false_r|].
  symmetry. destruct comb.
  - apply scan_none. exact P.
  - cbn [matches_above]. destruct (parents t) as [|p up]; [reflexivity|].
    rewrite (P p (or_introl eq_refl)). reflexivity.
Qed.

(** A loop over a list whose body either raises or yields a value: the
    first exception in the order of the list ends it, and without an
    exception it yields the values in that order. *)
Lemma mapM_first {A B} (f : A -> result B) (g : A -> B)
  (bad : A -> option exn) l :
  (forall x, In x l ->
     f x = match bad x with
           | Some e => Raise e
           | None => Ok (g x)
           end) ->
  mapM f l = match first_some bad l with
             | Some e => Raise e
             | None => Ok (map g l)
             end.
Proof.
  induction l as [|a l IH]; intros H; cbn [mapM first_some map];
    [reflexivity|].
  rewrite (H a (or_introl eq_refl)).
  destruct (bad a) as [e|]; cbn [bind]; [reflexivity|].
  rewrite IH by (intros x Hx; apply H; right; exact Hx).
  destruct (first_some bad l); reflexivity.
Qed.

Lemma first_some_in {A B} (f : A -> option B) l b :
  first_some f l = Some b -> exists a, In a l /\ f a = Some b.
Proof.
  induction l as [|a l IH]; cbn [first_some]; [discriminate|].
  destruct (f a) as [b'|] eqn:E.
  - intros [= <-]. exists a. split; [left; reflexivity | exact E].
  - intros H. destruct (IH H) as (x & Hx & Hf).
    exists x. split; [right|]; assumption.
Qed.

Lemma first_some_none {A B} (f : A -> option B) l :
  (forall a, In a l -> f a = None) -> first_some f l = None.
Proof.
  induction l as [|a l IH]; intros H; cbn [first_some]; [reflexivity|].
  rewrite (H a (or_introl eq_refl)). apply IH.
  intros x Hx. apply H. right. exact Hx.
Qed.

(* ===================================================================== *)
(** * The table of locations *)
(* ===================================================================== *)

Section LocationRows.

Variable urljoin : string -> string -> result string.
Variable str_to_int : string -> option Z.

Local Abbreviation row := (row_of urljoin str_to_int).

Lemma status_loop_mapM trs :
  forall rows,
    status_loop urljoin str_to_int trs rows
    = (new <- mapM row (filter two_cells trs) ;; Ok (rows ++ new)%list).
Proof.
  induction trs as [|tr trs IH]; intros rows; cbn [status_loop filter].
  - cbn [mapM bind]. rewrite app_nil_r. reflexivity.
  - assert (T : two_cells tr = match find_all "td" tr with
                               | [_; _] => true
                               | _ => false
                               end).
    { unfold two_cells.
      destruct (find_all "td" tr) as [|c0 [|c1 [|c2 cs]]]; reflexivity. }
    rewrite T.
    destruct (find_all "td" tr) as [|c0 [|c1 [|c2 cs]]] eqn:E; try apply IH.
    cbn [mapM]. unfold row_of at 1. rewrite E.
    destruct (location_row urljoin str_to_int c0 c1) as [r|e];
      cbn [bind]; [|reflexivity].
    rewrite IH. destruct (mapM row (filter two_cells trs)); cbn [bind];
      [rewrite <- app_assoc; reflexivity | reflexivity].
Qed.

Lemma row_of_entry tr :
  two_cells tr = true ->
  row tr = match row_failure urljoin tr with
              | Some e => Raise e
              | None => Ok (row_entry str_to_int tr)
              end.
Proof.
  unfold two_cells, row_of, row_failure, row_entry.
  destruct (find_all "td" tr) as [|c0 [|c1 [|c2 cs]]]; try discriminate.
  intros _. unfold location_row, absolute, text.
  destruct (find "a" c0) as [link|]; cbn [attr].
  - destruct (lookup "href" (tag_attrs link)) as [h|]; [|reflexivity].
    destruct (String.eqb h ""); [reflexivity|].
    destruct (urljoin base_url h); reflexivity.
  - reflexivity.
Qed.

Lemma row_entry_shape tr :
  two_cells tr = true ->
  exists location reports,
    row_entry str_to_int tr
    = JObj [("location", location); ("reports", reports)]
    /\ (location = JNull \/ exists s, location = JStr s /\ s <> "")
    /\ (reports = JNull
        \/ (exists n, reports = JInt n)
        \/ exists s,
             reports = JStr s /\ s <> ""
             /\ str_to_int (remove_commas s) = None).
Proof.
  unfold two_cells, row_entry.
  destruct (find_all "td" tr) as [|c0 [|c1 [|c2 cs]]]; try discriminate.
  intros _. eexists. eexists. split; [reflexivity|]. split.
  - match goal with
    | |- or_none ?s = _ \/ _ => destruct (or_none_cases s) as [[_ ->]|[N ->]]
    end; [left; reflexivity | right; eauto].
  - destruct (str_to_int (remove_commas (get_text c1))) as [n|] eqn:E.
    + right. left. eauto.
    + destruct (or_none_cases (get_text c1)) as [[_ ->]|[N ->]];
        [left; reflexivity | right; right; eauto].
Qed.

(** The list of a page with a table of locations. *)
Lemma status_result doc table :
  select_one status_table doc = Some table ->
  last_15_days_status urljoin str_to_int doc
  = match first_some (row_failure urljoin) (status_rows table) with
    | Some e => Raise e
    | None => Ok (JArr (map (row_entry str_to_int) (status_rows table)))
    end.
Proof.
  intros Ht. unfold last_15_days_status. rewrite Ht.
  rewrite status_loop_mapM. fold (status_rows table).
  rewrite (mapM_first row (row_entry str_to_int) (row_failure urljoin)).
  - destruct (first_some (row_failure urljoin) (status_rows table));
      reflexivity.
  - intros tr Hin. apply row_of_entry.
    unfold status_rows in Hin. apply filter_In in Hin. exact (proj2 Hin).
Qed.

End LocationRows.

(** X9.  [last_15_days_status] yields the empty list for a page without
    a [table#status-table].  With such a table it goes through the rows
    of its first [tbody] (of the table when it has none) that have
    exactly two [td] elements, in their order: the first row on whose
    link [urljoin] raises ends the call with that exception and no list
    is returned; without such a row the list has one entry for each of
    the rows, [location] being the text of the first link of the first
    cell (of the cell when it has no link) or null when that text is
    empty, and [reports] the integer that [int] reads in the text of the
    second cell with its commas removed, or that text as it is when
    [int] refuses it, or null when it is empty: a row whose count does
    not parse is not dropped. *)
Theorem location_rows :
  forall urljoin str_to_int doc,
    (no_element locations_table doc = true ->
     last_15_days_status urljoin str_to_int doc = Ok (JArr []))
    /\ (forall table,
          select_one status_table doc = Some table ->
          last_15_days_status urljoin str_to_int doc
          = match first_some (row_failure urljoin) (status_rows table) with
            | Some e => Raise e
            | None =>
                Ok (JArr (map (row_entry str_to_int) (status_rows table)))
            end)
    /\ (forall tr,
          two_cells tr = true ->
          exists location reports,
            row_entry str_to_int tr
            = JObj [("location", location); ("reports", reports)]
            /\ (location = JNull \/ exists s, location = JStr s /\ s <> "")
            /\ (reports = JNull
                \/ (exists n, reports = JInt n)
                \/ exists s,
                     reports = JStr s /\ s <> ""
                     /\ str_to_int (remove_commas s) = None)).
Proof.
  intros urljoin si doc. split; [|split].
  - intros H. unfold last_15_days_status, select_one, status_table.
    change (Compound (Some "table") (Some "status-table") []) with locations_table.
    rewrite (select_absent_first _ _ _ H). reflexivity.
  - intros table. apply status_result.
  - intros tr. apply row_entry_shape.
Qed.

Lemma location_rows_witness :
  last_15_days_status sample_urljoin sample_int bare_page = Ok (JArr [])
  /\ last_15_days_status sample_urljoin sample_int locations_page
     = Ok (JArr [JObj [("location", JStr "Dallas"); ("reports", JInt 1234)];
                 JObj [("location", JStr "Elsewhere");
                       ("reports", JStr "n/a")]])
  /\ last_15_days_status sample_urljoin sample_int broken_link_page
     = Raise ValueError.
Proof.
  split; [|split].
  - apply (proj1 (location_rows sample_urljoin sample_int bare_page)).
    reflexivity.
  - exact (proj1 (proj2 (location_rows sample_urljoin sample_int
                           locations_page)) _ eq_refl).
  - exact (proj1 (proj2 (location_rows sample_urljoin sample_int
                           broken_link_page)) _ eq_refl).
Defined.

(* ===================================================================== *)
(** * The most reported problems *)
(* ===================================================================== *)

Lemma most_reported_loop_mapM digits lis :
  forall problems,
    most_reported_loop digits lis problems
    = (new <- mapM (problem_of digits) lis ;; Ok (problems ++ new)%list).
Proof.
  induction lis as [|li lis IH]; intros problems;
    cbn [most_reported_loop mapM].
  - cbn [bind]. rewrite app_nil_r. reflexivity.
  - destruct (problem_of digits li) as [p|e]; cbn [bind]; [|reflexivity].
    rewrite IH. destruct (mapM (problem_of digits) lis); cbn [bind];
      [rewrite <- app_assoc; reflexivity | reflexivity].
Qed.

Lemma problem_of_entry digits li :
  problem_of digits li = match problem_failure digits li with
                         | Some e => Raise e
                         | None => Ok (problem_entry li)
                         end.
Proof.
  unfold problem_of, problem_failure, problem_entry.
  fold (percent_text li).
  destruct (search_percent (percent_text li)) as [ds|]; [|reflexivity].
  unfold int_of_digit_string, refused.
  destruct ((640 <? String.length ds)%nat && (0 <? digits)%nat
            && (digits <? String.length ds)%nat); reflexivity.
Qed.

(** The list of the problems of a page. *)
Lemma most_reported_result digits doc :
  parse_most_reported digits doc
  = match first_some (problem_failure digits) (select problem_items doc) with
    | Some e => Raise e
    | None => Ok (JArr (map problem_entry (select problem_items doc)))
    end.
Proof.
  unfold parse_most_reported. rewrite most_reported_loop_mapM.
  rewrite (mapM_first (problem_of digits) problem_entry
             (problem_failure digits))
    by (intros li _; apply problem_of_entry).
  destruct (first_some _ _); reflexivity.
Qed.

Lemma problem_failure_refused digits li e :
  problem_failure digits li = Some e ->
  e = ValueError
  /\ exists ds,
       search_percent (percent_text li) = Some ds
       /\ (digits < String.length ds)%nat
       /\ (640 < String.length ds)%nat
       /\ (0 < digits)%nat.
Proof.
  unfold problem_failure.
  destruct (search_percent (percent_text li)) as [ds|]; [|discriminate].
  unfold refused.
  destruct (Nat.ltb_spec 640 (String.length ds)); cbn [andb];
    [|discriminate].
  destruct (Nat.ltb_spec 0 digits); cbn [andb]; [|discriminate].
  destruct (Nat.ltb_spec digits (String.length ds)); [|discriminate].
  intros [= <-]. split; [reflexivity|]. exists ds. auto.
Qed.

Lemma Forall2_map {A B} (R : A -> B -> Prop) (f : A -> B) l :
  (forall x, R x (f x)) -> Forall2 R l (map f l).
Proof.
  intros H. induction l as [|a l IH]; cbn [map]; constructor; auto.
Qed.

Lemma span_digits s :
  digits_only (fst (Str.span Str.is_digit s)) = true
  /\ s = fst (Str.span Str.is_digit s) ++ snd (Str.span Str.is_digit s).
Proof.
  induction s as [|c s [IH1 IH2]]; cbn [Str.span]; [split; reflexivity|].
  destruct (Str.is_digit c) eqn:E; [|split; reflexivity].
  destruct (Str.span Str.is_digit s) as [a b]. cbn [fst snd] in *.
  cbn [digits_only append]. rewrite E, IH1. split; [reflexivity | congruence].
Qed.







(* ===================================================================== *)
(** * The issue feed and the posts of the company *)
(* ===================================================================== *)

Lemma issue_feed_loop_app fi st lis :
  forall issues,
    issue_feed_loop fi st lis issues
    = (issues ++ map (issue_of fi st) lis)%list.
Proof.
  induction lis as [|li lis IH]; intros issues; cbn [issue_feed_loop map].
  - rewrite app_nil_r. reflexivity.
  - rewrite IH, <- app_assoc. reflexivity.
Qed.

(** The entry of an item of the issue feed. *)
Lemma issue_of_entry fi st li :
  issue_of fi st li
  = JObj ([("user",
            match select_in pseudolink li with
            | first :: _ => JStr (get_text first)
            | [] => JNull
            end);
           ("text",
            match select_one_in (by_name "p") li with
            | Some p_tag => JStr (text (select_one_in (by_name "span") p_tag))
            | None => JNull
            end);
           ("time_iso",
            opt_str (parse_datetime fi st
                       (attr (select_one_in (by_name "time") li) "datetime")))]
          ++ match select_one_in city_link li with
             | Some loc_el =>
                 if String.eqb (get_text loc_el) "" then []
                 else [("location", JStr (get_text loc_el))]
             | None => []
             end)%list.
Proof.
  unfold issue_of. fold pseudolink. fold city_link. cbv zeta.
  assert (T : match select_one_in (by_name "time") li with
              | Some time_el =>
                  opt_str (parse_datetime fi st (attr (Some time_el) "datetime"))
              | None => JNull
              end
              = opt_str (parse_datetime fi st
                           (attr (select_one_in (by_name "time") li) "datetime")))
    by (destruct (select_one_in (by_name "time") li); reflexivity).
  rewrite T.
  destruct (select_one_in city_link li) as [loc_el|]; cbn [text];
    [|reflexivity].
  destruct (String.eqb (get_text loc_el) ""); reflexivity.
Qed.

(** X11.  [parse_issue_feed] yields one entry for each item that
    [ul.reports > li] selects, in their order.  The entry of an item has
    the keys [user] (the text of its first [span.pseudolink], null
    without one), [text] (the text of the first span of its first
    paragraph, the empty string when the paragraph has no span, null
    without a paragraph) and [time_iso] (the [datetime] of its first
    [time] element passed through [parse_datetime], null without one).
    The key [location] follows them exactly when the item has an
    [a.city-link] whose text is not empty, and then holds that text: it
    is never null or empty. *)
Theorem issue_feed_entries :
  forall fromisoformat strptime_title doc,
    exists issues,
      parse_issue_feed fromisoformat strptime_title doc = JArr issues
      /\ Forall2
           (fun li entry =>
              exists d,
                entry = JObj d
                /\ d = ([("user",
                          match select_in pseudolink li with
                          | first :: _ => JStr (get_text first)
                          | [] => JNull
                          end);
                         ("text",
                          match select_one_in (by_name "p") li with
                          | Some p_tag =>
                              JStr (text (select_one_in (by_name "span") p_tag))
                          | None => JNull
                          end);
                         ("time_iso",
                          opt_str
                            (parse_datetime fromisoformat strptime_title
                               (attr (select_one_in (by_name "time") li)
                                  "datetime")))]
                        ++ match select_one_in city_link li with
                           | Some loc_el =>
                               if String.eqb (get_text loc_el) "" then []
                               else [("location", JStr (get_text loc_el))]
                           | None => []
                           end)%list
                /\ (dict_get "location" d = None
                    <-> forall loc_el,
                          select_one_in city_link li = Some loc_el ->
                          get_text loc_el = "")
                /\ (forall v,
                      dict_get "location" d = Some v ->
                      exists loc_el,
                        select_one_in city_link li = Some loc_el
                        /\ v = JStr (get_text loc_el)
                        /\ get_text loc_el <> ""))
           (select issue_items doc) issues.
Proof.
  intros fi st doc. unfold parse_issue_feed. fold issue_items.
  rewrite issue_feed_loop_app. cbn [app].
  eexists. split; [reflexivity|]. apply Forall2_map. intros li.
  rewrite issue_of_entry. eexists. split; [reflexivity|].
  split; [reflexivity|].
  cbn [app dict_get String.eqb Ascii.eqb Bool.eqb].
  destruct (select_one_in city_link li) as [loc_el|].
  - destruct (String.eqb_spec (get_text loc_el) "") as [E|E];
      cbn [dict_get String.eqb Ascii.eqb Bool.eqb].
    + split; [split|].
      * intros _ l [= <-]. exact E.
      * reflexivity.
      * discriminate.
    + split; [split|].
      * discriminate.
      * intros H. exfalso. exact (E (H loc_el eq_refl)).
      * intros v [= <-]. exists loc_el. auto.
  - cbn [dict_get String.eqb Ascii.eqb Bool.eqb]. split; [split|].
    + discriminate.
    + reflexivity.
    + discriminate.
Qed.

Lemma issue_feed_entries_witness :
  exists issues,
    parse_issue_feed (fun _ => None) (fun _ => None) issues_page = JArr issues
    /\ List.length issues = 2%nat.
Proof.
  destruct (issue_feed_entries (fun _ => None) (fun _ => None) issues_page)
    as (issues & E & F).
  exists issues. split; [exact E|].
  apply Forall2_length in F. rewrite <- F. reflexivity.
Defined.

(** The issue feed of the example: the second item has a city link
    without a text and gets no location. *)
Example issue_feed_sample :
  parse_issue_feed (fun _ => None) (fun _ => None) issues_page
  = JArr [JObj [("user", JStr "Ann"); ("text", JStr "No signal.");
                ("time_iso", JNull); ("location", JStr "Dallas")];
          JObj [("user", JNull); ("text", JStr "Down again.");
                ("time_iso", JNull)]].
Proof. reflexivity. Qed.

Lemma company_posts_loop_app anchors :
  forall posts,
    company_posts_loop anchors posts = (posts ++ map post_of anchors)%list.
Proof.
  induction anchors as [|a anchors IH]; intros posts;
    cbn [company_posts_loop map].
  - rewrite app_nil_r. reflexivity.
  - rewrite IH, <- app_assoc. reflexivity.
Qed.

Lemma or_none_not_empty s : not_empty (or_none s) = true.
Proof.
  destruct (or_none_cases s) as [[_ ->]|[N ->]]; [reflexivity|].
  destruct s; [contradiction | reflexivity].
Qed.

(** The post of an anchor. *)
Lemma post_of_entry anchor :
  post_of anchor
  = JObj ([("url", opt_str (attr (Some anchor) "href"));
           ("name",
            or_none (text (select_one_in (by_class "twitter-timeline-name")
                             anchor)));
           ("reply_context",
            or_none (text (select_one_in (by_class "twitter-timeline-reply")
                             anchor)));
           ("text",
            or_none (text (select_one_in (by_class "twitter-timeline-text")
                             anchor)))]
          ++ match select_one_in timeline_time anchor with
             | Some time_tag =>
                 [("timestamp",
                   JStr match attr (Some time_tag) "datetime" with
                        | Some d => d
                        | None => get_text time_tag
                        end)]
             | None => []
             end)%list.
Proof.
  unfold post_of. fold timeline_time. cbv zeta.
  destruct (select_one_in timeline_time anchor) as [time_tag|];
    [|reflexivity].
  cbn [attr text]. destruct (lookup "datetime" (tag_attrs time_tag));
    reflexivity.
Qed.

(** X12.  With a [#twitter-timeline-section] on the page,
    [parse_company_posts] yields one post for each anchor below the first
    such section, in their order; without one it yields the empty list.
    The post of an anchor has the keys [url] (the [href] of the anchor or
    null), [name], [reply_context] and [text] (the texts of the first
    elements of the classes [twitter-timeline-name],
    [twitter-timeline-reply] and [twitter-timeline-text] below the
    anchor, null when there is no such element or its text is empty:
    never the empty string).  The key [timestamp] follows them exactly
    when the anchor has a [time] element below an element of the class
    [twitter-timeline-time], and then holds the [datetime] of the first
    such [time] element when it has that attribute, and its text
    otherwise; it is a string, which may be empty. *)
Theorem company_posts_entries :
  forall doc,
    (select_one (by_id "twitter-timeline-section") doc = None ->
     parse_company_posts doc = JArr [])
    /\ forall section,
         select_one (by_id "twitter-timeline-section") doc = Some section ->
         exists posts,
           parse_company_posts doc = JArr posts
           /\ Forall2
                (fun anchor post =>
                   exists d,
                     post = JObj d
                     /\ d = ([("url", opt_str (attr (Some anchor) "href"));
                              ("name",
                               or_none (text (select_one_in
                                                (by_class "twitter-timeline-name")
                                                anchor)));
                              ("reply_context",
                               or_none (text (select_one_in
                                                (by_class "twitter-timeline-reply")
                                                anchor)));
                              ("text",
                               or_none (text (select_one_in
                                                (by_class "twitter-timeline-text")
                                                anchor)))]
                             ++ match select_one_in timeline_time anchor with
                                | Some time_tag =>
                                    [("timestamp",
                                      JStr match attr (Some time_tag) "datetime" with
                                           | Some d => d
                                           | None => get_text time_tag
                                           end)]
                                | None => []
                                end)%list
                     /\ (dict_get "timestamp" d = None
                         <-> select_one_in timeline_time anchor = None)
                     /\ (forall k v,
                           In k ["name"; "reply_context"; "text"] ->
                           dict_get k d = Some v -> not_empty v = true))
                (select_in (by_name "a") section) posts.
Proof.
  intros doc. split.
  - intros H. unfold parse_company_posts. rewrite H. reflexivity.
  - intros section H. unfold parse_company_posts. rewrite H.
    rewrite company_posts_loop_app. cbn [app].
    eexists. split; [reflexivity|]. apply Forall2_map. intros anchor.
    rewrite post_of_entry. eexists. split; [reflexivity|].
    split; [reflexivity|]. split.
    + cbn [app dict_get String.eqb Ascii.eqb Bool.eqb].
      destruct (select_one_in timeline_time anchor) as [time_tag|];
        cbn [dict_get String.eqb Ascii.eqb Bool.eqb]; split;
        first [discriminate | reflexivity].
    + intros k v Hin. cbn [In] in Hin.
      destruct Hin as [<-|[<-|[<-|[]]]];
        cbn [app dict_get String.eqb Ascii.eqb Bool.eqb];
        intros [= <-]; apply or_none_not_empty.
Qed.

Lemma company_posts_entries_witness :
  parse_company_posts bare_page = JArr []
  /\ exists posts,
       parse_company_posts posts_page = JArr posts
       /\ List.length posts = 2%nat.
Proof.
  split.
  - apply (proj1 (company_posts_entries bare_page)). reflexivity.
  - destruct (proj2 (company_posts_entries posts_page) _ eq_refl)
      as (posts & E & F).
    exists posts. split; [exact E|].
    apply Forall2_length in F. rewrite <- F. reflexivity.
Defined.

(** The posts of the example: the anchor outside the section gives no
    post, and a time element without [datetime] gives its text. *)
Example company_posts_sample :
  parse_company_posts posts_page
  = JArr [JObj [("url", JStr "/status/1"); ("name", JNull);
                ("reply_context", JNull); ("text", JStr "Back up.");
                ("timestamp", JStr "2025-11-05T21:52:00Z")];
          JObj [("url", JNull); ("name", JNull);
                ("reply_context", JNull); ("text", JNull);
                ("timestamp", JStr "3h")]].
Proof. reflexivity. Qed.

(* ===================================================================== *)
(** * The chart *)
(* ===================================================================== *)

Lemma chart_ts_at_digits s ds :
  chart_ts_at s = Some ds -> ds <> "" /\ digits_only ds = true.
Proof.
  unfold chart_ts_at.
  destruct (Str.after "var" s) as [r|]; [|discriminate].
  destruct (Str.span Str.is_space r) as [[|w ws] r1]; [discriminate|].
  destruct (Str.after "chartTs" r1) as [r2|]; [|discriminate].
  destruct (Str.after "=" _) as [r3|]; [|discriminate].
  pose proof (proj1 (span_digits (snd (Str.span Str.is_space r3)))) as D.
  destruct (Str.span Str.is_digit _) as [[|d t] r4]; [discriminate|].
  intros [= <-]. split; [discriminate | exact D].
Qed.

Lemma search_chart_ts_digits s :
  forall ds, search_chart_ts s = Some ds -> ds <> "" /\ digits_only ds = true.
Proof.
  induction s as [|c s IH]; intros ds; cbn [search_chart_ts].
  - destruct (chart_ts_at "") as [x|] eqn:E; [|discriminate].
    intros [= <-]. exact (chart_ts_at_digits _ _ E).
  - destruct (chart_ts_at (String c s)) as [x|] eqn:E.
    + intros [= <-]. exact (chart_ts_at_digits _ _ E).
    + apply IH.
Qed.

(** The loop over the scripts stores at most the time stamp. *)
Lemma chart_ts_loop_shape scripts :
  chart_ts_loop scripts [] = []
  \/ exists ds,
       chart_ts_loop scripts [] = [("chart_ts", JStr ds)]
       /\ ds <> "" /\ digits_only ds = true.
Proof.
  induction scripts as [|script scripts IH]; cbn [chart_ts_loop]; [auto|].
  destruct (tag_string script) as [s|]; [|exact IH].
  destruct (negb (String.eqb s "") && contains "var chartTs" s); [|exact IH].
  destruct (search_chart_ts s) as [ds|] eqn:E; [|auto].
  right. exists ds. split; [reflexivity|]. exact (search_chart_ts_digits s ds E).
Qed.

(** The chart with and without an image on the page. *)
Lemma parse_chart_image doc :
  match select_one chart_image_selector doc with
  | Some img =>
      exists chart,
        parse_chart doc = JObj chart
        /\ dict_get "image_src" chart = Some (opt_str (attr (Some img) "src"))
  | None =>
      parse_chart doc = JObj (chart_ts_loop (select (by_name "script") doc) [])
      /\ dict_get "image_src" (chart_ts_loop (select (by_name "script") doc) [])
         = None
  end.
Proof.
  unfold parse_chart. fold chart_image_selector.
  destruct (select_one chart_image_selector doc) as [img|].
  - destruct (search_alt_time _) as [m|];
      (eexists; split; [reflexivity|]); rewrite !dict_get_set; reflexivity.
  - split; [reflexivity|].
    destruct (chart_ts_loop_shape (select (by_name "script") doc))
      as [->|(ds & -> & _)]; reflexivity.
Qed.

(** X13.  [parse_chart] yields an object with no other keys than
    [chart_ts], [image_src] and [alt_time].  A [chart_ts] is a non-empty
    string of digits.  [image_src] is present exactly when the page has a
    [#chart-container #chart-img] element, and then holds the [src] of the
    first one, or null; [alt_time] is present only together with
    [image_src]. *)
Theorem chart_fields :
  forall doc,
    exists chart,
      parse_chart doc = JObj chart
      /\ (forall k, In k (map fst chart) ->
                    In k ["chart_ts"; "image_src"; "alt_time"])
      /\ (forall v,
            dict_get "chart_ts" chart = Some v ->
            exists ds, v = JStr ds /\ ds <> "" /\ digits_only ds = true)
      /\ match select_one chart_image_selector doc with
         | Some img =>
             dict_get "image_src" chart = Some (opt_str (attr (Some img) "src"))
         | None =>
             dict_get "image_src" chart = None
             /\ dict_get "alt_time" chart = None
         end.
Proof.
  intros doc. unfold parse_chart. fold chart_image_selector.
  destruct (chart_ts_loop_shape (select (by_name "script") doc))
    as [->|(ds & -> & N & D)];
    destruct (select_one chart_image_selector doc) as [img|];
    try destruct (search_alt_time _) as [m|];
    (eexists; split; [reflexivity|]);
    cbn [dict_set dict_get map fst String.eqb Ascii.eqb Bool.eqb];
    (split; [intros k Hk; cbn [In] in *; tauto|]);
    (split; [|try split; reflexivity]);
    intros v Hv; try discriminate; injection Hv as <-; eauto.
Qed.

Lemma chart_fields_witness :
  exists chart,
    parse_chart bare_page = JObj chart
    /\ dict_get "image_src" chart = None
    /\ dict_get "alt_time" chart = None.
Proof.
  destruct (chart_fields bare_page) as (chart & E & _ & _ & H).
  exists chart. split; [exact E | exact H].
Defined.

(* ===================================================================== *)
(** * The record of a page *)
(* ===================================================================== *)

Lemma regions_absent doc c :
  forallb (fun r => no_element r doc) page_regions = true ->
  In c page_regions -> no_element c doc = true.
Proof.
  intros H Hin. rewrite forallb_forall in H. exact (H c Hin).
Qed.

(** X14.  A page that has none of the regions the extractors look for (no
    [.star-rating-text], [script], [#chart-img], [ol.doughtnut-list],
    [#latestreports], [ul.reports] or [#twitter-timeline-section]
    element), with a map page without a [table#status-table], yields the
    record of seven empty fields, and nothing is raised: what the site
    answers in place of the page is scraped as an outage page without
    data. *)
Theorem page_without_regions :
  forall urljoin str_to_int fromisoformat strptime_title max_str_digits doc
         map_doc,
    forallb (fun r => no_element r doc) page_regions = true ->
    no_element locations_table map_doc = true ->
    scrape_outage_page urljoin str_to_int fromisoformat strptime_title
      max_str_digits doc map_doc
    = Ok (JObj [("star_rating", JObj []);
                ("chart", JObj []);
                ("most_reported_problems", JArr []);
                ("latest_reports", JArr []);
                ("issues_reports", JArr []);
                ("company_posts", JArr []);
                ("last_15_days_status", JArr [])]).
Proof.
  intros urljoin si fi st digits doc map_doc H Hm.
  assert (R : forall c, In c page_regions -> no_element c doc = true)
    by (intros c; apply regions_absent; exact H).
  unfold page_regions in R. cbn [In] in R.
  unfold scrape_outage_page, parse_outage_page.
  assert (E1 : parse_star_rating doc = JObj []).
  { unfold parse_star_rating, select_one, by_class.
    rewrite (select_absent_first rating_container) by (apply R; tauto).
    reflexivity. }
  assert (E2 : parse_chart doc = JObj []).
  { unfold parse_chart, select_one, by_name.
    rewrite (select_absent_first script_element) by (apply R; tauto).
    rewrite (select_absent_first chart_image) by (apply R; tauto).
    reflexivity. }
  assert (E3 : parse_most_reported digits doc = Ok (JArr [])).
  { unfold parse_most_reported, problem_items.
    rewrite (select_absent problem_list) by (apply R; tauto).
    reflexivity. }
  assert (E4 : parse_latest_reports fi st doc = JArr []).
  { unfold parse_latest_reports, report_rows.
    rewrite (select_absent reports_table) by (apply R; tauto).
    reflexivity. }
  assert (E5 : parse_issue_feed fi st doc = JArr []).
  { unfold parse_issue_feed.
    rewrite (select_absent issue_list) by (apply R; tauto).
    reflexivity. }
  assert (E6 : parse_company_posts doc = JArr []).
  { unfold parse_company_posts, select_one, by_id.
    rewrite (select_absent_first posts_section) by (apply R; tauto).
    reflexivity. }
  assert (E7 : last_15_days_status urljoin si map_doc = Ok (JArr [])).
  { unfold last_15_days_status, select_one, status_table.
    rewrite (select_absent_first locations_table) by exact Hm.
    reflexivity. }
  rewrite E1, E2, E3, E4, E5, E6, E7. reflexivity.
Qed.

Lemma page_without_regions_witness :
  scrape_outage_page sample_urljoin no_int (fun _ => None) (fun _ => None)
    4300
    [Elem "html" []
       [Elem "body" []
          [Elem "h1" [] [Text NavigableString "Just a moment..."]]]]
    [Elem "html" [] [Elem "body" [] []]]
  = Ok (JObj [("star_rating", JObj []);
              ("chart", JObj []);
              ("most_reported_problems", JArr []);
              ("latest_reports", JArr []);
              ("issues_reports", JArr []);
              ("company_posts", JArr []);
              ("last_15_days_status", JArr [])]).
Proof.
  apply page_without_regions; reflexivity.
Defined.

(** X15.  [scrape_and_save] saves exactly when the two pages are parsed
    without an exception: the list of problems of the outage page first,
    then the table of locations of the map page.  Then it writes the
    serialized record to [<provider>.json], the name in lower case; the
    record has the six fields of the page followed by
    [last_15_days_status]; and the number of issues it prints is the
    number of items that [ul.reports > li] selects on the page.  An
    exception of one of the two parses leaves the call before anything is
    written: the [ValueError] of a percentage of too many digits, and
    after it whatever [urljoin] raises on the link of a row. *)
Theorem scrape_saved :
  forall urljoin str_to_int fromisoformat strptime_title max_str_digits dumps
         provider doc map_doc,
    scrape_and_save urljoin str_to_int fromisoformat strptime_title
      max_str_digits dumps provider doc map_doc
    = match parse_most_reported max_str_digits doc with
      | Raise e => Raise e
      | Ok problems =>
          match last_15_days_status urljoin str_to_int map_doc with
          | Raise e => Raise e
          | Ok status =>
              let data :=
                JObj [("star_rating", parse_star_rating doc);
                      ("chart", parse_chart doc);
                      ("most_reported_problems", problems);
                      ("latest_reports",
                       parse_latest_reports fromisoformat strptime_title doc);
                      ("issues_reports",
                       parse_issue_feed fromisoformat strptime_title doc);
                      ("company_posts", parse_company_posts doc);
                      ("last_15_days_status", status)] in
              Ok (Saved (Str.lower provider ++ ".json") (dumps data)
                    (Z.of_nat (List.length (select issue_items doc))) data)
          end
      end
    /\ (forall e,
          scrape_and_save urljoin str_to_int fromisoformat strptime_title
            max_str_digits dumps provider doc map_doc = Raise e ->
          (e = ValueError
           /\ first_some (problem_failure max_str_digits)
                (select problem_items doc) = Some e)
          \/ (first_some (problem_failure max_str_digits)
                (select problem_items doc) = None
              /\ exists table,
                   select_one status_table map_doc = Some table
                   /\ first_some (row_failure urljoin) (status_rows table)
                      = Some e)).
Proof.
  intros urljoin si fi st digits dumps provider doc map_doc.
  assert (E : scrape_and_save urljoin si fi st digits dumps provider doc
                map_doc
              = match parse_most_reported digits doc with
                | Raise e => Raise e
                | Ok problems =>
                    match last_15_days_status urljoin si map_doc with
                    | Raise e => Raise e
                    | Ok status =>
                        let data :=
                          JObj [("star_rating", parse_star_rating doc);
                                ("chart", parse_chart doc);
                                ("most_reported_problems", problems);
                                ("latest_reports",
                                 parse_latest_reports fi st doc);
                                ("issues_reports", parse_issue_feed fi st doc);
                                ("company_posts", parse_company_posts doc);
                                ("last_15_days_status", status)] in
                        Ok (Saved (Str.lower provider ++ ".json") (dumps data)
                              (Z.of_nat (List.length (select issue_items doc)))
                              data)
                    end
                end).
  { unfold scrape_and_save, scrape_outage_page, parse_outage_page.
    destruct (parse_most_reported digits doc) as [problems|e]; cbn [bind];
      [|reflexivity].
    destruct (last_15_days_status urljoin si map_doc) as [status|e];
      cbn [bind]; [|reflexivity].
    cbn [setitem bind dict_set get_default dict_get String.eqb Ascii.eqb
         Bool.eqb].
    unfold parse_issue_feed. fold issue_items.
    rewrite issue_feed_loop_app. cbn [app py_len bind].
    rewrite length_map. reflexivity. }
  split; [exact E|].
  intros e H. rewrite E in H. rewrite most_reported_result in H.
  destruct (first_some (problem_failure digits) (select problem_items doc))
    as [e0|] eqn:F.
  - injection H as <-. left. split; [|reflexivity].
    destruct (first_some_in _ _ _ F) as (li & _ & Hli).
    exact (proj1 (problem_failure_refused _ _ _ Hli)).
  - right. split; [reflexivity|].
    unfold last_15_days_status in H.
    destruct (select_one status_table map_doc) as [table|] eqn:T;
      [|discriminate].
    exists table. split; [reflexivity|].
    fold (last_15_days_status urljoin si map_doc) in H.
    pose proof (status_result urljoin si map_doc table T) as S.
    unfold last_15_days_status in S. rewrite T in S. rewrite S in H.
    destruct (first_some (row_failure urljoin) (status_rows table));
      [injection H as <-; reflexivity | discriminate].
Qed.

Lemma scrape_saved_witness :
  (ValueError = ValueError
   /\ first_some (problem_failure 4300) (select problem_items long_percent_page)
      = Some ValueError)
  \/ (first_some (problem_failure 4300)
        (select problem_items long_percent_page) = None
      /\ exists table,
           select_one status_table locations_page = Some table
           /\ first_some (row_failure sample_urljoin) (status_rows table)
              = Some ValueError).
Proof.
  apply (proj2 (scrape_saved sample_urljoin sample_int (fun _ => None)
                  (fun _ => None) 4300 dumps_atoms "ATT" long_percent_page
                  locations_page) ValueError).
  vm_compute. reflexivity.
Defined.

(** The run on the two pages of the examples. *)
Example scrape_sample :
  exists text,
    scrape_and_save sample_urljoin sample_int (fun _ => None) (fun _ => None)
      4300 dumps_atoms "ATT" problems_page locations_page
    = Ok (Saved "att.json" text 0
            (JObj [("star_rating", JObj []);
                   ("chart", JObj []);
                   ("most_reported_problems",
                    JArr [JObj [("label", JStr "Internet");
                                ("percent", JInt 45)];
                          JObj [("label", JStr "Phone");
                                ("percent", JInt 30)]]);
                   ("latest_reports", JArr []);
                   ("issues_reports", JArr []);
                   ("company_posts", JArr []);
                   ("last_15_days_status",
                    JArr [JObj [("location", JStr "Dallas");
                                ("reports", JInt 1234)];
                          JObj [("location", JStr "Elsewhere");
                                ("reports", JStr "n/a")]])])).
Proof. eexists. vm_compute. reflexivity. Qed.

(* ===================================================================== *)
(** * The summary of the chart *)
(* ===================================================================== *)

(** X16.  The summary of the chart that [analyze_insights] puts in the
    prompt, for the record of a scraped page and an analyzer whose call
    returns.  Without a
    [#chart-container #chart-img] element on the page the summary is the
    fixed text and the analyzer is not consulted, whatever it would
    answer.  With such an element the analyzer is called with the [src] of
    the image, null when the image has none, and: the [content] of the
    [message] of the first choice of the response is the summary; a
    response without [choices] (an error object), or whose first choice
    has no [message], gives the fixed text; a response whose [choices] is
    the empty list raises an [IndexError] that the handler does not
    catch. *)
Theorem chart_summary :
  forall analyze_chart_image urljoin str_to_int fromisoformat strptime_title
         max_str_digits doc map_doc data,
    scrape_outage_page urljoin str_to_int fromisoformat strptime_title
      max_str_digits doc map_doc
    = Ok data ->
    match select_one chart_image_selector doc with
    | None =>
        Chart.analysis_text analyze_chart_image data
        = Chart.Analysis Chart.no_chart
    | Some img =>
        let response := analyze_chart_image (opt_str (attr (Some img) "src")) in
        (forall choice rest message content,
           getitem response "choices" = Ok (JArr (choice :: rest)) ->
           getitem choice "message" = Ok message ->
           getitem message "content" = Ok content ->
           Chart.analysis_text analyze_chart_image data = Chart.Analysis content)
        /\ (forall e,
              getitem response "choices" = Raise e ->
              Chart.analysis_text analyze_chart_image data
              = Chart.Analysis Chart.no_chart)
        /\ (forall choice rest e,
              getitem response "choices" = Ok (JArr (choice :: rest)) ->
              getitem choice "message" = Raise e ->
              Chart.analysis_text analyze_chart_image data
              = Chart.Analysis Chart.no_chart)
        /\ (getitem response "choices" = Ok (JArr []) ->
            Chart.analysis_text analyze_chart_image data = Chart.Uncaught)
    end.
Proof.
  intros analyze urljoin si fi st digits doc map_doc data H.
  unfold scrape_outage_page, parse_outage_page in H.
  destruct (parse_most_reported digits doc) as [problems|e]; cbn [bind] in H;
    [|discriminate].
  destruct (last_15_days_status urljoin si map_doc) as [status|e];
    cbn [bind setitem] in H; [|discriminate].
  injection H as <-.
  unfold Chart.analysis_text.
  cbn [getitem dict_set dict_get String.eqb Ascii.eqb Bool.eqb bind].
  pose proof (parse_chart_image doc) as P.
  destruct (select_one chart_image_selector doc) as [img|].
  - destruct P as (chart & -> & Hs). cbn [getitem]. rewrite Hs.
    cbv zeta. split; [|split; [|split]].
    + intros choice rest message content -> Hm Hc.
      cbn [Chart.first_item]. rewrite Hm. cbn [bind]. rewrite Hc. reflexivity.
    + intros e ->. reflexivity.
    + intros choice rest e -> Hm.
      cbn [Chart.first_item]. rewrite Hm. reflexivity.
    + intros ->. reflexivity.
  - destruct P as [-> Hs]. cbn [getitem]. rewrite Hs. reflexivity.
Qed.

Lemma chart_summary_witness :
  Chart.analysis_text (fun _ => JObj [("choices", JArr [])])
    (JObj [("star_rating", JObj []);
           ("chart", JObj []);
           ("most_reported_problems", JArr []);
           ("latest_reports", JArr []);
           ("issues_reports", JArr []);
           ("company_posts", JArr []);
           ("last_15_days_status", JArr [])])
  = Chart.Analysis Chart.no_chart.
Proof.
  exact (chart_summary (fun _ => JObj [("choices", JArr [])])
           sample_urljoin no_int (fun _ => None) (fun _ => None) 4300
           [Elem "html" [] [Elem "body" [] []]] [] _ eq_refl).
Defined.

(* ===================================================================== *)
(** * Rounding to decimals is stable on its results *)
(* ===================================================================== *)

Lemma digits2_pos_bounds p :
  2 ^ (Zpos (digits2_pos p) - 1) <= Zpos p < 2 ^ Zpos (digits2_pos p).
Proof.
  induction p as [p IH|p IH|]; cbn [digits2_pos].
  - rewrite Pos2Z.inj_succ. change (Zpos p~1) with (2 * Zpos p + 1).
    replace (Z.succ (Zpos (digits2_pos p)) - 1)
      with (Z.succ (Zpos (digits2_pos p) - 1)) by lia.
    rewrite !Z.pow_succ_r by lia.
    set (a := 2 ^ (Zpos (digits2_pos p) - 1)) in *.
    set (b := 2 ^ Zpos (digits2_pos p)) in *. lia.
  - rewrite Pos2Z.inj_succ. change (Zpos p~0) with (2 * Zpos p).
    replace (Z.succ (Zpos (digits2_pos p)) - 1)
      with (Z.succ (Zpos (digits2_pos p) - 1)) by lia.
    rewrite !Z.pow_succ_r by lia.
    set (a := 2 ^ (Zpos (digits2_pos p) - 1)) in *.
    set (b := 2 ^ Zpos (digits2_pos p)) in *. lia.
  - cbn. lia.
Qed.

Lemma shr_1_m mrs : 0 <= shr_m mrs -> shr_m (shr_1 mrs) = shr_m mrs / 2.
Proof.
  destruct mrs as [m r s]. cbn [shr_m]. intros H.
  destruct m as [|[p|p|]|p]; cbn [shr_1 shr_m].
  - reflexivity.
  - change (Zpos p~1) with (2 * Zpos p + 1).
    apply (Z.div_unique _ _ _ 1); lia.
  - change (Zpos p~0) with (2 * Zpos p).
    apply (Z.div_unique _ _ _ 0); lia.
  - reflexivity.
  - lia.
Qed.

Lemma iter_shr_m p :
  forall mrs,
    0 <= shr_m mrs ->
    shr_m (iter_pos shr_1 p mrs) = shr_m mrs / 2 ^ Zpos p.
Proof.
  assert (P2 : forall q, 0 < 2 ^ Zpos q) by (intros q; apply Z.pow_pos_nonneg; lia).
  induction p as [p IH|p IH|]; intros mrs H; cbn [iter_pos].
  - assert (H1 : 0 <= shr_m (shr_1 mrs))
      by (rewrite shr_1_m by exact H; apply Z.div_pos; lia).
    assert (H2 : 0 <= shr_m (iter_pos shr_1 p (shr_1 mrs)))
      by (rewrite IH by exact H1; apply Z.div_pos; [exact H1 | apply P2]).
    rewrite IH by exact H2. rewrite IH by exact H1. rewrite shr_1_m by exact H.
    rewrite !Z.div_div by (specialize (P2 p); lia).
    f_equal. change (Zpos p~1) with (2 * Zpos p + 1).
    replace (2 * Zpos p + 1) with (1 + Zpos p + Zpos p) by lia.
    rewrite !Z.pow_add_r by lia. lia.
  - assert (H2 : 0 <= shr_m (iter_pos shr_1 p mrs))
      by (rewrite IH by exact H; apply Z.div_pos; [exact H | apply P2]).
    rewrite IH by exact H2. rewrite IH by exact H.
    rewrite !Z.div_div by (specialize (P2 p); lia).
    f_equal. change (Zpos p~0) with (2 * Zpos p).
    replace (2 * Zpos p) with (Zpos p + Zpos p) by lia.
    rewrite !Z.pow_add_r by lia. lia.
  - rewrite shr_1_m by exact H. reflexivity.
Qed.

Lemma shr_record_m m l : shr_m (shr_record_of_loc m l) = m.
Proof. destruct l as [|[]]; reflexivity. Qed.

(** Above the smallest exponent the shift to the format keeps a mantissa
    positive and does not lower the exponent. *)
Lemma shr_fexp_pos q e l :
  -1074 <= e ->
  exists mrs e',
    shr_fexp prec emax (Zpos q) e l = (mrs, e') /\ 0 < shr_m mrs /\ e <= e'.
Proof.
  intros He. unfold shr_fexp, shr. cbn [Zdigits2].
  destruct (fexp prec emax (Zpos (digits2_pos q) + e) - e) as [|n|n] eqn:En.
  - eexists. eexists. split; [reflexivity|]. rewrite shr_record_m. lia.
  - eexists. eexists. split; [reflexivity|]. split; [|lia].
    rewrite iter_shr_m by (rewrite shr_record_m; lia).
    rewrite shr_record_m.
    unfold fexp, SpecFloat.emin, prec, emax in En.
    assert (Hn : Zpos n <= Zpos (digits2_pos q) - 1) by lia.
    destruct (digits2_pos_bounds q) as [Hq _].
    apply Z.div_str_pos. split; [apply Z.pow_pos_nonneg; lia|].
    apply Z.le_trans with (2 ^ (Zpos (digits2_pos q) - 1)); [|exact Hq].
    apply Z.pow_le_mono_r; lia.
  - eexists. eexists. split; [reflexivity|]. rewrite shr_record_m. lia.
Qed.

(** The rounding of a positive mantissa whose exponent is not below the
    smallest one is a finite float with the sign given and an exponent
    that is not lower, or the infinity of that sign. *)
Lemma binary_round_aux_pos sx q e l :
  -1074 <= e ->
  (exists m e',
     binary_round_aux prec emax sx (Zpos q) e l = S754_finite sx m e'
     /\ e <= e')
  \/ binary_round_aux prec emax sx (Zpos q) e l = S754_infinity sx.
Proof.
  intros He. unfold binary_round_aux.
  destruct (shr_fexp_pos q e l He) as (mrs & e1 & -> & Hm & He1).
  assert (H1 : 0 < round_nearest_even (shr_m mrs) (loc_of_shr_record mrs)).
  { unfold round_nearest_even.
    destruct (loc_of_shr_record mrs) as [|[]]; try destruct (Z.even _); lia. }
  destruct (round_nearest_even (shr_m mrs) (loc_of_shr_record mrs))
    as [|q1|q1]; try lia.
  destruct (shr_fexp_pos q1 e1 loc_Exact) as (mrs2 & e2 & -> & Hm2 & He2); [lia|].
  destruct (shr_m mrs2) as [|m2|m2]; try lia.
  destruct (e2 <=? emax - prec).
  - left. exists m2, e2. split; [reflexivity | lia].
  - right. reflexivity.
Qed.

Lemma binary_round_aux_sign sx m e l :
  match binary_round_aux prec emax sx m e l with
  | S754_zero s | S754_infinity s | S754_finite s _ _ => s = sx
  | S754_nan => True
  end.
Proof.
  unfold binary_round_aux.
  destruct (shr_fexp prec emax m e l) as [mrs e1].
  destruct (shr_fexp prec emax _ e1 loc_Exact) as [mrs2 e2].
  destruct (shr_m mrs2); [reflexivity | | exact I].
  destruct (e2 <=? emax - prec); reflexivity.
Qed.

(** A quotient that is rounded to a negative float, a zero or a NaN is not
    above zero. *)
Lemma negative_quot_not_above d P :
  SFltb f0 (nearest_quot true d P) = false.
Proof.
  unfold nearest_quot, SFdiv.
  destruct (SFdiv_core_binary prec emax (Zpos d) 0 (Zpos P) 0) as [[mz ez] lz].
  pose proof (binary_round_aux_sign (xorb true false) mz ez lz) as S.
  destruct (binary_round_aux prec emax (xorb true false) mz ez lz);
    try subst s; reflexivity.
Qed.

(** The float nearest to the quotient of two positive integers, the
    divisor not above the dividend: its exponent is at least the one the
    sizes of the two give. *)
Lemma nearest_quot_exponent d P :
  Zpos P <= Zpos d ->
  (exists m e,
     nearest_quot false d P = S754_finite false m e
     /\ Z.min (Zpos (digits2_pos d) - Zpos (digits2_pos P) - 53) 0 <= e)
  \/ nearest_quot false d P = S754_infinity false.
Proof.
  intros H. unfold nearest_quot, SFdiv, SFdiv_core_binary. cbn [Zdigits2 xorb].
  set (e' := Z.min (fexp prec emax
                      (Zpos (digits2_pos d) + 0 - (Zpos (digits2_pos P) + 0)))
               (0 - 0)).
  assert (E1 : Z.min (Zpos (digits2_pos d) - Zpos (digits2_pos P) - 53) 0 <= e')
    by (subst e'; unfold fexp, SpecFloat.emin, prec, emax; lia).
  assert (E2 : -1074 <= e' <= 0)
    by (subst e'; unfold fexp, SpecFloat.emin, prec, emax; lia).
  set (m' := match 0 - 0 - e' with
             | 0 => Zpos d
             | Zpos _ => Z.shiftl (Zpos d) (0 - 0 - e')
             | Zneg _ => 0
             end).
  assert (Hm : Zpos d <= m').
  { subst m'. destruct (0 - 0 - e') as [|s|s] eqn:Es; try lia.
    rewrite Z.shiftl_mul_pow2 by lia.
    assert (0 < 2 ^ Zpos s) by (apply Z.pow_pos_nonneg; lia). nia. }
  destruct (Z.div_eucl m' (Zpos P)) as [q r] eqn:Ed.
  assert (Hq : q = m' / Zpos P) by (unfold Z.div; rewrite Ed; reflexivity).
  assert (Hp : 0 < q) by (subst q; apply Z.div_str_pos; lia).
  destruct q as [|q|q]; try lia.
  destruct (binary_round_aux_pos false q e' (new_location (Zpos P) r)
              (proj1 E2)) as [(m & e & -> & He)| ->].
  - left. exists m, e. split; [reflexivity | lia].
  - right. reflexivity.
Qed.

Lemma same_float_eq a b : same_float a b = true -> a = b.
Proof.
  destruct a as [s|s| |s m e], b as [t|t| |t n f]; cbn [same_float];
    try discriminate; intros H.
  - apply Bool.eqb_prop in H. congruence.
  - apply Bool.eqb_prop in H. congruence.
  - reflexivity.
  - apply andb_prop in H. destruct H as [H He].
    apply andb_prop in H. destruct H as [Hs Hm].
    apply Bool.eqb_prop in Hs. apply Pos.eqb_eq in Hm. apply Z.eqb_eq in He.
    congruence.
Qed.

Lemma stable_below_10 : forallb (round_stable 1) (range 99 1) = true.
Proof. vm_compute. reflexivity. Qed.

Lemma not_below_10 : forallb (not_below f10 1) (range 156 100) = true.
Proof. vm_compute. reflexivity. Qed.

Lemma stable_below_5 : forallb (round_stable 2) (range 499 1) = true.
Proof. vm_compute. reflexivity. Qed.

Lemma not_below_5 : forallb (not_below f5 2) (range 524 500) = true.
Proof. vm_compute. reflexivity. Qed.

Section Stable.

(** The number of decimals, the bound, the least numerator at which the
    quotient reaches the bound, and a power of two from which the sizes
    alone show that it does. *)
Variable n : nat.
Variable hi : float.
Variable reach : Z.
Variable bits : Z.

Local Abbreviation ten := (Z.to_pos (10 ^ Z.of_nat n)).

Hypothesis stable :
  forall d, 1 <= d < reach -> round_stable n d = true.
Hypothesis reached :
  forall d, reach <= d < 2 ^ bits -> not_below hi n d = true.
Hypothesis large :
  forall d, 2 ^ bits <= Zpos d -> SFltb (nearest_quot false d ten) hi = false.

(** A result of [round(_, n)] between zero and the bound is rounded to
    itself. *)
Lemma round_ndigits_stable x :
  SFltb f0 (round_ndigits x n) = true ->
  SFltb (round_ndigits x n) hi = true ->
  round_ndigits (round_ndigits x n) n = round_ndigits x n.
Proof.
  destruct x as [s|s| |s m e]; cbn [round_ndigits].
  - intros H. destruct s; discriminate H.
  - intros H1 H2. destruct s; [discriminate H1|].
    destruct hi as [t|t| |t k w]; try destruct t; discriminate H2.
  - intros H. discriminate H.
  - set (d := match e with
              | Z.neg q => rhe_div (Z.pos m * 10 ^ Z.of_nat n) (Z.pow_pos 2 q)
              | _ => Z.pos m * 2 ^ e * 10 ^ Z.of_nat n
              end).
    destruct d as [|d|d]; try discriminate.
    destruct s.
    + rewrite negative_quot_not_above. discriminate.
    + intros _ Hhi.
      destruct (Z_lt_le_dec (Zpos d) reach) as [L|L].
      * apply same_float_eq. apply (stable (Zpos d)). lia.
      * destruct (Z_lt_le_dec (Zpos d) (2 ^ bits)) as [B|B].
        -- pose proof (reached (Zpos d) (conj L B)) as R.
           cbn [not_below] in R. rewrite Hhi in R. discriminate.
        -- rewrite (large d B) in Hhi. discriminate.
Qed.

Hypothesis bound_above_zero : SFltb f0 hi = true.
Hypothesis bound_fixed :
  max_float f0 (min_float hi (round_ndigits hi n)) = hi.

(** The clamp of a score is stable on its results. *)
Lemma clamp_number_stable sf v v' :
  clamp_number sf hi n v = Ok v' -> clamp_number sf hi n v' = Ok v'.
Proof.
  assert (Z0 : max_float f0 (min_float hi (round_ndigits f0 n)) = f0).
  { cbn [round_ndigits f0]. change (S754_zero false) with f0.
    unfold min_float. rewrite bound_above_zero. reflexivity. }
  assert (Z : clamp_number sf hi n (JFloat f0) = Ok (JFloat f0)).
  { unfold clamp_number. cbn [is_none py_float bind try_except].
    rewrite Z0. reflexivity. }
  unfold clamp_number at 1. destruct (is_none v) eqn:En.
  - intros [= <-]. unfold clamp_number. rewrite En. reflexivity.
  - destruct (py_float sf v) as [x|e]; cbn [bind try_except].
    + intros [= <-]. unfold clamp_number.
      cbn [is_none py_float bind try_except]. do 2 f_equal.
      set (r := round_ndigits x n).
      destruct (SFltb r hi) eqn:E1; [destruct (SFltb f0 r) eqn:E2|].
      * assert (F : max_float f0 (min_float hi r) = r)
          by (unfold max_float, min_float; rewrite E1, E2; reflexivity).
        rewrite F. subst r. rewrite (round_ndigits_stable x E2 E1). exact F.
      * assert (F : max_float f0 (min_float hi r) = f0)
          by (unfold max_float, min_float; rewrite E1, E2; reflexivity).
        rewrite F. exact Z0.
      * assert (F : max_float f0 (min_float hi r) = hi)
          by (unfold max_float, min_float; rewrite E1, bound_above_zero;
              reflexivity).
        rewrite F. exact bound_fixed.
    + destruct e; try discriminate; intros [= <-]; exact Z.
Qed.

End Stable.

Lemma digits_at_least d k :
  0 <= k -> 2 ^ k <= Zpos d -> k + 1 <= Zpos (digits2_pos d).
Proof.
  intros Hk H. destruct (digits2_pos_bounds d) as [_ U].
  apply Z.nlt_ge. intros L.
  assert (2 ^ Zpos (digits2_pos d) <= 2 ^ k) by (apply Z.pow_le_mono_r; lia).
  lia.
Qed.

Lemma large_10 d :
  2 ^ 8 <= Zpos d ->
  SFltb (nearest_quot false d (Z.to_pos (10 ^ Z.of_nat 1))) f10 = false.
Proof.
  intros H. pose proof (digits_at_least d 8 ltac:(lia) H) as D.
  change (Z.to_pos (10 ^ Z.of_nat 1)) with 10%positive.
  assert (P : Zpos 10 <= Zpos d) by (change (2 ^ 8) with 256 in H; lia).
  destruct (nearest_quot_exponent d 10 P) as [(m & e & -> & He)| ->];
    [|reflexivity].
  change (Zpos (digits2_pos 10)) with 4 in He.
  unfold SFltb, f10. cbn [SFcompare].
  destruct (Z.compare_spec e (-49)); first [reflexivity | lia].
Qed.

Lemma large_5 d :
  2 ^ 10 <= Zpos d ->
  SFltb (nearest_quot false d (Z.to_pos (10 ^ Z.of_nat 2))) f5 = false.
Proof.
  intros H. pose proof (digits_at_least d 10 ltac:(lia) H) as D.
  change (Z.to_pos (10 ^ Z.of_nat 2)) with 100%positive.
  assert (P : Zpos 100 <= Zpos d) by (change (2 ^ 10) with 1024 in H; lia).
  destruct (nearest_quot_exponent d 100 P) as [(m & e & -> & He)| ->];
    [|reflexivity].
  change (Zpos (digits2_pos 100)) with 7 in He.
  unfold SFltb, f5. cbn [SFcompare].
  destruct (Z.compare_spec e (-50)); first [reflexivity | lia].
Qed.

Lemma pain_index_stable sf v v' :
  clamp_number sf f10 1 v = Ok v' -> clamp_number sf f10 1 v' = Ok v'.
Proof.
  apply (clamp_number_stable 1 f10 100 8).
  - intros d Hd. apply (forallb_range (round_stable 1) 99 1 stable_below_10). lia.
  - intros d Hd. change (2 ^ 8) with 256 in Hd.
    apply (forallb_range (not_below f10 1) 156 100 not_below_10). lia.
  - exact large_10.
  - reflexivity.
  - vm_compute. reflexivity.
Qed.

Lemma star_rating_stable sf v v' :
  clamp_number sf f5 2 v = Ok v' -> clamp_number sf f5 2 v' = Ok v'.
Proof.
  apply (clamp_number_stable 2 f5 500 10).
  - intros d Hd. apply (forallb_range (round_stable 2) 499 1 stable_below_5). lia.
  - intros d Hd. change (2 ^ 10) with 1024 in Hd.
    apply (forallb_range (not_below f5 2) 524 500 not_below_5). lia.
  - exact large_5.
  - reflexivity.
  - vm_compute. reflexivity.
Qed.

(* ===================================================================== *)
(** * The pass on its own payload *)
(* ===================================================================== *)

Lemma object_or_not v : (exists d, v = JObj d) \/ (forall d, v <> JObj d).
Proof.
  destruct v; first [left; eexists; reflexivity | right; intros ?; discriminate].
Qed.

Lemma with_item_fixed d k f :
  (forall v, dict_get k d = Some v -> f v = Ok v) ->
  with_item (JObj d) k f = Ok (JObj d).
Proof.
  intros H. rewrite with_item_obj.
  destruct (dict_get k d) as [v|] eqn:E; [|reflexivity].
  rewrite (H v eq_refl). cbn [bind]. rewrite (dict_set_same _ _ _ E). reflexivity.
Qed.

(** A run of rules leaves a dict as it is when every rule leaves the value
    at its key as it is. *)
Lemma apply_rules_fixed rules d :
  (forall k f v, In (k, f) rules -> dict_get k d = Some v -> f v = Ok v) ->
  apply_rules rules (JObj d) = Ok (JObj d).
Proof.
  induction rules as [|[k f] rest IH]; intros H; [reflexivity|].
  cbn [apply_rules]. rewrite with_item_fixed.
  - cbn [bind]. apply IH. intros k' f' v' Hin. apply H. right. exact Hin.
  - intros v. apply H. left. reflexivity.
Qed.

Lemma apply_rules_same rules :
  forall v p,
    (forall d, v <> JObj d) -> apply_rules rules v = Ok p ->
    forall k f, In (k, f) rules -> with_item v k f = Ok v.
Proof.
  induction rules as [|[k0 g] rest IH]; intros v p Hv H k f Hin; [contradiction|].
  cbn [apply_rules] in H. apply bind_ok in H. destruct H as (v1 & H1 & H).
  pose proof (with_item_other _ _ _ _ Hv H1) as E. subst v1.
  destruct Hin as [E|Hin].
  - injection E as <- <-. exact H1.
  - exact (IH v p Hv H k f Hin).
Qed.

Lemma chain_single rules k g x :
  NoDup (map fst rules) -> In (k, g) rules -> chain k rules x = g x.
Proof.
  induction rules as [|[k0 g0] rest IH]; intros N Hin; [contradiction|].
  cbn [map fst] in N. inversion N as [|? ? Hn N']. subst.
  cbn [chain]. destruct Hin as [E|Hin].
  - injection E as -> ->. rewrite String.eqb_refl.
    destruct (g x) as [y|e]; cbn [bind]; [|reflexivity].
    apply chain_other. exact Hn.
  - destruct (String.eqb_spec k k0) as [->|_].
    + exfalso. apply Hn. apply in_map_iff. exists (k0, g). split; [reflexivity|exact Hin].
    + exact (IH N' Hin).
Qed.

(** After a run of rules with distinct keys, each of them stable on its
    results, every rule leaves the result as it is. *)
Lemma rules_stable rules v v' :
  (forall k g x x', In (k, g) rules -> g x = Ok x' -> g x' = Ok x') ->
  NoDup (map fst rules) ->
  apply_rules rules v = Ok v' ->
  forall k g, In (k, g) rules -> with_item v' k g = Ok v'.
Proof.
  intros S N H k g Hin.
  destruct (object_or_not v) as [(d & ->)|Hv].
  - apply apply_rules_obj in H. destruct H as (d' & -> & _ & Hv).
    apply with_item_fixed. intros x' Hx'.
    specialize (Hv k). destruct (dict_get k d) as [x|]; [|congruence].
    destruct Hv as (y & Hc & Hy). assert (y = x') by congruence. subst y.
    rewrite (chain_single _ _ _ _ N Hin) in Hc. exact (S k g x x' Hin Hc).
  - pose proof (apply_rules_other _ _ _ Hv H) as E. subst v'.
    exact (apply_rules_same _ _ _ Hv H k g Hin).
Qed.

Lemma substring_length n :
  forall s, (String.length (substring 0 n s) <= n)%nat.
Proof.
  induction n as [|n IH]; intros [|c s]; cbn [substring String.length]; try lia.
  specialize (IH s). lia.
Qed.

(** A truncation is stable on its results. *)
Lemma truncate_stable n v v' : truncate n v = Ok v' -> truncate n v' = Ok v'.
Proof.
  destruct v as [| | | |s|l|d]; try discriminate.
  - unfold truncate at 1. cbn [py_len bind].
    destruct (Z.of_nat n <? Z.of_nat (String.length s)) eqn:E; cbn [slice_to];
      intros H; injection H as <-; unfold truncate; cbn [py_len bind].
    + replace (Z.of_nat n <? Z.of_nat (String.length (substring 0 n s)))
        with false; [reflexivity|].
      symmetry. apply Z.ltb_ge. pose proof (substring_length n s). lia.
    + rewrite E. reflexivity.
  - rewrite truncate_arr. intros H. injection H as <-.
    rewrite truncate_arr, firstn_firstn, Nat.min_id. reflexivity.
  - unfold truncate at 1. cbn [py_len bind].
    destruct (Z.of_nat n <? Z.of_nat (List.length d)) eqn:E; cbn [slice_to];
      [discriminate|].
    intros H. injection H as <-. unfold truncate. cbn [py_len bind].
    rewrite E. reflexivity.
Qed.

Lemma percent_table : forallb percent_fixed (range 101 0) = true.
Proof. vm_compute. reflexivity. Qed.

Lemma clamp_percent_int sf n :
  0 <= n <= 100 -> clamp_percent sf (JInt n) = Ok (JInt n).
Proof.
  intros H.
  assert (P : percent_fixed n = true)
    by (apply (forallb_range percent_fixed 101 0 percent_table); lia).
  unfold percent_fixed in P. unfold clamp_percent. cbn [is_none py_float].
  destruct (float_of_int n) as [x|e]; cbn [bind] in *; [|discriminate].
  destruct (round_float x) as [r|e]; [|discriminate].
  apply Z.eqb_eq in P. subst r. cbn [bind try_except]. do 2 f_equal.
  unfold max_int, min_int.
  destruct (Z.ltb_spec n 100);
    match goal with
    | |- context [0 <? ?y] => destruct (Z.ltb_spec 0 y)
    end; lia.
Qed.

Lemma clamp_percent_stable sf v v' :
  clamp_percent sf v = Ok v' -> clamp_percent sf v' = Ok v'.
Proof.
  intros H. destruct (clamp_percent_range sf v v' H) as [[_ ->]|(n & -> & Hn)].
  - reflexivity.
  - apply clamp_percent_int. exact Hn.
Qed.

Lemma clamp_count_stable si v v' :
  clamp_count si v = Ok v' -> clamp_count si v' = Ok v'.
Proof.
  intros H. destruct (clamp_count_range si v v' H) as [->|(n & -> & Hn)].
  - reflexivity.
  - unfold clamp_count. cbn [is_none py_int bind try_except]. do 2 f_equal.
    unfold max_int. destruct (Z.ltb_spec 0 n); lia.
Qed.

Lemma enum_stable allowed default v v' :
  existsb (fun a => is_str a (JStr default)) allowed = true ->
  enum allowed default v = Ok v' -> enum allowed default v' = Ok v'.
Proof.
  intros D. unfold enum.
  destruct (existsb (fun a => is_str a v) allowed) eqn:E; intros H;
    injection H as <-.
  - rewrite E. reflexivity.
  - rewrite D. reflexivity.
Qed.

Lemma header_rule_stable sf si k g x x' :
  In (k, g) (header_rules sf si) -> g x = Ok x' -> g x' = Ok x'.
Proof.
  unfold header_rules. cbn [In].
  intros [E|[E|[E|[E|[]]]]]; injection E as <- <-.
  - apply star_rating_stable.
  - apply enum_stable. reflexivity.
  - apply enum_stable. reflexivity.
  - apply clamp_count_stable.
Qed.

Lemma header_keys_distinct sf si : NoDup (map fst (header_rules sf si)).
Proof.
  unfold header_rules. cbn [map fst].
  repeat (constructor; [cbn [In]; intuition discriminate|]).
  constructor.
Qed.

(** After the statements on the header each of them leaves it as it
    is. *)
Lemma header_stable sf si v v' :
  chain "header" (top_rules sf si) v = Ok v' ->
  forall k g, In (k, g) (header_rules sf si) -> with_item v' k g = Ok v'.
Proof.
  intros H. rewrite header_chain in H.
  exact (rules_stable _ _ _ (header_rule_stable sf si)
           (header_keys_distinct sf si) H).
Qed.

Lemma member_at k s x : dict_get k s = Some x -> member k s = x.
Proof. unfold member. intros ->. reflexivity. Qed.

(** After the statements on the sentiment, a sentiment without a
    negative member is left as it is by the clamps and by the
    renormalization. *)
Lemma sentiment_statements_stable sf si v s :
  chain "sentiment" (top_rules sf si) v = Ok (JObj s) ->
  (forall n, dict_get "positive" s = Some (JInt n) -> 0 <= n) ->
  (sent <- clamp_sentiment sf (JObj s) ;; renormalize sent) = Ok (JObj s).
Proof.
  intros H Hpos.
  destruct (sentiment_after sf si v _ H)
    as (s' & a & b & c & E & Ea & Eb & Ec & Ha & Hb & Hc & Hsum).
  injection E as <-.
  assert (Hc' : 0 <= c <= 100).
  { split; [|lia]. unfold member in Ec.
    destruct (dict_get "positive" s) as [x|] eqn:Ep.
    - subst x. apply Hpos. reflexivity.
    - injection Ec as <-. lia. }
  rewrite clamp_sentiment_rules.
  rewrite apply_rules_fixed.
  - cbn [bind]. rewrite (renormalize_members s a b c Ea Eb Ec Ha Hb Hc').
    replace ((a + b + c =? 0) || (a + b + c =? 100)) with true; [reflexivity|].
    symmetry. apply orb_true_iff.
    destruct Hsum as [S|S]; [right | left]; apply Z.eqb_eq; exact S.
  - intros k f x Hin Hx. unfold sentiment_rules in Hin. cbn [In] in Hin.
    apply member_at in Hx.
    destruct Hin as [E|[E|[E|[]]]]; injection E as <- <-.
    + rewrite Ea in Hx. subst x. apply clamp_percent_int. exact Ha.
    + rewrite Eb in Hx. subst x. apply clamp_percent_int. exact Hb.
    + rewrite Ec in Hx. subst x. apply clamp_percent_int. exact Hc'.
Qed.

Lemma sentiment_samples_stable sf si v s :
  chain "sentiment" (top_rules sf si) v = Ok (JObj s) ->
  with_item (JObj s) "samples" (truncate 4) = Ok (JObj s).
Proof.
  intros H. rewrite sentiment_chain in H.
  apply bind_ok in H. destruct H as (s1 & _ & H).
  apply bind_ok in H. destruct H as (s2 & _ & H).
  apply with_item_fixed. intros w Hw.
  assert (G : getitem (JObj s) "samples" = Ok w) by (cbn [getitem]; rewrite Hw; reflexivity).
  destruct (with_item_getitem _ _ _ _ _ H G) as (d & w0 & _ & _ & Ht).
  exact (truncate_stable _ _ _ Ht).
Qed.

Lemma mapM_fixed {A} (f : A -> result A) l :
  Forall (fun x => f x = Ok x) l -> mapM f l = Ok l.
Proof.
  induction 1 as [|a l Ha Hl IH]; [reflexivity|].
  cbn [mapM]. rewrite Ha. cbn [bind]. rewrite IH. reflexivity.
Qed.

Lemma percent_entry_stable sf e e' :
  with_item e "percent" (clamp_percent sf) = Ok e' ->
  with_item e' "percent" (clamp_percent sf) = Ok e'.
Proof.
  intros H.
  assert (R : apply_rules [("percent", clamp_percent sf)] e = Ok e')
    by (cbn [apply_rules]; rewrite H; reflexivity).
  apply (rules_stable [("percent", clamp_percent sf)] e e'); [| |exact R|].
  - intros k g x x' [E|[]]. injection E as <- <-. apply clamp_percent_stable.
  - repeat constructor. intros [].
  - left. reflexivity.
Qed.

Lemma problems_stable sf si v v' :
  chain "problem_distribution" (top_rules sf si) v = Ok v' ->
  chain "problem_distribution" (top_rules sf si) v' = Ok v'.
Proof.
  unfold top_rules, chain. cbn [String.eqb Ascii.eqb Bool.eqb].
  intros H. apply bind_ok in H. destruct H as (y & H & E). injection E as ->.
  destruct v as [| | | | |l|];
    try (apply bind_ok in H; destruct H as (probs & Hi & H);
         apply bind_ok in H; destruct H as (probs' & Hm & H);
         injection H as <-; rewrite Hi; cbn [bind]; rewrite Hm; reflexivity).
  cbn [iterate bind] in H.
  apply bind_ok in H. destruct H as (l' & Hm & H). injection H as <-.
  cbn [iterate bind]. rewrite mapM_fixed; [reflexivity|].
  apply mapM_Forall2 in Hm. apply Forall_forall. intros e' Hin.
  destruct (Forall2_in_r _ _ _ _ Hm Hin) as (e & _ & He).
  exact (percent_entry_stable sf e e' He).
Qed.

(** X17.  The pass run on its own payload leaves it as it is, unless the
    payload has a negative [sentiment.positive]: whenever the pass yields
    a payload whose [sentiment.positive] is not a negative integer, a
    second pass completes and yields the same payload.  The scores are
    stable because a float that [round(_, n)] returned is rounded to
    itself. *)
Theorem repair_stable :
  forall str_to_float str_to_int c p,
    repair str_to_float str_to_int c = Ok p ->
    positive_not_negative p = true ->
    repair str_to_float str_to_int p = Ok p.
Proof.
  intros sf si c p H Hpos.
  rewrite repair_rules in *.
  destruct (object_or_not c) as [(d & ->)|Hc].
  2:{ pose proof (apply_rules_other _ _ _ Hc H) as E. subst p. exact H. }
  apply apply_rules_obj in H. destruct H as (d' & -> & _ & Hv).
  apply apply_rules_fixed. intros k f v' Hin Hd'.
  specialize (Hv k). destruct (dict_get k d) as [v|]; [|congruence].
  destruct Hv as (y & Hc & Hy). assert (y = v') by congruence. subst y.
  assert (T : forall n,
             chain k (top_rules sf si) v = (x <- truncate n v ;; Ok x) ->
             truncate n v' = Ok v').
  { intros n E. rewrite E, bind_ret in Hc. exact (truncate_stable _ _ _ Hc). }
  unfold top_rules in Hin. cbn [In] in Hin.
  destruct Hin as [E|[E|[E|[E|[E|[E|[E|[E|[E|[E|[E|[E|[E|[]]]]]]]]]]]]]];
    injection E as <- <-.
  - rewrite pain_index_chain in Hc. exact (pain_index_stable sf v v' Hc).
  - apply (header_stable sf si v v' Hc). unfold header_rules. cbn [In]. tauto.
  - destruct (sentiment_after sf si v v' Hc) as (s & _ & _ & _ & -> & _).
    apply (sentiment_statements_stable sf si v s Hc).
    intros n Hn. cbn [positive_not_negative] in Hpos.
    rewrite Hd', Hn in Hpos. apply Z.leb_le. exact Hpos.
  - pose proof (problems_stable sf si v v' Hc) as P.
    unfold top_rules, chain in P. cbn [String.eqb Ascii.eqb Bool.eqb] in P.
    rewrite bind_ret in P. exact P.
  - apply T. reflexivity.
  - apply T. reflexivity.
  - apply T. reflexivity.
  - apply T. reflexivity.
  - apply T. reflexivity.
  - apply T. reflexivity.
  - destruct (sentiment_after sf si v v' Hc) as (s & _ & _ & _ & -> & _).
    exact (sentiment_samples_stable sf si v s Hc).
  - rewrite (header_stable sf si v v' Hc "status")
      by (unfold header_rules; cbn [In]; tauto).
    cbn [bind].
    apply (header_stable sf si v v' Hc). unfold header_rules. cbn [In]. tauto.
  - apply (header_stable sf si v v' Hc). unfold header_rules. cbn [In]. tauto.
Qed.

Lemma repair_stable_witness :
  repair no_float no_int
    (JObj [("pain_index", JFloat f10);
           ("sentiment",
            JObj [("negative", JInt 100); ("neutral", JInt 0);
                  ("positive", JInt 0)])])
  = Ok (JObj [("pain_index", JFloat f10);
              ("sentiment",
               JObj [("negative", JInt 100); ("neutral", JInt 0);
                     ("positive", JInt 0)])]).
Proof.
  exact (repair_stable no_float no_int
           (JObj [("pain_index", JInt 12);
                  ("sentiment", JObj [("negative", JInt 50)])])
           _ eq_refl eq_refl).
Defined.
